(** * Label transform component of FATE: federatedml/util/label_transform.py

    A shallow embedding of [LabelTransformer] and [load_value_to_type],
    followed by the properties of the encoder, of the per-record
    rewrites and of the persistence round trip. *)

From Stdlib Require Import List ZArith QArith Bool String Ascii Lia.
From Stdlib Require Import Permutation Sorted DecimalString.
From Stdlib Require Import SpecFloat.
Import ListNotations.

Local Open Scope string_scope.
Local Open Scope Z_scope.
Local Open Scope list_scope.

(** ** Python values *)

(** The labels the component handles: [None], [int], [float] (IEEE
    binary64, as [spec_float]) and [str], a string of characters with
    one [ascii] per character. *)
Inductive value : Type :=
  | VNone
  | VInt (z : Z)
  | VFloat (f : spec_float)
  | VStr (s : string).

(** Exceptions raised by the code or by the built-ins it calls. *)
Inductive error : Type :=
  | ValueError (msg : string)
  | KeyError (k : value)
  | TypeError (msg : string)
  | AttributeError (msg : string)
  | IndexError (msg : string).

Inductive result (A : Type) : Type :=
  | Ok (a : A)
  | Err (e : error).
Arguments Ok {A} a.
Arguments Err {A} e.

Definition bind {A B : Type} (r : result A) (k : A -> result B) : result B :=
  match r with
  | Ok a => k a
  | Err e => Err e
  end.

Notation "x <- e1 ;; e2" := (bind e1 (fun x => e2))
  (at level 61, e1 at next level, right associativity).
Notation "' p <- e1 ;; e2" := (bind e1 (fun x => match x with p => e2 end))
  (at level 61, p pattern, e1 at next level, right associativity).

(** [type(v).__name__] *)
Definition type_name (v : value) : string :=
  match v with
  | VNone => "NoneType"
  | VInt _ => "int"
  | VFloat _ => "float"
  | VStr _ => "str"
  end.

(** *** Numeric comparison

    Python compares [int] and [float] by exact numeric value.  Every
    number is read as an extended rational. *)
Inductive xnum : Type :=
  | XNaN
  | XNegInf
  | XFin (q : Q)
  | XPosInf.

Definition xnum_of_float (f : spec_float) : xnum :=
  match f with
  | S754_zero _ => XFin 0%Q
  | S754_infinity true => XNegInf
  | S754_infinity false => XPosInf
  | S754_nan => XNaN
  | S754_finite s m e =>
      XFin (inject_Z (if s then Z.neg m else Z.pos m) * Qpower 2 e)%Q
  end.

Definition xnum_of_value (v : value) : option xnum :=
  match v with
  | VInt z => Some (XFin (inject_Z z))
  | VFloat f => Some (xnum_of_float f)
  | _ => None
  end.

Definition xnum_eqb (a b : xnum) : bool :=
  match a, b with
  | XNegInf, XNegInf => true
  | XPosInf, XPosInf => true
  | XFin p, XFin q => Qeq_bool p q
  | _, _ => false
  end.

Definition xnum_ltb (a b : xnum) : bool :=
  match a, b with
  | XNaN, _ | _, XNaN => false
  | XNegInf, XNegInf => false
  | XNegInf, _ => true
  | _, XNegInf => false
  | XPosInf, _ => false
  | XFin _, XPosInf => true
  | XFin p, XFin q => match (p ?= q)%Q with Lt => true | _ => false end
  end.

(** [a == b]; also the key equality of [dict] and [set].  CPython
    compares keys by identity before it tries [==]; the two part only
    for NaN, which is not equal to itself.  Values carry no identity
    here: every NaN is an object of its own, never found again as a key
    and never merged with another.  Statements that depend on the keys
    of a dictionary say so when they need labels other than NaN. *)
Definition py_eqb (a b : value) : bool :=
  match a, b with
  | VNone, VNone => true
  | VStr s, VStr t => String.eqb s t
  | _, _ =>
      match xnum_of_value a, xnum_of_value b with
      | Some x, Some y => xnum_eqb x y
      | _, _ => false
      end
  end.

(** [a < b]: [None] when the operands do not support [<]
    (a [TypeError] in Python). *)
Definition py_lt (a b : value) : option bool :=
  match a, b with
  | VStr s, VStr t => Some (String.ltb s t)
  | _, _ =>
      match xnum_of_value a, xnum_of_value b with
      | Some x, Some y => Some (xnum_ltb x y)
      | _, _ => None
      end
  end.

Definition py_ltb (a b : value) : bool :=
  match py_lt a b with Some true => true | _ => false end.

Definition comparable (a b : value) : bool :=
  match py_lt a b with Some _ => true | None => false end.

(** ** Dictionaries

    A [dict] keeps insertion order; assigning to a key that is already
    present keeps the stored key and replaces its value. *)
Section Dict.
Context {K V : Type}.
Variable eqb : K -> K -> bool.

Fixpoint dict_get (d : list (K * V)) (k : K) : option V :=
  match d with
  | [] => None
  | (k', v) :: r => if eqb k k' then Some v else dict_get r k
  end.

Fixpoint dict_set (d : list (K * V)) (k : K) (v : V) : list (K * V) :=
  match d with
  | [] => [(k, v)]
  | (k', v') :: r =>
      if eqb k k' then (k', v) :: r else (k', v') :: dict_set r k v
  end.

(** [dict(pairs)] and [{k: v for ...}] *)
Definition dict_of_items (l : list (K * V)) : list (K * V) :=
  fold_left (fun d kv => dict_set d (fst kv) (snd kv)) l [].
End Dict.

Definition dict (K V : Type) : Type := list (K * V).
Definition keys {K V : Type} (d : dict K V) : list K := map fst d.
Definition values {K V : Type} (d : dict K V) : list V := map snd d.

(** A [set] of labels, in first-insertion order. *)
Definition set_add (s : list value) (x : value) : list value :=
  if existsb (py_eqb x) s then s else s ++ [x].

(** ** [sorted] *)

Fixpoint pairwise (P : value -> value -> bool) (l : list value) : bool :=
  match l with
  | [] => true
  | x :: r => forallb (P x) r && pairwise P r
  end.

Fixpoint insert_sorted (x : value) (l : list value) : list value :=
  match l with
  | [] => [x]
  | y :: r => if py_ltb y x then y :: insert_sorted x r else x :: y :: r
  end.

Definition sort_values (l : list value) : list value :=
  fold_right insert_sorted [] l.

(** [sorted(l)]: a stable sort by [<]; it raises [TypeError] when two
    of the elements do not support [<].  Where [<] orders the elements
    totally the result is the increasing list, whatever the algorithm.
    With NaN among the elements the result depends on the algorithm:
    the insertion sort here agrees with CPython's on lists of at most
    two elements, and the statements about the order of longer lists
    exclude NaN. *)
Definition sorted (l : list value) : result (list value) :=
  if pairwise comparable l then Ok (sort_values l)
  else Err (TypeError "'<' not supported").

(** [range(n)] *)
Definition range (n : nat) : list value :=
  map (fun i => VInt (Z.of_nat i)) (seq 0 n).

(** ** The runtime outside the repository

    [str] of a float and the numpy constructors reached through
    [getattr(np, value_type)] belong to Python and numpy; they are taken
    as given. *)
Class Runtime : Type := {
  (** [str(x)] for a float [x] *)
  float_str : spec_float -> string;
  (** [getattr(np, name)(v)] for [name] among
      int, int64, long, float, float64, double *)
  np_call : string -> value -> result value
}.

(** [np.int] and [np.float] are the built-in [int] and [float]: applied
    to an object of their own type they return its value. *)
Definition np_keeps_typed `{Runtime} : Prop :=
  (forall z, np_call "int" (VInt z) = Ok (VInt z)) /\
  (forall f, np_call "float" (VFloat f) = Ok (VFloat f)).

(** [str(v)] *)
Definition py_str `{Runtime} (v : value) : string :=
  match v with
  | VNone => "None"
  | VInt z => NilZero.string_of_int (Z.to_int z)
  | VFloat f => float_str f
  | VStr s => s
  end.

Definition str_in (s : string) (l : list string) : bool :=
  existsb (String.eqb s) l.

Definition load_value_to_type `{Runtime} (val : value) (value_type : string)
  : result value :=
  match val with
  | VNone => Ok VNone
  | _ =>
      if str_in value_type ["int"; "int64"; "long"; "float"; "float64"; "double"]
      then np_call value_type val
      else if str_in value_type ["str"; "_str"]
      then Ok (VStr (py_str val))
      else Err (ValueError ("unknown value type: " ++ value_type))
  end.

(** ** Records and datasets *)

(** Modelled from the spec: federatedml.feature.instance.Instance is not
    among the sources; a TrainingRecord carries a label field plus its
    feature payload. *)
Record Instance : Type := mkInstance {
  inst_id : value;
  weight : value;
  features : list value;
  label : value
}.

Definition set_label (i : Instance) (l : value) : Instance :=
  mkInstance (inst_id i) (weight i) (features i) l.

(** A PredictionResult: [true_label, predict_label, predict_score,
    predict_detail], the last one a mapping from label to score. *)
Record PredictResult : Type := mkPredict {
  true_label : value;
  predict_label : value;
  predict_score : value;
  predict_detail : dict value value
}.

Inductive record : Type :=
  | RInstance (i : Instance)
  | RPredict (p : PredictResult).

Definition is_Instance (r : record) : bool :=
  match r with RInstance _ => true | RPredict _ => false end.

(** Modelled from the spec: the dataset abstraction is an external
    collaborator with [first()], giving one (key, value) pair, and
    [mapValues(f)], applying [f] to every value and keeping the keys;
    the schema attribute is managed by the caller. *)
Record Table : Type := mkTable {
  rows : list (value * record);
  schema : option (list string)
}.

(** Modelled from the spec: [first()] gives one (key, value) pair of the
    dataset; there is none in an empty dataset and subscripting the
    result fails. *)
Definition first (data : Table) : result (value * record) :=
  match rows data with
  | kv :: _ => Ok kv
  | [] => Err (TypeError "'NoneType' object is not subscriptable")
  end.

Fixpoint map_rows (f : record -> result record) (l : list (value * record))
  : result (list (value * record)) :=
  match l with
  | [] => Ok []
  | (k, v) :: r =>
      v' <- f v ;;
      r' <- map_rows f r ;;
      Ok ((k, v') :: r')
  end.

(** Modelled from the spec: [mapValues(f)] gives a new dataset with [f]
    applied to every value under its key; an exception raised by [f]
    ends the call. *)
Definition mapValues (f : record -> result record) (data : Table) : result Table :=
  l <- map_rows f (rows data) ;;
  Ok (mkTable l None).

Definition set_schema (t : Table) (s : option (list string)) : Table :=
  mkTable (rows t) s.

(** Modelled from the spec: federatedml.statistic.data_overview.get_label_count
    is not among the sources; it computes the multiset of label field
    values across all records, as a mapping from label to count. *)
Fixpoint count_labels (l : list (value * record)) (acc : dict value Z)
  : result (dict value Z) :=
  match l with
  | [] => Ok acc
  | (_, RInstance i) :: r =>
      let c := match dict_get py_eqb acc (label i) with
               | Some n => n
               | None => 0
               end in
      count_labels r (dict_set py_eqb acc (label i) (c + 1))
  | (_, RPredict _) :: _ =>
      Err (AttributeError "'list' object has no attribute 'label'")
  end.

(** Modelled from the spec: [get_label_count(data)], the mapping from
    each distinct label of the records to its count. *)
Definition get_label_count (data : Table) : result (dict value Z) :=
  count_labels (rows data) [].

(** Modelled from the spec: federatedml.statistic.data_overview.get_predict_result_labels
    is not among the sources; it computes the union of true_label,
    predicted_label and the key set of every predicted_detail mapping
    across all records. *)
Fixpoint collect_predict_labels (l : list (value * record)) (acc : list value)
  : result (list value) :=
  match l with
  | [] => Ok acc
  | (_, RPredict p) :: r =>
      collect_predict_labels r
        (fold_left set_add (keys (predict_detail p))
           (set_add (set_add acc (true_label p)) (predict_label p)))
  | (_, RInstance _) :: _ =>
      Err (TypeError "'Instance' object is not subscriptable")
  end.

(** Modelled from the spec: [get_predict_result_labels(data)], the set
    of labels met in the prediction results. *)
Definition get_predict_result_labels (data : Table) : result (list value) :=
  collect_predict_labels (rows data) [].

Fixpoint map_result {A B : Type} (f : A -> result B) (l : list A)
  : result (list B) :=
  match l with
  | [] => Ok []
  | a :: r =>
      b <- f a ;;
      r' <- map_result f r ;;
      Ok (b :: r')
  end.

(** ** Persisted records *)

(** Modelled from the spec: the generated modules label_transform_meta_pb2
    and label_transform_param_pb2 are not among the sources;
    LabelTransformMeta { need_run: bool } and LabelTransformParam
    { label_encoder, encoder_key_type, encoder_value_type :
    map<string,string> }. *)
Module label_transform_meta_pb2.
Record LabelTransformMeta : Type := mk {
  need_run : bool
}.
End label_transform_meta_pb2.

Module label_transform_param_pb2.
Record LabelTransformParam : Type := mk {
  label_encoder : dict string string;
  encoder_key_type : dict string string;
  encoder_value_type : dict string string
}.
End label_transform_param_pb2.

Inductive message : Type :=
  | MetaMsg (m : label_transform_meta_pb2.LabelTransformMeta)
  | ParamMsg (p : label_transform_param_pb2.LabelTransformParam).

(** A mapping from [str] to [str] held by the component: a Python
    [dict], or the map field of a loaded message. *)
Inductive strmap : Type :=
  | PyDict (d : dict string string)
  | PbMap (d : dict string string).

Definition strmap_entries (m : strmap) : dict string string :=
  match m with PyDict d | PbMap d => d end.

(** [m[k]]: a [dict] raises [KeyError] on an absent key; a protobuf map
    field adds the absent key with the empty string and returns that. *)
Definition strmap_getitem (m : strmap) (k : string) : strmap * result string :=
  match dict_get String.eqb (strmap_entries m) k with
  | Some v => (m, Ok v)
  | None =>
      match m with
      | PyDict _ => (m, Err (KeyError (VStr k)))
      | PbMap d => (PbMap (dict_set String.eqb d k ""), Ok "")
      end
  end.

(** ** The component *)

Inductive event : Type :=
  | CallbackMetric (metric_name metric_namespace : string)
                   (metric_data : list (string * Z))
  | SetMetricMeta (metric_namespace metric_name : string)
                  (name metric_type : string)
                  (extra_label_encoder : option (dict value value)).

Record LabelTransformer : Type := mkLabelTransformer {
  need_run : bool;
  label_encoder : option (dict value value);
  label_list : option (list value);
  encoder_key_type : option strmap;
  encoder_value_type : option strmap;
  model_output : option (dict string message);
  tracker : list event
}.

Definition metric_name : string := "label_transform".
Definition metric_namespace : string := "train".
Definition metric_type : string := "LABEL_TRANSFORM".
Definition model_param_name : string := "LabelTransformParam".
Definition model_meta_name : string := "LabelTransformMeta".

Definition set_need_run (self : LabelTransformer) (b : bool) :=
  mkLabelTransformer b (label_encoder self) (label_list self)
    (encoder_key_type self) (encoder_value_type self) (model_output self)
    (tracker self).

Definition set_label_encoder (self : LabelTransformer)
  (e : option (dict value value)) :=
  mkLabelTransformer (need_run self) e (label_list self)
    (encoder_key_type self) (encoder_value_type self) (model_output self)
    (tracker self).

Definition set_encoder_key_type (self : LabelTransformer) (m : option strmap) :=
  mkLabelTransformer (need_run self) (label_encoder self) (label_list self)
    m (encoder_value_type self) (model_output self) (tracker self).

Definition set_encoder_value_type (self : LabelTransformer) (m : option strmap) :=
  mkLabelTransformer (need_run self) (label_encoder self) (label_list self)
    (encoder_key_type self) m (model_output self) (tracker self).

Definition set_model_output (self : LabelTransformer)
  (o : option (dict string message)) :=
  mkLabelTransformer (need_run self) (label_encoder self) (label_list self)
    (encoder_key_type self) (encoder_value_type self) o (tracker self).

Definition emit (self : LabelTransformer) (evs : list event) :=
  mkLabelTransformer (need_run self) (label_encoder self) (label_list self)
    (encoder_key_type self) (encoder_value_type self) (model_output self)
    (tracker self ++ evs).

(** The state [__init__] followed by [_init_model(params)] leaves. *)
Definition _init_model (p_need_run : bool)
  (p_label_encoder : option (dict value value))
  (p_label_list : option (list value)) : LabelTransformer :=
  mkLabelTransformer p_need_run p_label_encoder p_label_list None None None [].

(** [d[k]] on a [dict] keyed by labels *)
Definition getitem (d : dict value value) (k : value) : result value :=
  match dict_get py_eqb d k with
  | Some v => Ok v
  | None => Err (KeyError k)
  end.

(** [k, v = x]: unpacking an object into two targets, as the loop
    header [for k, v in ...] does with each item. *)
Definition unpack2 (x : value) : result (value * value) :=
  match x with
  | VStr s =>
      match list_ascii_of_string s with
      | [a; b] => Ok (VStr (String a ""), VStr (String b ""))
      | [] | [_] => Err (ValueError "not enough values to unpack (expected 2)")
      | _ => Err (ValueError "too many values to unpack (expected 2)")
      end
  | _ => Err (TypeError "cannot unpack non-iterable object")
  end.

Section Component.
Context {RT : Runtime}.

(** The comprehension
    [{load_value_to_type(k, self.encoder_key_type[str(k)]): v for k, v in items}];
    the key-type mapping is threaded through since reading it can
    add a key. *)
Fixpoint rekey (items : list (value * value)) (kt : strmap)
  (acc : dict value value) : strmap * result (dict value value) :=
  match items with
  | [] => (kt, Ok acc)
  | (k, v) :: r =>
      match strmap_getitem kt (py_str k) with
      | (kt1, Err e) => (kt1, Err e)
      | (kt1, Ok tag) =>
          match load_value_to_type k tag with
          | Err e => (kt1, Err e)
          | Ok k' => rekey r kt1 (dict_set py_eqb acc k' v)
          end
      end
  end.

(** The labels found in [data], before sorting. *)
Definition discover_labels (data : Table) : result (list value) :=
  kv <- first data ;;
  if is_Instance (snd kv)
  then label_count <- get_label_count data ;; Ok (keys label_count)
  else get_predict_result_labels data.

Definition get_label_encoder (self : LabelTransformer) (data : Table)
  : LabelTransformer * result (dict value value) :=
  let chosen : result (LabelTransformer * dict value value) :=
    match label_encoder self with
    | Some enc =>
        match label_list self with
        | Some ll =>
            Ok (set_encoder_key_type self
                  (Some (PyDict (dict_of_items String.eqb
                     (map (fun v => (py_str v, type_name v)) ll)))), enc)
        | None => Ok (self, enc)
        end
    | None =>
        found <- discover_labels data ;;
        labels <- sorted found ;;
        let enc := dict_of_items py_eqb
                     (combine labels (range (List.length labels))) in
        Ok (set_label_encoder self (Some enc), enc)
    end in
  match chosen with
  | Err e => (self, Err e)
  | Ok (self1, enc) =>
      let kt :=
        match encoder_key_type self1 with
        | None => PyDict (dict_of_items String.eqb
                    (map (fun k => (py_str k, type_name k)) (keys enc)))
        | Some m => m
        end in
      let vt := PyDict (dict_of_items String.eqb
                  (map (fun kv => (py_str (fst kv), type_name (snd kv))) enc)) in
      let self2 := set_encoder_value_type self1 (Some vt) in
      let '(kt', r) := rekey enc kt [] in
      (set_encoder_key_type self2 (Some kt'), r)
  end.

Definition _get_meta (self : LabelTransformer)
  : label_transform_meta_pb2.LabelTransformMeta :=
  label_transform_meta_pb2.mk (need_run self).

Definition map_field (m : option strmap) : dict string string :=
  match m with
  | Some m => strmap_entries m
  | None => []
  end.

(** [for k, v in self.label_encoder] iterates over the keys of the
    dict and unpacks each key. *)
Definition _get_param (self : LabelTransformer)
  : result label_transform_param_pb2.LabelTransformParam :=
  ks <- match label_encoder self with
        | Some d => Ok (keys d)
        | None => Err (TypeError "'NoneType' object is not iterable")
        end ;;
  items <- map_result
             (fun key => kv <- unpack2 key ;;
                         Ok (py_str (fst kv), py_str (snd kv))) ks ;;
  Ok (label_transform_param_pb2.mk
        (dict_of_items String.eqb items)
        (map_field (encoder_key_type self))
        (map_field (encoder_value_type self))).

Definition export_model (self : LabelTransformer)
  : LabelTransformer * result (dict string message) :=
  let meta_obj := _get_meta self in
  match _get_param self with
  | Err e => (self, Err e)
  | Ok param_obj =>
      let result := [(model_meta_name, MetaMsg meta_obj);
                     (model_param_name, ParamMsg param_obj)] in
      (set_model_output self (Some result), Ok result)
  end.

(** The comprehension of [load_model]:
    [{load_value_to_type(k, self.encoder_key_type[k]):
      load_value_to_type(v, self.encoder_value_type[k]) for k, v in items}],
    key expression first; both type maps are threaded through.  The
    entries are visited in the order of the list that stands for the
    map field; a protobuf map yields them in an order of its own, so the
    statements about [load_model] are made for every order. *)
Fixpoint load_items (items : list (string * string)) (kt vt : strmap)
  (acc : dict value value) : strmap * strmap * result (dict value value) :=
  match items with
  | [] => (kt, vt, Ok acc)
  | (k, v) :: r =>
      match strmap_getitem kt k with
      | (kt1, Err e) => (kt1, vt, Err e)
      | (kt1, Ok tk) =>
          match load_value_to_type (VStr k) tk with
          | Err e => (kt1, vt, Err e)
          | Ok k' =>
              match strmap_getitem vt k with
              | (vt1, Err e) => (kt1, vt1, Err e)
              | (vt1, Ok tv) =>
                  match load_value_to_type (VStr v) tv with
                  | Err e => (kt1, vt1, Err e)
                  | Ok v' => load_items r kt1 vt1 (dict_set py_eqb acc k' v')
                  end
              end
          end
      end
  end.

(** [list(model_dict.get('model').values())[0].get(name)] *)
Definition model_entry (model_dict : dict string (dict string (dict string message)))
  (name : string) : result (option message) :=
  match dict_get String.eqb model_dict "model" with
  | None => Err (AttributeError "'NoneType' object has no attribute 'values'")
  | Some m =>
      match values m with
      | [] => Err (IndexError "list index out of range")
      | c :: _ => Ok (dict_get String.eqb c name)
      end
  end.

Definition load_model (self : LabelTransformer)
  (model_dict : dict string (dict string (dict string message)))
  : LabelTransformer * result unit :=
  match model_entry model_dict model_meta_name with
  | Err e => (self, Err e)
  | Ok meta_obj =>
  match model_entry model_dict model_param_name with
  | Err e => (self, Err e)
  | Ok param_obj =>
  match meta_obj with
  | Some (MetaMsg m) =>
      let self1 := set_need_run self (label_transform_meta_pb2.need_run m) in
      match param_obj with
      | Some (ParamMsg p) =>
          let kt := PbMap (label_transform_param_pb2.encoder_key_type p) in
          let vt := PbMap (label_transform_param_pb2.encoder_value_type p) in
          match load_items (label_transform_param_pb2.label_encoder p) kt vt [] with
          | (kt', vt', r) =>
              let self2 := set_encoder_value_type
                             (set_encoder_key_type self1 (Some kt')) (Some vt') in
              match r with
              | Err e => (self2, Err e)
              | Ok enc => (set_label_encoder self2 (Some enc), Ok tt)
              end
          end
      | _ => (self1, Err (AttributeError "no attribute 'encoder_key_type'"))
      end
  | _ => (self, Err (AttributeError "no attribute 'need_run'"))
  end
  end
  end.

Definition callback_info (self : LabelTransformer) : LabelTransformer :=
  emit self
    [CallbackMetric metric_name metric_namespace [(metric_name, 0)];
     SetMetricMeta metric_namespace metric_name "train" metric_type
       (label_encoder self)].

Definition replace_instance_label (instance : record)
  (label_encoder : dict value value) : result record :=
  match instance with
  | RInstance i =>
      l <- getitem label_encoder (label i) ;;
      Ok (RInstance (set_label i l))
  | RPredict _ => Err (AttributeError "'list' object has no attribute 'label'")
  end.

Definition replace_predict_label (predict_result : record)
  (label_encoder : dict value value) : result record :=
  match predict_result with
  | RPredict p =>
      true_label' <- getitem label_encoder (true_label p) ;;
      predict_label' <- getitem label_encoder (predict_label p) ;;
      items <- map_result
                 (fun ls => l <- getitem label_encoder (fst ls) ;; Ok (l, snd ls))
                 (predict_detail p) ;;
      Ok (RPredict (mkPredict true_label' predict_label' (predict_score p)
                      (dict_of_items py_eqb items)))
  | RInstance _ => Err (TypeError "cannot unpack non-iterable Instance object")
  end.

Definition transform_data_label (data : Table) (label_encoder : dict value value)
  : result Table :=
  kv <- first data ;;
  if is_Instance (snd kv)
  then mapValues (fun v => replace_instance_label v label_encoder) data
  else mapValues (fun v => replace_predict_label v label_encoder) data.

(** [dict(zip(self.label_encoder.values(), self.label_encoder.keys()))] *)
Definition invert (enc : dict value value) : dict value value :=
  dict_of_items py_eqb (combine (values enc) (keys enc)).

Definition transform (self : LabelTransformer) (data : Table)
  : LabelTransformer * result Table :=
  match label_encoder self with
  | None =>
      (self, Err (ValueError "Input Label Encoder is None. Label Transform aborted."))
  | Some enc =>
      match first data with
      | Err e => (self, Err e)
      | Ok kv =>
          let label_encoder :=
            if negb (is_Instance (snd kv)) then invert enc else enc in
          match transform_data_label data label_encoder with
          | Err e => (self, Err e)
          | Ok result_data =>
              (callback_info self, Ok (set_schema result_data (schema data)))
          end
      end
  end.

Definition fit (self : LabelTransformer) (data : Table)
  : LabelTransformer * result Table :=
  match get_label_encoder self data with
  | (self1, Err e) => (self1, Err e)
  | (self1, Ok enc) =>
      let self2 := set_label_encoder self1 (Some enc) in
      match transform_data_label data enc with
      | Err e => (self2, Err e)
      | Ok result_data =>
          (callback_info self2, Ok (set_schema result_data (schema data)))
      end
  end.
End Component.

(** ** A runtime to evaluate on

    It settles the integer and text cases the way Python does
    ([int] of an [int], of a decimal string; [float] of a [float]) and
    renders a float by sign, mantissa and exponent. *)
Definition sample_float_str (f : spec_float) : string :=
  match f with
  | S754_zero false => "0.0"
  | S754_zero true => "-0.0"
  | S754_infinity false => "inf"
  | S754_infinity true => "-inf"
  | S754_nan => "nan"
  | S754_finite s m e =>
      (if s then "-" else "") ++ NilZero.string_of_int (Z.to_int (Z.pos m))
        ++ "p" ++ NilZero.string_of_int (Z.to_int e)
  end.

Definition sample_np_call (name : string) (v : value) : result value :=
  match v with
  | VInt z =>
      if str_in name ["int"; "int64"; "long"] then Ok (VInt z)
      else Err (TypeError "unsupported")
  | VFloat f =>
      if str_in name ["float"; "float64"; "double"] then Ok (VFloat f)
      else Err (TypeError "unsupported")
  | VStr s =>
      if str_in name ["int"; "int64"; "long"] then
        match NilZero.int_of_string s with
        | Some d => Ok (VInt (Z.of_int d))
        | None => Err (ValueError "invalid literal for int() with base 10")
        end
      else Err (ValueError "could not convert string to float")
  | VNone => Err (TypeError "argument must be a string or a number")
  end.

Definition sample_runtime : Runtime :=
  {| float_str := sample_float_str; np_call := sample_np_call |}.

(** ** The prediction-result rewrite on objects

    [replace_predict_label] receives a reference to a list object whose
    last item refers to a dict object.  The store below holds both kinds
    of object, so that what the call writes can be told apart from what
    it was given. *)
Inductive cell : Type :=
  | CVal (v : value)
  | CDict (l : nat).

Record heap : Type := mkHeap {
  lists : list (list cell);
  dicts : list (dict value value)
}.

Definition alloc_list (h : heap) (items : list cell) : heap * nat :=
  (mkHeap (lists h ++ [items]) (dicts h), List.length (lists h)).

Definition alloc_dict (h : heap) (d : dict value value) : heap * nat :=
  (mkHeap (lists h) (dicts h ++ [d]), List.length (dicts h)).

(** [copy.deepcopy] of the items of a list: values are immutable and
    shared, each dict object is copied once ([memo] maps a dict already
    copied to its copy). *)
Fixpoint deepcopy_cells (cs : list cell) (memo : list (nat * nat)) (h : heap)
  : heap * result (list cell) :=
  match cs with
  | [] => (h, Ok [])
  | CVal v :: r =>
      match deepcopy_cells r memo h with
      | (h', Ok r') => (h', Ok (CVal v :: r'))
      | (h', Err e) => (h', Err e)
      end
  | CDict l :: r =>
      match dict_get Nat.eqb memo l with
      | Some l' =>
          match deepcopy_cells r memo h with
          | (h', Ok r') => (h', Ok (CDict l' :: r'))
          | (h', Err e) => (h', Err e)
          end
      | None =>
          match nth_error (dicts h) l with
          | None => (h, Err (ValueError "dangling reference"))
          | Some d =>
              let '(h1, l') := alloc_dict h d in
              match deepcopy_cells r ((l, l') :: memo) h1 with
              | (h', Ok r') => (h', Ok (CDict l' :: r'))
              | (h', Err e) => (h', Err e)
              end
          end
      end
  end.

Definition deepcopy_list (l : nat) (h : heap) : heap * result (list cell) :=
  match nth_error (lists h) l with
  | None => (h, Err (ValueError "dangling reference"))
  | Some cs =>
      match deepcopy_cells cs [] h with
      | (h1, Ok cs') => (fst (alloc_list h1 cs'), Ok cs')
      | (h1, Err e) => (h1, Err e)
      end
  end.

(** [label_encoder[c]] for an item [c] of the list *)
Definition getitem_cell (label_encoder : dict value value) (c : cell)
  : result value :=
  match c with
  | CVal v => getitem label_encoder v
  | CDict _ => Err (TypeError "unhashable type: 'dict'")
  end.

Definition replace_predict_label_obj (predict_result : nat)
  (label_encoder : dict value value) (h : heap) : heap * result nat :=
  match deepcopy_list predict_result h with
  | (h1, Err e) => (h1, Err e)
  | (h1, Ok [true_label; predict_label; predict_score; predict_detail]) =>
      match getitem_cell label_encoder true_label with
      | Err e => (h1, Err e)
      | Ok true_label' =>
      match getitem_cell label_encoder predict_label with
      | Err e => (h1, Err e)
      | Ok predict_label' =>
      match predict_detail with
      | CVal _ => (h1, Err (AttributeError "object has no attribute 'items'"))
      | CDict l =>
          match nth_error (dicts h1) l with
          | None => (h1, Err (ValueError "dangling reference"))
          | Some d =>
              match map_result
                      (fun ls => k <- getitem label_encoder (fst ls) ;;
                                 Ok (k, snd ls)) d with
              | Err e => (h1, Err e)
              | Ok items =>
                  let '(h2, l') := alloc_dict h1 (dict_of_items py_eqb items) in
                  let '(h3, r) :=
                    alloc_list h2 [CVal true_label'; CVal predict_label';
                                   predict_score; CDict l'] in
                  (h3, Ok r)
              end
          end
      end
      end
      end
  | (h1, Ok _) => (h1, Err (ValueError "wrong number of values to unpack (expected 4)"))
  end.

(** The list object at [r] holds the prediction result [p]. *)
Definition holds (h : heap) (r : nat) (p : PredictResult) : Prop :=
  exists l,
    nth_error (lists h) r =
      Some [CVal (true_label p); CVal (predict_label p);
            CVal (predict_score p); CDict l] /\
    nth_error (dicts h) l = Some (predict_detail p).

(** Every object of [h] is still in [h'], unchanged. *)
Definition preserved (h h' : heap) : Prop :=
  (forall l x, nth_error (lists h) l = Some x -> nth_error (lists h') l = Some x) /\
  (forall l x, nth_error (dicts h) l = Some x -> nth_error (dicts h') l = Some x).

(** ** Vocabulary of the statements *)

(** The tags [load_value_to_type] recognises. *)
Definition recognized_tag (t : string) : bool :=
  str_in t ["int"; "int64"; "long"; "float"; "float64"; "double"; "str"; "_str"].

(** The tag a loaded map field gives for [k]. *)
Definition tag_of (m : dict string string) (k : string) : string :=
  match dict_get String.eqb m k with
  | Some t => t
  | None => ""
  end.

(** The label values a prediction result carries. *)
Definition carried (p : PredictResult) (k : value) : Prop :=
  k = true_label p \/ k = predict_label p \/ In k (keys (predict_detail p)).

(** No two elements of [l] are equal under [==]. *)
Definition distinct (l : list value) : Prop :=
  pairwise (fun a b => negb (py_eqb b a)) l = true.

(** Numbers other than NaN. *)
Definition is_number (v : value) : bool :=
  match v with
  | VInt _ => true
  | VFloat S754_nan => false
  | VFloat _ => true
  | _ => false
  end.

Definition is_text (v : value) : bool :=
  match v with VStr _ => true | _ => false end.

(** A label population that [<] orders totally: numbers, or text, or
    at most one label of any kind. *)
Definition ordered_population (l : list value) : Prop :=
  forallb is_number l = true \/ forallb is_text l = true \/
  (List.length l <= 1)%nat.

(** What the statements about discovery assume of Python and numpy:
    [np.int]/[np.float] keep an [int]/[float] as it is, and the text of
    a float is never the text of an integer. *)
Definition runtime_ok `{Runtime} : Prop :=
  np_keeps_typed /\ (forall f z, float_str f <> py_str (VInt z)).

(** A [str] of exactly two characters. *)
Definition two_chars (k : value) : bool :=
  match k with
  | VStr s => Nat.eqb (String.length s) 2
  | _ => false
  end.

(** Every entry of [items] is the entry of [d] at the same place, its
    key looked up in [enc] and its score kept. *)
Definition remapped (enc : dict value value) (d items : dict value value) : Prop :=
  Forall2 (fun ks ks' => dict_get py_eqb enc (fst ks) = Some (fst ks')
                         /\ snd ks' = snd ks) d items.


(** [a < b] holds. *)
Definition lt_value (a b : value) : Prop := py_ltb a b = true.

(** The two kinds of population [<] orders totally. *)
Definition total_class (C : value -> bool) : Prop :=
  (forall a b, C a = true -> C b = true -> comparable a b = true) /\
  (forall a b, C a = true -> C b = true ->
     py_ltb a b = true \/ py_eqb a b = true \/ py_ltb b a = true) /\
  (forall a b c, C a = true -> C b = true -> C c = true ->
     py_ltb a b = true -> py_ltb b c = true -> py_ltb a c = true).

(** The state discovery leaves behind. *)
Definition discovered `{Runtime} (self : LabelTransformer) (enc : dict value value)
  : LabelTransformer :=
  set_encoder_key_type
    (set_encoder_value_type (set_label_encoder self (Some enc))
       (Some (PyDict (dict_of_items String.eqb
          (map (fun kv => (py_str (fst kv), type_name (snd kv))) enc)))))
    (Some (PyDict (dict_of_items String.eqb
       (map (fun k => (py_str k, type_name k)) (keys enc))))).

(** The string is made of decimal digits and minus signs only. *)
Fixpoint plain (s : string) : bool :=
  match s with
  | EmptyString => true
  | String c r =>
      (Ascii.eqb c "-" || (Nat.leb 48 (nat_of_ascii c) && Nat.leb (nat_of_ascii c) 57))
      && plain r
  end.

(** The label values a record carries, in the order the scan meets them. *)
Definition record_labels (r : record) : list value :=
  match r with
  | RInstance i => [label i]
  | RPredict p => true_label p :: predict_label p :: keys (predict_detail p)
  end.

(** The label values of all records of the dataset, in row order. *)
Definition label_stream (data : Table) : list value :=
  flat_map (fun kr => record_labels (snd kr)) (rows data).

(** All records of the dataset are of one kind. *)
Definition one_kind (data : Table) : Prop :=
  forall kr kr', In kr (rows data) -> In kr' (rows data) ->
    is_Instance (snd kr) = is_Instance (snd kr').

Definition is_int (v : value) : bool :=
  match v with VInt _ => true | _ => false end.

(** Integer-only or text-only labels: [==] is then plain equality. *)
Definition exact_population (l : list value) : Prop :=
  forallb is_int l = true \/ forallb is_text l = true.

(** [d'] has the entries of [d], each key replaced by one equal to it
    under [==] and each value kept. *)
Definition same_entries (d d' : dict value value) : Prop :=
  Forall2 (fun ks ks' => py_eqb (fst ks) (fst ks') = true /\ snd ks' = snd ks) d d'.

(** Every element of [l] equals itself under [==] (none is NaN). *)
Definition reflexive (l : list value) : Prop :=
  forall v, In v l -> py_eqb v v = true.

(** Labels that are all numbers other than NaN, or all text. *)
Definition numbers_or_text (l : list value) : Prop :=
  forallb is_number l = true \/ forallb is_text l = true.

(** All records of the dataset are Instances. *)
Definition all_instances (data : Table) : Prop :=
  forall kr, In kr (rows data) -> is_Instance (snd kr) = true.

(** The row [kr'] is the Instance row [kr] with its label replaced by
    the id [enc] gives it, an integer in [0, n). *)
Definition encoded_row (enc : dict value value) (n : nat)
  (kr kr' : value * record) : Prop :=
  fst kr' = fst kr /\
  exists i j, snd kr = RInstance i /\
    snd kr' = RInstance (set_label i (VInt (Z.of_nat j))) /\
    (j < n)%nat /\ dict_get py_eqb enc (label i) = Some (VInt (Z.of_nat j)).

(** The prediction row [kr'] is the row [kr] again: same key, same
    score, labels equal under [==], detail entry by entry. *)
Definition restored (kr kr' : value * record) : Prop :=
  fst kr' = fst kr /\
  exists p p', snd kr = RPredict p /\ snd kr' = RPredict p' /\
    py_eqb (true_label p) (true_label p') = true /\
    py_eqb (predict_label p) (predict_label p') = true /\
    predict_score p' = predict_score p /\
    same_entries (predict_detail p) (predict_detail p').

(** All records are prediction results whose detail has distinct keys. *)
Definition all_predictions (data : Table) : Prop :=
  forall kr, In kr (rows data) ->
    exists p, snd kr = RPredict p /\ distinct (keys (predict_detail p)).

(** What [load_model] makes of one persisted entry: the key and the
    value loaded under the tags recorded for the key. *)
Definition loaded_entry `{Runtime} (kt vt : dict string string)
  (kv : string * string) : result (value * value) :=
  k' <- load_value_to_type (VStr (fst kv)) (tag_of kt (fst kv)) ;;
  v' <- load_value_to_type (VStr (snd kv)) (tag_of vt (fst kv)) ;;
  Ok (k', v').

(** The key [k] is the text made of the two one-character texts of [kv]. *)
Definition split_key (k : value) (kv : string * string) : Prop :=
  exists a b, k = VStr (String a (String b "")) /\
              kv = (String a "", String b "").

(** The kind of a label: [None], number or text. *)
Definition kind (v : value) : nat :=
  match v with
  | VNone => 0
  | VInt _ | VFloat _ => 1
  | VStr _ => 2
  end.

(** The two populations have the same labels under [==]. *)
Definition same_population (l1 l2 : list value) : Prop :=
  (forall x, In x l1 -> exists y, In y l2 /\ py_eqb x y = true) /\
  (forall y, In y l2 -> exists x, In x l1 /\ py_eqb y x = true).

Definition is_none (v : value) : bool :=
  match v with VNone => true | _ => false end.

(** The populations without NaN that [sorted] accepts: all numbers, or
    all text, or all [None]. *)
Definition sortable (l : list value) : Prop :=
  numbers_or_text l \/ forallb is_none l = true.

(** ** Sample data *)

(** An Instance with label [l] and nothing else of interest. *)
Definition inst (l : value) : record := RInstance (mkInstance VNone VNone [] l).

(** The dataset of the records [l] under the keys 0, 1, ... *)
Definition table_of (l : list record) : Table :=
  mkTable (combine (range (List.length l)) l) None.

(** A component initialised without encoder and without label list. *)
Definition fresh : LabelTransformer := _init_model true None None.

Definition pets : Table :=
  table_of [inst (VStr "fish"); inst (VStr "cat"); inst (VStr "dog");
            inst (VStr "cat")].

Definition pets_encoder : dict value value :=
  [(VStr "cat", VInt 0); (VStr "dog", VInt 1); (VStr "fish", VInt 2)].

Definition numbers : Table :=
  table_of [inst (VInt 7); inst (VInt (-3)); inst (VInt 7)].

Definition pet_prediction : record :=
  RPredict (mkPredict (VStr "dog") (VStr "cat") (VFloat (S754_finite false 7 (-3)))
              [(VStr "cat", VFloat (S754_finite false 7 (-3)));
               (VStr "dog", VFloat (S754_finite false 1 (-3)))]).

Definition predictions : Table := table_of [pet_prediction].


(** The component after fit on [pets]. *)
Definition fitted_pets : LabelTransformer := fst (@fit sample_runtime fresh pets).

Definition pets_reordered : Table :=
  table_of [inst (VStr "dog"); inst (VStr "dog"); inst (VStr "cat");
            inst (VStr "fish")].

(** A prediction result over encoded ids, and a store holding it. *)
Definition looked_up : PredictResult :=
  mkPredict (VInt 2) (VInt 0) (VFloat (S754_finite false 7 (-3)))
    [(VInt 0, VFloat (S754_finite false 7 (-3)));
     (VInt 1, VFloat (S754_finite false 1 (-4)));
     (VInt 2, VFloat (S754_finite false 1 (-4)))].

Definition one_prediction : heap :=
  mkHeap [[CVal (true_label looked_up); CVal (predict_label looked_up);
           CVal (predict_score looked_up); CDict 0]]
         [predict_detail looked_up].

(** A persisted record whose key tag for "yes" is not a recognised one. *)
Definition bad_param : label_transform_param_pb2.LabelTransformParam :=
  label_transform_param_pb2.mk
    [("1", "0"); ("yes", "1")]
    [("1", "int"); ("yes", "bool")]
    [("1", "int"); ("yes", "int")].

Definition bad_model : dict string (dict string (dict string message)) :=
  [("model",
    [("label_transform_0",
      [(model_meta_name, MetaMsg (label_transform_meta_pb2.mk true));
       (model_param_name, ParamMsg bad_param)])])].

(** A component configured with [pets_encoder]. *)
Definition configured : LabelTransformer := _init_model true (Some pets_encoder) None.

(** A component configured with [pets_encoder] and a label list that
    leaves "fish" out. *)
Definition short_listed : LabelTransformer :=
  _init_model true (Some pets_encoder) (Some [VStr "cat"; VStr "dog"]).

(** A component configured with text keys and a list of integer labels. *)
Definition listed : LabelTransformer :=
  _init_model true (Some [(VStr "1", VStr "a"); (VStr "2", VStr "b")])
    (Some [VInt 1; VInt 2]).

(** A dataset of both kinds of record. *)
Definition mixed : Table := table_of [inst (VStr "cat"); pet_prediction].

(** A dataset with a label [pets_encoder] does not know. *)
Definition with_bird : Table := table_of [inst (VStr "cat"); inst (VStr "bird")].

(** The component after fit on labels of two characters. *)
Definition fitted_pairs : LabelTransformer :=
  fst (@fit sample_runtime fresh (table_of [inst (VStr "ab"); inst (VStr "cd")])).

(** A persisted record that loads, and one whose run flag is off and
    whose key tag for "yes" is not a recognised one. *)
Definition good_model : dict string (dict string (dict string message)) :=
  [("model",
    [("label_transform_0",
      [(model_meta_name, MetaMsg (label_transform_meta_pb2.mk false));
       (model_param_name,
        ParamMsg (label_transform_param_pb2.mk
                    [("cat", "0"); ("dog", "1")]
                    [("cat", "str"); ("dog", "str")]
                    [("cat", "int"); ("dog", "int")]))])])].

Definition bad_model_off : dict string (dict string (dict string message)) :=
  [("model",
    [("label_transform_0",
      [(model_meta_name, MetaMsg (label_transform_meta_pb2.mk false));
       (model_param_name, ParamMsg bad_param)])])].

(** A dataset whose labels are an integer and a text. *)
Definition two_kinds : Table := table_of [inst (VInt 1); inst (VStr "one")].

(** The prediction result of [pet_prediction], a store holding it, and
    a map that gives its two detail keys the same id. *)
Definition pet_result : PredictResult :=
  mkPredict (VStr "dog") (VStr "cat") (VFloat (S754_finite false 7 (-3)))
    [(VStr "cat", VFloat (S754_finite false 7 (-3)));
     (VStr "dog", VFloat (S754_finite false 1 (-3)))].

Definition pet_store : heap :=
  mkHeap [[CVal (true_label pet_result); CVal (predict_label pet_result);
           CVal (predict_score pet_result); CDict 0]]
         [predict_detail pet_result].

Definition merging : dict value value := [(VStr "cat", VInt 0); (VStr "dog", VInt 0)].

(** Two datasets with the labels 0.0 and NaN, in the two orders. *)
Definition nan_last : Table :=
  table_of [inst (VFloat (S754_zero false)); inst (VFloat S754_nan)].

Definition nan_first : Table :=
  table_of [inst (VFloat S754_nan); inst (VFloat (S754_zero false))].

(** ** The model on small inputs *)

Example py_str_int :
  @py_str sample_runtime (VInt 0) = "0" /\ @py_str sample_runtime (VInt (-12)) = "-12".
Proof. split; reflexivity. Qed.

Example int_equals_float :
  py_eqb (VInt 1) (VFloat (S754_finite false 4 (-2))) = true /\
  py_eqb (VFloat (S754_zero true)) (VInt 0) = true /\
  py_eqb (VFloat S754_nan) (VFloat S754_nan) = false /\
  py_eqb (VStr "1") (VInt 1) = false.
Proof. repeat split. Qed.

Example sorted_numbers :
  sorted [VInt 3; VFloat (S754_finite false 3 (-1)); VInt (-2)]
    = Ok [VInt (-2); VFloat (S754_finite false 3 (-1)); VInt 3].
Proof. reflexivity. Qed.

Example sorted_mixed_raises :
  sorted [VInt 3; VStr "a"] = Err (TypeError "'<' not supported") /\
  sorted [VNone; VNone] = Err (TypeError "'<' not supported") /\
  sorted [VNone] = Ok [VNone].
Proof. repeat split. Qed.

Example dict_assignment_keeps_first_key :
  dict_of_items py_eqb
    [(VInt 1, VStr "a"); (VInt 2, VStr "b"); (VFloat (S754_finite false 1 0), VStr "c")]
    = [(VInt 1, VStr "c"); (VInt 2, VStr "b")].
Proof. reflexivity. Qed.

Example fit_pets :
  label_encoder fitted_pets = Some pets_encoder /\
  snd (@fit sample_runtime fresh pets)
    = Ok (table_of [inst (VInt 2); inst (VInt 0); inst (VInt 1); inst (VInt 0)]).
Proof. split; vm_compute; reflexivity. Qed.

(** transform on a prediction result over encoded ids gives the raw
    labels back and keeps every score. *)
Example transform_prediction :
  snd (transform fitted_pets (table_of [RPredict looked_up]))
    = Ok (table_of
            [RPredict
               (mkPredict (VStr "fish") (VStr "cat") (predict_score looked_up)
                  [(VStr "cat", VFloat (S754_finite false 7 (-3)));
                   (VStr "dog", VFloat (S754_finite false 1 (-4)));
                   (VStr "fish", VFloat (S754_finite false 1 (-4)))])]).
Proof. vm_compute. reflexivity. Qed.

(** ** [load_value_to_type] *)

(** C10: for every tag string, recognised or not, load_value_to_type
    applied to None returns None and does not raise. *)
Theorem load_value_to_type_None `{Runtime} (t : string) :
  load_value_to_type VNone t = Ok VNone.
Proof. reflexivity. Qed.

Lemma str_in_app s l1 l2 : str_in s (l1 ++ l2) = str_in s l1 || str_in s l2.
Proof. unfold str_in. apply existsb_app. Qed.

Lemma recognized_tag_split t :
  recognized_tag t =
    str_in t ["int"; "int64"; "long"; "float"; "float64"; "double"]
    || str_in t ["str"; "_str"].
Proof.
  unfold recognized_tag.
  change ["int"; "int64"; "long"; "float"; "float64"; "double"; "str"; "_str"]
    with (["int"; "int64"; "long"; "float"; "float64"; "double"] ++ ["str"; "_str"]).
  apply str_in_app.
Qed.

Lemma load_value_to_type_unknown `{Runtime} (v : value) (t : string) :
  v <> VNone -> recognized_tag t = false ->
  load_value_to_type v t = Err (ValueError ("unknown value type: " ++ t)).
Proof.
  intros Hv Ht. rewrite recognized_tag_split in Ht.
  apply orb_false_iff in Ht. destruct Ht as [Hn Hs].
  unfold load_value_to_type. rewrite Hn, Hs.
  destruct v; [contradiction | reflexivity ..].
Qed.

(** ** [load_model] *)

Lemma strmap_getitem_PbMap d k :
  strmap_getitem (PbMap d) k =
    match dict_get String.eqb d k with
    | Some t => (PbMap d, Ok t)
    | None => (PbMap (dict_set String.eqb d k ""), Ok "")
    end.
Proof. unfold strmap_getitem; simpl. destruct (dict_get String.eqb d k); reflexivity. Qed.

Lemma load_items_unknown_tag `{Runtime} items :
  forall d1 d2 acc k v,
    In (k, v) items ->
    recognized_tag (tag_of d1 k) = false \/ recognized_tag (tag_of d2 k) = false ->
    exists kt vt e, load_items items (PbMap d1) (PbMap d2) acc = (kt, vt, Err e).
Proof.
  induction items as [| [k0 v0] items IH]; intros d1 d2 acc k v Hin Htag.
  - destruct Hin.
  - cbn [load_items]. rewrite strmap_getitem_PbMap.
    destruct (dict_get String.eqb d1 k0) as [tk |] eqn:Ek.
    + destruct (load_value_to_type (VStr k0) tk) as [k' | e] eqn:Lk;
        [| eauto].
      rewrite strmap_getitem_PbMap.
      destruct (dict_get String.eqb d2 k0) as [tv |] eqn:Ev.
      * destruct (load_value_to_type (VStr v0) tv) as [v' | e] eqn:Lv;
          [| eauto].
        destruct Hin as [Heq | Hin].
        -- inversion Heq; subst k0 v0. unfold tag_of in Htag.
           rewrite Ek, Ev in Htag. destruct Htag as [Ht | Ht].
           ++ rewrite load_value_to_type_unknown in Lk by (congruence || assumption).
              discriminate.
           ++ rewrite load_value_to_type_unknown in Lv by (congruence || assumption).
              discriminate.
        -- eapply IH; eassumption.
      * rewrite load_value_to_type_unknown by (congruence || reflexivity). eauto.
    + rewrite load_value_to_type_unknown by (congruence || reflexivity). eauto.
Qed.

Lemma load_model_error_keeps_encoder `{Runtime} self model_dict e :
  snd (load_model self model_dict) = Err e ->
  label_encoder (fst (load_model self model_dict)) = label_encoder self.
Proof.
  unfold load_model.
  destruct (model_entry model_dict model_meta_name) as [meta_obj | e1];
    [| reflexivity].
  destruct (model_entry model_dict model_param_name) as [param_obj | e2];
    [| reflexivity].
  destruct meta_obj as [[m | p'] |]; try reflexivity.
  destruct param_obj as [[m' | p] |]; try reflexivity.
  destruct (load_items _ _ _ _) as [[kt vt] [enc | e3]]; simpl.
  - discriminate.
  - reflexivity.
Qed.

(** C8: an unrecognised tag makes load_value_to_type raise for every
    persisted string, and load_model meeting such a tag for a persisted
    entry fails and leaves the component's encoder as it was. *)
Theorem unknown_tag_is_fatal `{Runtime} self model_dict m p k v :
  model_entry model_dict model_meta_name = Ok (Some (MetaMsg m)) ->
  model_entry model_dict model_param_name = Ok (Some (ParamMsg p)) ->
  In (k, v) (label_transform_param_pb2.label_encoder p) ->
  recognized_tag (tag_of (label_transform_param_pb2.encoder_key_type p) k) = false \/
  recognized_tag (tag_of (label_transform_param_pb2.encoder_value_type p) k) = false ->
  (forall s t, recognized_tag t = false ->
     load_value_to_type (VStr s) t = Err (ValueError ("unknown value type: " ++ t))) /\
  (exists e, snd (load_model self model_dict) = Err e) /\
  label_encoder (fst (load_model self model_dict)) = label_encoder self.
Proof.
  intros Hm Hp Hin Htag.
  assert (Hfail : exists e, snd (load_model self model_dict) = Err e).
  { unfold load_model. rewrite Hm, Hp.
    destruct (load_items_unknown_tag _ _ _ [] k v Hin Htag) as (kt & vt & e & E).
    rewrite E. simpl. eauto. }
  split; [| split].
  - intros s t Ht. apply load_value_to_type_unknown; [discriminate | exact Ht].
  - exact Hfail.
  - destruct Hfail as [e He]. eapply load_model_error_keeps_encoder; eassumption.
Qed.

(** ** [transform] without an encoder *)

(** C7: transform called while label_encoder is None raises ValueError
    at once, for every dataset; no dataset is returned and the component
    is left as it was. *)
Theorem transform_without_encoder self data :
  label_encoder self = None ->
  transform self data =
    (self, Err (ValueError "Input Label Encoder is None. Label Transform aborted.")).
Proof. intros E. unfold transform. rewrite E. reflexivity. Qed.

(** ** Unmapped labels *)

Lemma getitem_missing d k : dict_get py_eqb d k = None -> getitem d k = Err (KeyError k).
Proof. intros E. unfold getitem. rewrite E. reflexivity. Qed.

Lemma getitem_Ok d k v : getitem d k = Ok v <-> dict_get py_eqb d k = Some v.
Proof.
  unfold getitem. destruct (dict_get py_eqb d k); split; intros E;
    inversion E; reflexivity.
Qed.

Lemma getitem_cases d k :
  (exists v, getitem d k = Ok v /\ dict_get py_eqb d k = Some v) \/
  (getitem d k = Err (KeyError k) /\ dict_get py_eqb d k = None).
Proof. unfold getitem. destruct (dict_get py_eqb d k); eauto. Qed.

Lemma remap_detail_missing enc (d : dict value value) :
  (exists k, In k (keys d) /\ dict_get py_eqb enc k = None) ->
  exists k, In k (keys d) /\ dict_get py_eqb enc k = None /\
    map_result (fun ls => l <- getitem enc (fst ls) ;; Ok (l, snd ls)) d
      = Err (KeyError k).
Proof.
  induction d as [| [l s] d IH]; intros (k & Hin & Hk).
  - destruct Hin.
  - cbn [map_result fst snd].
    destruct (getitem_cases enc l) as [(v & Ev & _) | (Ev & Hn)].
    + rewrite Ev. cbn [bind].
      destruct Hin as [Heq | Hin].
      * simpl in Heq. subst l. apply getitem_Ok in Ev. congruence.
      * destruct IH as (k' & Hin' & Hk' & E'); [eauto |].
        exists k'. rewrite E'. simpl. auto.
    + exists l. rewrite Ev. simpl. auto.
Qed.

(** C6: a record carrying a label that is not a key of the active map
    makes its rewrite raise KeyError on such a label; no record comes
    out and nothing is substituted. *)
Theorem unmapped_label_raises (enc : dict value value) :
  (forall i, dict_get py_eqb enc (label i) = None ->
     replace_instance_label (RInstance i) enc = Err (KeyError (label i))) /\
  (forall p,
     (exists k, carried p k /\ dict_get py_eqb enc k = None) ->
     exists k, carried p k /\ dict_get py_eqb enc k = None /\
       replace_predict_label (RPredict p) enc = Err (KeyError k)).
Proof.
  split.
  - intros i E. unfold replace_instance_label. rewrite getitem_missing by exact E.
    reflexivity.
  - intros p (k & Hc & Hk). unfold replace_predict_label.
    destruct (getitem_cases enc (true_label p)) as [(t & Et & Ht) | (Et & Ht)].
    2:{ exists (true_label p). rewrite Et. unfold carried. auto. }
    destruct (getitem_cases enc (predict_label p)) as [(q & Eq & Hq) | (Eq & Hq)].
    2:{ exists (predict_label p). rewrite Et, Eq. unfold carried. auto. }
    rewrite Et, Eq. cbn [bind].
    destruct Hc as [-> | [-> | Hin]]; [congruence | congruence |].
    destruct (remap_detail_missing enc (predict_detail p)) as (k' & Hin' & Hk' & E).
    { eauto. }
    exists k'. rewrite E. unfold carried. auto.
Qed.

(** ** Dictionaries built from items with distinct keys *)

Section DictFacts.
Context {K V : Type}.
Variable eqb : K -> K -> bool.

Lemma dict_set_fresh (d : list (K * V)) k v :
  Forall (fun kv => eqb k (fst kv) = false) d ->
  dict_set eqb d k v = d ++ [(k, v)].
Proof.
  induction 1 as [| [k' v'] d Hk _ IH]; simpl.
  - reflexivity.
  - simpl in Hk. rewrite Hk, IH. reflexivity.
Qed.

Lemma fold_dict_set_fresh (l : list (K * V)) :
  forall acc,
    ForallOrdPairs (fun a b => eqb (fst b) (fst a) = false) (acc ++ l) ->
    fold_left (fun d kv => dict_set eqb d (fst kv) (snd kv)) l acc = acc ++ l.
Proof.
  induction l as [| [k v] l IH]; intros acc Hd; simpl.
  - now rewrite app_nil_r.
  - rewrite dict_set_fresh.
    + rewrite IH; rewrite <- app_assoc; [reflexivity | exact Hd].
    + clear IH. induction acc as [| a acc IHa]; [constructor |].
      simpl in Hd. inversion Hd as [| ? ? Ha Hrest]; subst.
      constructor.
      * rewrite Forall_forall in Ha. apply (Ha (k, v)).
        apply in_or_app. right. left. reflexivity.
      * apply IHa. exact Hrest.
Qed.

Lemma dict_of_items_fresh (l : list (K * V)) :
  ForallOrdPairs (fun a b => eqb (fst b) (fst a) = false) l ->
  dict_of_items eqb l = l.
Proof. intros Hd. unfold dict_of_items. now rewrite fold_dict_set_fresh. Qed.
End DictFacts.

Lemma distinct_cons x l :
  distinct (x :: l) <-> Forall (fun b => py_eqb b x = false) l /\ distinct l.
Proof.
  unfold distinct. cbn [pairwise]. rewrite andb_true_iff, forallb_forall, Forall_forall.
  split; intros [H1 H2]; split; auto; intros b Hb; specialize (H1 b Hb);
    destruct (py_eqb b x); simpl in *; congruence.
Qed.

Lemma distinct_keys_ordpairs {V : Type} (l : list (value * V)) :
  distinct (keys l) ->
  ForallOrdPairs (fun a b => py_eqb (fst b) (fst a) = false) l.
Proof.
  induction l as [| [k v] l IH]; intros Hd; [constructor |].
  unfold keys in Hd. cbn [map fst] in Hd. apply distinct_cons in Hd.
  destruct Hd as [Hk Hl]. constructor.
  - rewrite Forall_forall in *. intros [k' v'] Hin. apply Hk.
    apply (in_map fst) in Hin. exact Hin.
  - apply IH. exact Hl.
Qed.

Lemma dict_of_items_distinct {V : Type} (l : list (value * V)) :
  distinct (keys l) -> dict_of_items py_eqb l = l.
Proof. intros Hd. apply dict_of_items_fresh, distinct_keys_ordpairs, Hd. Qed.

(** ** The prediction-result rewrite *)

Lemma remap_detail_covered enc (d : dict value value) :
  (forall k, In k (keys d) -> dict_get py_eqb enc k <> None) ->
  exists items,
    map_result (fun ls => l <- getitem enc (fst ls) ;; Ok (l, snd ls)) d = Ok items
    /\ remapped enc d items.
Proof.
  induction d as [| [l s] d IH]; intros Hc.
  - exists []. split; [reflexivity | constructor].
  - destruct IH as (items & E & R).
    { intros k Hk. apply Hc. right. exact Hk. }
    destruct (getitem_cases enc l) as [(v & Ev & Hv) | (_ & Hn)].
    + exists ((v, s) :: items). cbn [map_result fst snd]. rewrite Ev, E. split.
      * reflexivity.
      * constructor; [split; [exact Hv | reflexivity] | exact R].
    + exfalso. apply (Hc l); [left; reflexivity | exact Hn].
Qed.

Lemma nth_error_snoc {A : Type} (l : list A) (x : A) :
  nth_error (l ++ [x]) (List.length l) = Some x.
Proof. rewrite nth_error_app2, Nat.sub_diag by apply Nat.le_refl. reflexivity. Qed.

Lemma nth_error_keep {A : Type} (l l' : list A) n (x : A) :
  nth_error l n = Some x -> nth_error (l ++ l') n = Some x.
Proof.
  intros E. rewrite nth_error_app1; [exact E |].
  apply nth_error_Some. congruence.
Qed.

Lemma remapped_values enc (d items : dict value value) :
  remapped enc d items -> values items = values d.
Proof.
  induction 1 as [| ks ks' d items [_ Hs] _ IH]; [reflexivity |].
  unfold values in *. cbn [map]. now rewrite Hs, IH.
Qed.

(** C9, as the code has it: for a prediction result stored as a list
    object and a map that covers its labels and gives the keys of its
    detail pairwise different keys, none of them NaN, the rewrite
    returns a new list object: its score is the input's score, its two
    labels are the input's looked up in the map, its detail has the
    input's entries in the input's order with every key looked up and
    every score kept; every object that existed before the call, the
    input among them, is unchanged. *)
Theorem replace_predict_label_frame (enc : dict value value) h r p :
  holds h r p ->
  (forall k, carried p k -> dict_get py_eqb enc k <> None) ->
  (forall items, remapped enc (predict_detail p) items ->
     distinct (keys items) /\ reflexive (keys items)) ->
  exists h' r' t' q' items,
    replace_predict_label_obj r enc h = (h', Ok r') /\
    preserved h h' /\ holds h' r p /\
    holds h' r' (mkPredict t' q' (predict_score p) items) /\
    dict_get py_eqb enc (true_label p) = Some t' /\
    dict_get py_eqb enc (predict_label p) = Some q' /\
    remapped enc (predict_detail p) items /\
    values items = values (predict_detail p) /\
    replace_predict_label (RPredict p) enc =
      Ok (RPredict (mkPredict t' q' (predict_score p) items)).
Proof.
  intros (l & Hr & Hl) Hc Hinj.
  destruct (getitem_cases enc (true_label p)) as [(t' & Et & Ht) | (_ & Hn)].
  2:{ exfalso. apply (Hc (true_label p)); [left; reflexivity | exact Hn]. }
  destruct (getitem_cases enc (predict_label p)) as [(q' & Eq & Hq) | (_ & Hn)].
  2:{ exfalso. apply (Hc (predict_label p)); [right; left; reflexivity | exact Hn]. }
  destruct (remap_detail_covered enc (predict_detail p)) as (items & Ei & Ri).
  { intros k Hk. apply Hc. right. right. exact Hk. }
  assert (Ed : dict_of_items py_eqb items = items)
    by (apply dict_of_items_distinct, (Hinj items Ri)).
  set (l1 := List.length (dicts h)).
  set (out := [CVal t'; CVal q'; CVal (predict_score p); CDict (S l1)]).
  set (copy := [CVal (true_label p); CVal (predict_label p);
                CVal (predict_score p); CDict l1]).
  set (h' := mkHeap ((lists h ++ [copy]) ++ [out])
                    ((dicts h ++ [predict_detail p]) ++ [items])).
  exists h', (S (List.length (lists h))), t', q', items.
  assert (Hrun : replace_predict_label_obj r enc h = (h', Ok (S (List.length (lists h))))).
  { unfold replace_predict_label_obj, deepcopy_list. rewrite Hr.
    cbn [deepcopy_cells dict_get]. rewrite Hl.
    cbn [alloc_dict alloc_list fst lists dicts deepcopy_cells getitem_cell].
    rewrite Et, Eq. fold l1. rewrite (nth_error_snoc (dicts h)). rewrite Ei.
    cbn [alloc_dict alloc_list lists dicts]. rewrite Ed.
    rewrite !length_app. cbn [List.length]. rewrite !Nat.add_1_r.
    reflexivity. }
  assert (Hpres : preserved h h').
  { split; intros n x E; cbn [lists dicts h']; now do 2 apply nth_error_keep. }
  split; [exact Hrun |]. split; [exact Hpres |].
  split; [exists l; split; [apply Hpres, Hr | apply Hpres, Hl] |].
  split.
  { exists (S l1). cbn [lists dicts h' true_label predict_label predict_score predict_detail].
    split.
    - replace (S (List.length (lists h))) with (List.length (lists h ++ [copy]))
        by (rewrite length_app; simpl; lia).
      apply nth_error_snoc.
    - replace (S l1) with (List.length (dicts h ++ [predict_detail p]))
        by (rewrite length_app; simpl; unfold l1; lia).
      apply nth_error_snoc. }
  split; [exact Ht |]. split; [exact Hq |]. split; [exact Ri |].
  split; [exact (remapped_values _ _ _ Ri) |].
  unfold replace_predict_label. rewrite Et, Eq. cbn [bind]. rewrite Ei. cbn [bind].
  rewrite Ed. reflexivity.
Qed.

(** C9, as stated, fails for a covering map that gives two keys of the
    detail the same key: under {"cat": 0, "dog": 0} the detail
    {"cat": 0.875, "dog": 0.125} is rebuilt as {0: 0.125}, and the
    score 0.875 is gone. *)
Lemma merging_map_drops_a_score :
  holds pet_store 0%nat pet_result /\
  (forall k, carried pet_result k -> dict_get py_eqb merging k <> None) /\
  replace_predict_label (RPredict pet_result) merging =
    Ok (RPredict (mkPredict (VInt 0) (VInt 0) (predict_score pet_result)
                    [(VInt 0, VFloat (S754_finite false 1 (-3)))])) /\
  (exists h', replace_predict_label_obj 0 merging pet_store = (h', Ok 2%nat) /\
     holds h' 2%nat (mkPredict (VInt 0) (VInt 0) (predict_score pet_result)
                       [(VInt 0, VFloat (S754_finite false 1 (-3)))])) /\
  In (VFloat (S754_finite false 7 (-3))) (values (predict_detail pet_result)) /\
  ~ In (VFloat (S754_finite false 7 (-3)))
       (values [(VInt 0, VFloat (S754_finite false 1 (-3)))]).
Proof.
  split; [exists 0%nat; split; reflexivity |].
  split.
  { intros k [-> | [-> | Hk]]; try discriminate.
    simpl in Hk. destruct Hk as [<- | [<- | []]]; discriminate. }
  split; [reflexivity |].
  split.
  { eexists. split; [vm_compute; reflexivity |]. exists 2%nat. split; reflexivity. }
  split; [left; reflexivity |].
  intros [E | []]. discriminate E.
Qed.

(** ** Direction of the rewrite *)



(** ** Equality and order of labels *)

Lemma Qeq_bool_sym p q : Qeq_bool p q = Qeq_bool q p.
Proof.
  destruct (Qeq_bool p q) eqn:E1, (Qeq_bool q p) eqn:E2; try reflexivity.
  - apply Qeq_bool_iff in E1. apply Qeq_sym, Qeq_bool_iff in E1. congruence.
  - apply Qeq_bool_iff in E2. apply Qeq_sym, Qeq_bool_iff in E2. congruence.
Qed.

Lemma xnum_eqb_sym a b : xnum_eqb a b = xnum_eqb b a.
Proof. destruct a, b; simpl; try reflexivity. apply Qeq_bool_sym. Qed.

Lemma py_eqb_sym a b : py_eqb a b = py_eqb b a.
Proof.
  destruct a as [| z | f | s], b as [| z' | f' | s']; simpl; try reflexivity.
  - apply Qeq_bool_sym.
  - apply (xnum_eqb_sym (XFin (inject_Z z)) (xnum_of_float f')).
  - apply (xnum_eqb_sym (xnum_of_float f) (XFin (inject_Z z'))).
  - apply xnum_eqb_sym.
  - apply String.eqb_sym.
Qed.

Lemma py_eqb_text s t : py_eqb (VStr s) (VStr t) = true <-> s = t.
Proof. simpl. apply String.eqb_eq. Qed.

Lemma xnum_of_number v :
  is_number v = true -> exists x, xnum_of_value v = Some x /\ x <> XNaN.
Proof.
  destruct v as [| z | f | s]; simpl; try discriminate.
  - intros _. eexists; split; [reflexivity | discriminate].
  - destruct f as [b | [|] | | b m e]; simpl; try discriminate;
      intros _; (eexists; split; [reflexivity | discriminate]).
Qed.

Lemma xnum_ltb_trans a b c :
  xnum_ltb a b = true -> xnum_ltb b c = true -> xnum_ltb a c = true.
Proof.
  destruct a, b, c; cbn [xnum_ltb]; try discriminate; try reflexivity.
  destruct (q ?= q0)%Q eqn:E1; try discriminate.
  destruct (q0 ?= q1)%Q eqn:E2; try discriminate.
  intros _ _. apply Qlt_alt in E1, E2.
  pose proof (Qlt_trans _ _ _ E1 E2) as E3. apply Qlt_alt in E3.
  unfold Qcompare in *. now rewrite E3.
Qed.

Lemma xnum_trichotomy a b :
  a <> XNaN -> b <> XNaN ->
  xnum_ltb a b = true \/ xnum_eqb a b = true \/ xnum_ltb b a = true.
Proof.
  destruct a, b; cbn [xnum_ltb xnum_eqb]; try congruence; auto.
  intros _ _.
  destruct (q ?= q0)%Q eqn:E.
  - right. left. apply Qeq_alt in E. apply Qeq_bool_iff in E. exact E.
  - auto.
  - right. right. apply Qgt_alt in E. apply Qlt_alt in E.
    unfold Qcompare in *. now rewrite E.
Qed.

Lemma xnum_ltb_asym a b : xnum_ltb a b = true -> xnum_ltb b a = false.
Proof.
  destruct a, b; cbn [xnum_ltb]; try discriminate; try reflexivity.
  destruct (q ?= q0)%Q eqn:E; try discriminate. intros _.
  apply Qlt_alt in E. destruct (q0 ?= q)%Q eqn:E'; try reflexivity.
  apply Qlt_alt in E'. exfalso. exact (Qlt_irrefl _ (Qlt_trans _ _ _ E E')).
Qed.

Lemma ascii_compare_Eq a b : Ascii.compare a b = Eq <-> a = b.
Proof.
  unfold Ascii.compare. rewrite N.compare_eq_iff. split; [| congruence].
  intros E. rewrite <- (ascii_N_embedding a), <- (ascii_N_embedding b). congruence.
Qed.

Lemma string_compare_trans a :
  forall b c, String.compare a b = Lt -> String.compare b c = Lt ->
              String.compare a c = Lt.
Proof.
  induction a as [| x a IH]; intros [| y b] [| z c]; simpl; try congruence.
  destruct (Ascii.compare x y) eqn:Exy; intros H1; try discriminate;
    destruct (Ascii.compare y z) eqn:Eyz; intros H2; try discriminate.
  - apply ascii_compare_Eq in Exy, Eyz. subst.
    replace (Ascii.compare z z) with Eq by (symmetry; now apply ascii_compare_Eq).
    eapply IH; eassumption.
  - apply ascii_compare_Eq in Exy. subst. now rewrite Eyz.
  - apply ascii_compare_Eq in Eyz. subst. now rewrite Exy.
  - replace (Ascii.compare x z) with Lt; [reflexivity |].
    symmetry. unfold Ascii.compare in *.
    exact (N.lt_trans _ _ _ Exy Eyz).
Qed.

Lemma string_ltb_Lt s t : String.ltb s t = true <-> String.compare s t = Lt.
Proof. unfold String.ltb. destruct (String.compare s t); split; congruence. Qed.

Lemma py_ltb_num u v p q :
  xnum_of_value u = Some p -> xnum_of_value v = Some q ->
  py_ltb u v = xnum_ltb p q.
Proof.
  intros Eu Ev. unfold py_ltb, py_lt. rewrite Eu, Ev.
  destruct u, v; simpl in *; try discriminate; now destruct (xnum_ltb p q).
Qed.

Lemma py_ltb_text s t : py_ltb (VStr s) (VStr t) = String.ltb s t.
Proof. unfold py_ltb, py_lt. now destruct (String.ltb s t). Qed.

Lemma py_ltb_asym a b : py_ltb a b = true -> py_ltb b a = false.
Proof.
  destruct a as [| z | f | s], b as [| z' | f' | s'];
    try (intros _; reflexivity); try (intros E; discriminate E);
    try (match goal with
         | |- py_ltb ?u ?v = true -> _ =>
             rewrite (py_ltb_num u v _ _ eq_refl eq_refl),
                     (py_ltb_num v u _ _ eq_refl eq_refl);
             apply xnum_ltb_asym
         end).
  rewrite !py_ltb_text. intros E1. apply string_ltb_Lt in E1.
  destruct (String.ltb s' s) eqn:E2; try reflexivity.
  apply string_ltb_Lt in E2. rewrite String.compare_antisym, E1 in E2. discriminate.
Qed.

Lemma number_total_class : total_class is_number.
Proof.
  split; [| split].
  - intros a b Ha Hb. apply xnum_of_number in Ha, Hb.
    destruct Ha as (x & Ex & _), Hb as (y & Ey & _).
    unfold comparable, py_lt. rewrite Ex, Ey.
    destruct a, b; simpl in *; try discriminate; reflexivity.
  - intros a b Ha Hb. apply xnum_of_number in Ha, Hb.
    destruct Ha as (x & Ex & Nx), Hb as (y & Ey & Ny).
    destruct (xnum_trichotomy x y Nx Ny) as [H | [H | H]].
    + left. now rewrite (py_ltb_num _ _ _ _ Ex Ey).
    + right. left. unfold py_eqb. rewrite Ex, Ey, H.
      destruct a, b; simpl in *; try discriminate; reflexivity.
    + right. right. now rewrite (py_ltb_num _ _ _ _ Ey Ex).
  - intros a b c Ha Hb Hc. apply xnum_of_number in Ha, Hb, Hc.
    destruct Ha as (x & Ex & _), Hb as (y & Ey & _), Hc as (z & Ez & _).
    rewrite (py_ltb_num _ _ _ _ Ex Ey), (py_ltb_num _ _ _ _ Ey Ez),
      (py_ltb_num _ _ _ _ Ex Ez).
    apply xnum_ltb_trans.
Qed.

Lemma text_total_class : total_class is_text.
Proof.
  split; [| split].
  - intros [] []; simpl; try discriminate; reflexivity.
  - intros [| | | s] [| | | t]; simpl; try discriminate. intros _ _.
    rewrite !py_ltb_text. unfold String.ltb.
    destruct (String.compare s t) eqn:E.
    + right. left. apply String.compare_eq_iff in E. subst. apply String.eqb_refl.
    + auto.
    + right. right. rewrite String.compare_antisym, E. reflexivity.
  - intros [| | | s] [| | | t] [| | | u]; simpl; try discriminate. intros _ _ _.
    rewrite !py_ltb_text. rewrite !string_ltb_Lt. apply string_compare_trans.
Qed.

(** ** Sorting *)

Lemma insert_sorted_perm x l : Permutation (insert_sorted x l) (x :: l).
Proof.
  induction l as [| y r IH]; simpl.
  - apply Permutation_refl.
  - destruct (py_ltb y x).
    + eapply perm_trans; [apply perm_skip, IH | apply perm_swap].
    + apply Permutation_refl.
Qed.

Lemma sort_values_perm l : Permutation (sort_values l) l.
Proof.
  induction l as [| x l IH]; simpl.
  - apply perm_nil.
  - eapply perm_trans; [apply insert_sorted_perm | apply perm_skip, IH].
Qed.

Lemma sort_values_length l : List.length (sort_values l) = List.length l.
Proof. apply Permutation_length, sort_values_perm. Qed.

Lemma insert_sorted_distinct x l : distinct (x :: l) -> distinct (insert_sorted x l).
Proof.
  induction l as [| y r IH]; intros Hd; simpl.
  - exact Hd.
  - destruct (py_ltb y x); [| exact Hd].
    apply distinct_cons in Hd. destruct Hd as [Hx Hyr].
    apply distinct_cons in Hyr. destruct Hyr as [Hy Hr].
    inversion Hx as [| ? ? Hyx Hxr]; subst.
    apply distinct_cons. split.
    + eapply Permutation_Forall; [apply Permutation_sym, insert_sorted_perm |].
      constructor; [rewrite py_eqb_sym; exact Hyx | exact Hy].
    + apply IH. apply distinct_cons. split; assumption.
Qed.

Lemma sort_values_distinct l : distinct l -> distinct (sort_values l).
Proof.
  induction l as [| x l IH]; intros Hd; simpl.
  - exact Hd.
  - apply distinct_cons in Hd. destruct Hd as [Hx Hl].
    apply insert_sorted_distinct, distinct_cons. split; [| auto].
    eapply Permutation_Forall; [apply Permutation_sym, sort_values_perm | exact Hx].
Qed.

Section TotalClass.
Variable C : value -> bool.
Hypothesis HC : total_class C.

Lemma insert_sorted_sorted x l :
  C x = true -> forallb C l = true -> distinct (x :: l) ->
  StronglySorted lt_value l -> StronglySorted lt_value (insert_sorted x l).
Proof.
  destruct HC as (_ & Htri & Htrans).
  induction l as [| y r IH]; intros Cx Cl Hd Hs; simpl.
  - constructor; constructor.
  - simpl in Cl. apply andb_true_iff in Cl. destruct Cl as [Cy Cr].
    apply distinct_cons in Hd. destruct Hd as [Hx Hyr].
    inversion Hx as [| ? ? Hyx Hxr]; subst.
    inversion Hs as [| ? ? Hsr Hyall]; subst.
    destruct (py_ltb y x) eqn:Eyx.
    + constructor.
      * apply IH; try assumption.
        apply distinct_cons. split; [exact Hxr |].
        apply distinct_cons in Hyr. apply Hyr.
      * eapply Permutation_Forall; [apply Permutation_sym, insert_sorted_perm |].
        constructor; assumption.
    + assert (Hxy : lt_value x y).
      { destruct (Htri x y Cx Cy) as [H | [H | H]].
        - exact H.
        - rewrite py_eqb_sym in H. congruence.
        - congruence. }
      constructor; [exact Hs |]. constructor; [exact Hxy |].
      rewrite Forall_forall in *. intros z Hz.
      rewrite forallb_forall in Cr.
      eapply Htrans; [exact Cx | exact Cy | apply Cr, Hz | exact Hxy | apply Hyall, Hz].
Qed.

Lemma sort_values_sorted l :
  forallb C l = true -> distinct l -> StronglySorted lt_value (sort_values l).
Proof.
  induction l as [| x l IH]; intros Cl Hd; simpl.
  - constructor.
  - simpl in Cl. apply andb_true_iff in Cl. destruct Cl as [Cx Cr].
    apply distinct_cons in Hd. destruct Hd as [Hx Hl].
    apply insert_sorted_sorted.
    + exact Cx.
    + apply forallb_forall. intros z Hz. rewrite forallb_forall in Cr. apply Cr.
      eapply Permutation_in; [apply sort_values_perm | exact Hz].
    + apply distinct_cons. split; [| apply sort_values_distinct, Hl].
      eapply Permutation_Forall; [apply Permutation_sym, sort_values_perm | exact Hx].
    + apply IH; assumption.
Qed.

Lemma class_pairwise_comparable l :
  forallb C l = true -> pairwise comparable l = true.
Proof.
  destruct HC as (Hcmp & _ & _).
  induction l as [| x l IH]; intros Cl; simpl.
  - reflexivity.
  - simpl in Cl. apply andb_true_iff in Cl. destruct Cl as [Cx Cr].
    rewrite IH by exact Cr. rewrite andb_true_r.
    apply forallb_forall. intros z Hz. rewrite forallb_forall in Cr.
    apply Hcmp; [exact Cx | apply Cr, Hz].
Qed.
End TotalClass.

Lemma sorted_perm_unique l1 :
  forall l2, StronglySorted lt_value l1 -> StronglySorted lt_value l2 ->
             Permutation l1 l2 -> l1 = l2.
Proof.
  induction l1 as [| x r1 IH]; intros l2 S1 S2 P.
  - apply Permutation_nil in P. now subst.
  - destruct l2 as [| y r2].
    + apply Permutation_sym, Permutation_nil in P. discriminate.
    + inversion S1 as [| ? ? S1r H1]; subst. inversion S2 as [| ? ? S2r H2]; subst.
      assert (Exy : x = y).
      { assert (Hx : In x (y :: r2)) by (eapply Permutation_in; [exact P | now left]).
        assert (Hy : In y (x :: r1))
          by (eapply Permutation_in; [apply Permutation_sym, P | now left]).
        destruct Hx as [Hx | Hx]; [now symmetry |].
        destruct Hy as [Hy | Hy]; [exact Hy |].
        rewrite Forall_forall in H1, H2.
        specialize (H1 y Hy). specialize (H2 x Hx).
        unfold lt_value in *. apply py_ltb_asym in H1. congruence. }
      subst y. f_equal. apply IH; try assumption.
      eapply Permutation_cons_inv. exact P.
Qed.

Lemma forallb_perm {A : Type} (f : A -> bool) l l' :
  Permutation l l' -> forallb f l = true -> forallb f l' = true.
Proof.
  intros P H. rewrite forallb_forall in *. intros x Hx. apply H.
  eapply Permutation_in; [apply Permutation_sym, P | exact Hx].
Qed.

Lemma distinct_perm l l' : Permutation l l' -> distinct l -> distinct l'.
Proof.
  intros P. induction P as [| x l l' P IH | x y l | l l' l'' P1 IH1 P2 IH2]; intros Hd.
  - exact Hd.
  - apply distinct_cons in Hd. destruct Hd as [Hx Hl]. apply distinct_cons.
    split; [eapply Permutation_Forall; eassumption | auto].
  - apply distinct_cons in Hd. destruct Hd as [Hy Hd].
    apply distinct_cons in Hd. destruct Hd as [Hx Hl].
    inversion Hy as [| ? ? Hxy Hyl]; subst.
    apply distinct_cons. split.
    + constructor; [rewrite py_eqb_sym; exact Hxy | exact Hx].
    + apply distinct_cons. split; assumption.
  - auto.
Qed.

(** On a population that [<] orders totally, [sorted] succeeds and its
    result depends only on which labels there are. *)
Lemma sorted_total l :
  ordered_population l -> sorted l = Ok (sort_values l).
Proof.
  intros [H | [H | H]]; unfold sorted.
  - now rewrite (class_pairwise_comparable _ number_total_class).
  - now rewrite (class_pairwise_comparable _ text_total_class).
  - destruct l as [| x [| y l]]; [reflexivity | reflexivity |].
    simpl in H. lia.
Qed.

Lemma ordered_population_perm l l' :
  Permutation l l' -> ordered_population l -> ordered_population l'.
Proof.
  intros P [H | [H | H]].
  - left. eapply forallb_perm; eassumption.
  - right. left. eapply forallb_perm; eassumption.
  - right. right. now rewrite <- (Permutation_length P).
Qed.

Lemma sort_values_canonical l l' :
  ordered_population l -> distinct l -> Permutation l l' ->
  sort_values l = sort_values l'.
Proof.
  intros Ho Hd P.
  assert (Hd' : distinct l') by (eapply distinct_perm; eassumption).
  assert (PS : Permutation (sort_values l) (sort_values l')).
  { eapply perm_trans; [apply sort_values_perm |].
    eapply perm_trans; [exact P | apply Permutation_sym, sort_values_perm]. }
  destruct Ho as [H | [H | H]].
  - apply sorted_perm_unique; [| | exact PS].
    + eapply sort_values_sorted; [apply number_total_class | exact H | exact Hd].
    + eapply sort_values_sorted; [apply number_total_class | | exact Hd'].
      eapply forallb_perm; eassumption.
  - apply sorted_perm_unique; [| | exact PS].
    + eapply sort_values_sorted; [apply text_total_class | exact H | exact Hd].
    + eapply sort_values_sorted; [apply text_total_class | | exact Hd'].
      eapply forallb_perm; eassumption.
  - destruct l as [| x [| y l]]; [| | simpl in H; lia].
    + apply Permutation_nil in P. now subst.
    + apply Permutation_length_1_inv in P. now subst.
Qed.

(** ** The discovered labels are pairwise different *)

Lemma distinct_snoc l x :
  distinct l -> existsb (py_eqb x) l = false -> distinct (l ++ [x]).
Proof.
  induction l as [| y l IH]; intros Hd Hx.
  - reflexivity.
  - simpl in Hx. apply orb_false_iff in Hx. destruct Hx as [Hxy Hx].
    apply distinct_cons in Hd. destruct Hd as [Hy Hl].
    cbn [app]. apply distinct_cons. split.
    + apply Forall_app. split; [exact Hy |]. constructor; [exact Hxy | constructor].
    + apply IH; assumption.
Qed.

Lemma set_add_distinct s x : distinct s -> distinct (set_add s x).
Proof.
  intros Hd. unfold set_add. destruct (existsb (py_eqb x) s) eqn:E.
  - exact Hd.
  - apply distinct_snoc; assumption.
Qed.

Lemma fold_set_add_distinct l : forall s, distinct s -> distinct (fold_left set_add l s).
Proof.
  induction l as [| x l IH]; intros s Hd; simpl.
  - exact Hd.
  - apply IH, set_add_distinct, Hd.
Qed.

Lemma keys_dict_set {V : Type} (d : dict value V) k v :
  keys (dict_set py_eqb d k v) = set_add (keys d) k.
Proof.
  unfold set_add, keys. induction d as [| [k' v'] d IH]; cbn [dict_set map fst existsb].
  - reflexivity.
  - destruct (py_eqb k k') eqn:E; cbn [map fst orb].
    + reflexivity.
    + rewrite IH. destruct (existsb (py_eqb k) (map fst d)); reflexivity.
Qed.

Lemma count_labels_distinct l :
  forall acc d, distinct (keys acc) -> count_labels l acc = Ok d -> distinct (keys d).
Proof.
  induction l as [| [k [i | p]] l IH]; intros acc d Hd E; simpl in E.
  - inversion E; subst. exact Hd.
  - eapply IH; [| exact E]. rewrite keys_dict_set. apply set_add_distinct, Hd.
  - discriminate.
Qed.

Lemma collect_predict_labels_distinct l :
  forall acc s, distinct acc -> collect_predict_labels l acc = Ok s -> distinct s.
Proof.
  induction l as [| [k [i | p]] l IH]; intros acc s Hd E; simpl in E.
  - inversion E; subst. exact Hd.
  - discriminate.
  - eapply IH; [| exact E].
    apply fold_set_add_distinct. now do 2 apply set_add_distinct.
Qed.

Lemma discover_labels_distinct data found :
  discover_labels data = Ok found -> distinct found.
Proof.
  unfold discover_labels. destruct (first data) as [kv | e]; [| discriminate].
  cbn [bind]. destruct (is_Instance (snd kv)).
  - unfold get_label_count.
    destruct (count_labels (rows data) []) as [d | e] eqn:E; [| discriminate].
    cbn [bind]. intros E'. inversion E'; subst.
    eapply count_labels_distinct; [| exact E]. reflexivity.
  - unfold get_predict_result_labels. intros E.
    eapply collect_predict_labels_distinct; [| exact E]. reflexivity.
Qed.

(** ** Reading a dictionary built from items *)

Section StringDict.
Context {V : Type}.

Lemma dict_get_set (d : dict string V) k v k' :
  dict_get String.eqb (dict_set String.eqb d k v) k' =
    if String.eqb k' k then Some v else dict_get String.eqb d k'.
Proof.
  induction d as [| [k0 v0] d IH]; simpl.
  - reflexivity.
  - destruct (String.eqb k k0) eqn:E; simpl.
    + apply String.eqb_eq in E. subst k0.
      destruct (String.eqb k' k); reflexivity.
    + rewrite IH. destruct (String.eqb k' k0) eqn:E0; [| reflexivity].
      apply String.eqb_eq in E0. subst k0.
      rewrite String.eqb_sym, E. reflexivity.
Qed.

Lemma fold_dict_get_in (l : list (string * V)) :
  forall acc k v,
    dict_get String.eqb
      (fold_left (fun d kv => dict_set String.eqb d (fst kv) (snd kv)) l acc) k
      = Some v ->
    In (k, v) l \/ dict_get String.eqb acc k = Some v.
Proof.
  induction l as [| [k0 v0] l IH]; intros acc k v E; simpl in E.
  - right. exact E.
  - apply IH in E. destruct E as [E | E].
    + left. right. exact E.
    + rewrite dict_get_set in E. cbn [fst snd] in E.
      destruct (String.eqb k k0) eqn:E0.
      * apply String.eqb_eq in E0. inversion E; subst. left. left. reflexivity.
      * right. exact E.
Qed.

Lemma fold_dict_get_some (l : list (string * V)) :
  forall acc k,
    (exists v, In (k, v) l) \/ dict_get String.eqb acc k <> None ->
    dict_get String.eqb
      (fold_left (fun d kv => dict_set String.eqb d (fst kv) (snd kv)) l acc) k
      <> None.
Proof.
  induction l as [| [k0 v0] l IH]; intros acc k Hk; simpl.
  - destruct Hk as [[v []] | Hk]. exact Hk.
  - apply IH. rewrite dict_get_set. cbn [fst snd].
    destruct (String.eqb k k0) eqn:E0.
    + right. discriminate.
    + destruct Hk as [(v & [Hv | Hv]) | Hk].
      * inversion Hv; subst. rewrite String.eqb_refl in E0. discriminate.
      * left. eauto.
      * right. exact Hk.
Qed.

Lemma dict_of_items_get (l : list (string * V)) k :
  (exists v, In (k, v) l) ->
  exists v, dict_get String.eqb (dict_of_items String.eqb l) k = Some v /\ In (k, v) l.
Proof.
  intros Hk. unfold dict_of_items.
  destruct (dict_get String.eqb _ k) as [v |] eqn:E.
  - exists v. split; [reflexivity |].
    apply fold_dict_get_in in E. destruct E as [E | E]; [exact E | discriminate].
  - exfalso. revert E. apply fold_dict_get_some. left. exact Hk.
Qed.
End StringDict.

(** ** Discovery *)

Lemma pairwise_in P l a b :
  pairwise P l = true -> In a l -> In b l ->
  a = b \/ P a b = true \/ P b a = true.
Proof.
  induction l as [| x l IH]; intros Hp Ha Hb; [destruct Ha |].
  simpl in Hp. apply andb_true_iff in Hp. destruct Hp as [Hx Hl].
  rewrite forallb_forall in Hx.
  destruct Ha as [-> | Ha], Hb as [-> | Hb]; auto.
Qed.

Lemma load_own_type `{Runtime} k :
  np_keeps_typed -> load_value_to_type k (type_name k) = Ok k.
Proof.
  intros [Hi Hf]. destruct k as [| z | f | s]; simpl.
  - reflexivity.
  - apply Hi.
  - apply Hf.
  - reflexivity.
Qed.

(** The tag recorded under the text of a discovered key loads that key
    back as itself; text labels need nothing of numpy. *)
Lemma key_tag_loads `{Runtime} ks k :
  runtime_ok \/ forallb is_text ks = true ->
  (forall a b, In a ks -> In b ks -> a = b \/ comparable a b = true) ->
  In k ks ->
  exists tag,
    dict_get String.eqb
      (dict_of_items String.eqb (map (fun k => (py_str k, type_name k)) ks))
      (py_str k) = Some tag /\
    load_value_to_type k tag = Ok k.
Proof.
  intros Hrt Hcmp Hk.
  destruct (dict_of_items_get (map (fun k => (py_str k, type_name k)) ks) (py_str k))
    as (tag & Eget & Hin).
  { exists (type_name k). apply in_map_iff. exists k. auto. }
  exists tag. split; [exact Eget |].
  apply in_map_iff in Hin. destruct Hin as (k' & Ek' & Hk').
  inversion Ek' as [[Estr Etag]]. clear Ek'.
  destruct Hrt as [[Hnp Hfs] | Htext].
  - destruct (Hcmp k k' Hk Hk') as [-> | Hc].
    + apply load_own_type, Hnp.
    + destruct k as [| z | f | s], k' as [| z' | f' | s']; simpl in Hc;
        try discriminate;
        try (match goal with
             | |- load_value_to_type ?k _ = _ => exact (load_own_type k Hnp)
             end).
      * exfalso. exact (Hfs f' z Estr).
      * exfalso. exact (Hfs f z' (eq_sym Estr)).
  - rewrite forallb_forall in Htext.
    pose proof (Htext k Hk) as Tk. pose proof (Htext k' Hk') as Tk'.
    destruct k as [| | | s], k' as [| | | s']; try discriminate. reflexivity.
Qed.

Lemma rekey_id `{Runtime} kt items :
  forall acc,
    (forall k, In k (keys items) ->
       exists tag, dict_get String.eqb kt (py_str k) = Some tag /\
                   load_value_to_type k tag = Ok k) ->
    rekey items (PyDict kt) acc =
      (PyDict kt,
       Ok (fold_left (fun d kv => dict_set py_eqb d (fst kv) (snd kv)) items acc)).
Proof.
  induction items as [| [k v] items IH]; intros acc Hk; cbn [rekey fold_left].
  - reflexivity.
  - destruct (Hk k) as (tag & Eg & El); [left; reflexivity |].
    unfold strmap_getitem. cbn [strmap_entries]. rewrite Eg, El.
    apply IH. intros k' Hk'. apply Hk. right. exact Hk'.
Qed.

Lemma keys_combine_range (labels : list value) :
  keys (combine labels (range (List.length labels))) = labels.
Proof.
  unfold keys, range. generalize 0%nat.
  induction labels as [| x l IH]; intros n; simpl; [reflexivity |].
  now rewrite IH.
Qed.

Lemma values_combine_range (labels : list value) :
  values (combine labels (range (List.length labels))) = range (List.length labels).
Proof.
  unfold values, range. generalize 0%nat.
  induction labels as [| x l IH]; intros n; simpl; [reflexivity |].
  now rewrite IH.
Qed.

Lemma sorted_Ok l labels :
  sorted l = Ok labels -> labels = sort_values l /\ pairwise comparable l = true.
Proof.
  unfold sorted. destruct (pairwise comparable l); intros E; inversion E; auto.
Qed.

(** With no encoder supplied, a component that holds no type tags yet
    discovers the sorted labels paired with [0..n-1]. *)
Lemma get_label_encoder_discovers `{Runtime} self data found labels :
  runtime_ok \/ forallb is_text found = true ->
  label_encoder self = None -> encoder_key_type self = None ->
  discover_labels data = Ok found -> sorted found = Ok labels ->
  get_label_encoder self data =
    (discovered self (combine labels (range (List.length labels))),
     Ok (combine labels (range (List.length labels)))).
Proof.
  intros Hrt Henc Hkt Hfound Hsorted.
  set (enc := combine labels (range (List.length labels))).
  pose proof (sorted_Ok _ _ Hsorted) as [Hl Hcmp].
  assert (Hd : distinct (keys enc)).
  { unfold enc. rewrite keys_combine_range, Hl.
    apply sort_values_distinct. eapply discover_labels_distinct, Hfound. }
  assert (Hitems : dict_of_items py_eqb enc = enc)
    by (apply dict_of_items_distinct, Hd).
  unfold get_label_encoder. rewrite Henc, Hfound. cbn [bind]. rewrite Hsorted.
  cbn [bind]. fold enc. rewrite Hitems.
  cbn [encoder_key_type set_label_encoder]. rewrite Hkt.
  rewrite rekey_id.
  - fold (dict_of_items py_eqb enc). rewrite Hitems. reflexivity.
  - intros k Hk. apply key_tag_loads; [| | exact Hk].
    { destruct Hrt as [Hrt | Hrt]; [left; exact Hrt | right].
      unfold enc. rewrite keys_combine_range, Hl.
      eapply forallb_perm; [apply Permutation_sym, sort_values_perm | exact Hrt]. }
    intros a b Ha Hb. unfold enc in Ha, Hb. rewrite keys_combine_range, Hl in Ha, Hb.
    assert (Ha' : In a found) by (eapply Permutation_in; [apply sort_values_perm | exact Ha]).
    assert (Hb' : In b found) by (eapply Permutation_in; [apply sort_values_perm | exact Hb]).
    destruct (pairwise_in _ _ _ _ Hcmp Ha' Hb') as [E | [E | E]]; auto.
    right. unfold comparable, py_lt in *.
    destruct a, b; simpl in *; try discriminate; reflexivity.
Qed.

Lemma get_label_encoder_Ok `{Runtime} self data self' enc :
  label_encoder self = None ->
  get_label_encoder self data = (self', Ok enc) ->
  exists found labels, discover_labels data = Ok found /\ sorted found = Ok labels.
Proof.
  intros Henc. unfold get_label_encoder. rewrite Henc.
  destruct (discover_labels data) as [found | e]; [| discriminate].
  cbn [bind]. destruct (sorted found) as [labels | e] eqn:Es; [| discriminate].
  intros _. exists found, labels. split; [reflexivity | exact Es].
Qed.



(** ** The worked example *)

(** C5, as the code has it: when the discovered labels are "cat", "dog"
    and "fish", in any order, the encoder is {"cat": 0, "dog": 1,
    "fish": 2} and an Instance labelled "dog" is rewritten to label 1. *)
Theorem pets_example `{Runtime} self data found :
  label_encoder self = None -> encoder_key_type self = None ->
  discover_labels data = Ok found ->
  Permutation found [VStr "cat"; VStr "dog"; VStr "fish"] ->
  snd (get_label_encoder self data) = Ok pets_encoder /\
  forall i, label i = VStr "dog" ->
    replace_instance_label (RInstance i) pets_encoder
      = Ok (RInstance (set_label i (VInt 1))).
Proof.
  intros He Hk Hf P.
  assert (Ht : forallb is_text found = true).
  { eapply forallb_perm; [apply Permutation_sym, P | reflexivity]. }
  assert (Es : sort_values found = [VStr "cat"; VStr "dog"; VStr "fish"]).
  { rewrite (sort_values_canonical found [VStr "cat"; VStr "dog"; VStr "fish"]).
    - reflexivity.
    - right. left. exact Ht.
    - eapply discover_labels_distinct, Hf.
    - exact P. }
  split.
  - rewrite (get_label_encoder_discovers self data found (sort_values found)
               (or_intror Ht) He Hk Hf
               (sorted_total _ (or_intror (or_introl Ht)))).
    cbn [snd]. rewrite Es. reflexivity.
  - intros i Hi. unfold replace_instance_label. rewrite Hi. reflexivity.
Qed.

(** C5, as stated, fails: the Instance labelled "dog" gets label 1, the
    position of "dog" among the sorted labels, and not 2. *)
Lemma dog_is_not_encoded_as_2 :
  snd (@get_label_encoder sample_runtime fresh pets) = Ok pets_encoder /\
  replace_instance_label (inst (VStr "dog")) pets_encoder = Ok (inst (VInt 1)) /\
  replace_instance_label (inst (VStr "dog")) pets_encoder <> Ok (inst (VInt 2)).
Proof.
  split; [| split].
  - vm_compute. reflexivity.
  - reflexivity.
  - discriminate.
Qed.

(** ** Export *)

Lemma map_result_Err {A B : Type} (f : A -> result B) l a :
  In a l -> (exists e, f a = Err e) -> exists e, map_result f l = Err e.
Proof.
  induction l as [| x l IH]; intros Hin Hf; [destruct Hin |].
  cbn [map_result]. destruct (f x) as [b | e] eqn:E; [| simpl; eauto].
  destruct Hin as [-> | Hin].
  - destruct Hf as [e He]. congruence.
  - destruct (IH Hin Hf) as [e He]. rewrite He. simpl. eauto.
Qed.

Lemma unpack2_Err k : two_chars k = false -> exists e, unpack2 k = Err e.
Proof.
  destruct k as [| z | f | s]; simpl; eauto.
  destruct s as [| a [| b [| c s]]]; simpl; eauto. discriminate.
Qed.

(** C1, what the code does instead: _get_param iterates over the keys
    of the encoder and unpacks each key into two targets, so
    export_model raises as soon as some key is not a string of exactly
    two characters; no record is produced to load back. *)
Theorem export_model_raises `{Runtime} self enc k :
  label_encoder self = Some enc ->
  In k (keys enc) -> two_chars k = false ->
  exists e, export_model self = (self, Err e).
Proof.
  intros Henc Hk H2. unfold export_model, _get_param. rewrite Henc. cbn [bind].
  destruct (map_result_Err
              (fun key => kv <- unpack2 key ;; Ok (py_str (fst kv), py_str (snd kv)))
              (keys enc) k Hk) as [e He].
  { destruct (unpack2_Err k H2) as [e He]. rewrite He. simpl. eauto. }
  rewrite He. simpl. eauto.
Qed.

(** The encoder discovered from integer labels cannot be exported. *)
Example export_integer_labels :
  label_encoder (fst (@fit sample_runtime fresh numbers))
    = Some [(VInt (-3), VInt 0); (VInt 7, VInt 1)] /\
  snd (@export_model sample_runtime (fst (@fit sample_runtime fresh numbers)))
    = Err (TypeError "cannot unpack non-iterable object").
Proof. split; vm_compute; reflexivity. Qed.

(** With keys of two characters the export goes through, but each key is
    split into a key and a value, and loading the record back fails. *)
Example export_two_character_labels :
  let fitted := fst (@fit sample_runtime fresh
                       (table_of [inst (VStr "ab"); inst (VStr "cd")])) in
  label_encoder fitted = Some [(VStr "ab", VInt 0); (VStr "cd", VInt 1)] /\
  exists exported,
    snd (@export_model sample_runtime fitted) = Ok exported /\
    dict_get String.eqb exported model_param_name =
      Some (ParamMsg (label_transform_param_pb2.mk
                        [("a", "b"); ("c", "d")]
                        [("ab", "str"); ("cd", "str")]
                        [("ab", "int"); ("cd", "int")])) /\
    snd (@load_model sample_runtime fresh [("model", [("label_transform_0", exported)])])
      = Err (ValueError "unknown value type: ").
Proof.
  split; [vm_compute; reflexivity |].
  eexists. split; [vm_compute; reflexivity |].
  split; vm_compute; reflexivity.
Qed.

(** ** The sample runtime meets the assumptions *)

Lemma plain_app s t : plain (s ++ t) = plain s && plain t.
Proof.
  induction s as [| c s IH]; simpl; [reflexivity |].
  rewrite IH. now rewrite andb_assoc.
Qed.

Lemma plain_uint u : plain (NilEmpty.string_of_uint u) = true.
Proof. induction u; simpl; auto. Qed.

Lemma plain_int z : plain (NilZero.string_of_int (Z.to_int z)) = true.
Proof.
  destruct (Z.to_int z) as [u | u]; simpl.
  - destruct u; try apply (plain_uint (_ _)); reflexivity.
  - destruct u; try apply (plain_uint (_ _)); reflexivity.
Qed.

Lemma sample_float_str_not_plain f : plain (sample_float_str f) = false.
Proof.
  destruct f as [[|] | [|] | | s m e]; try reflexivity.
  unfold sample_float_str. rewrite !plain_app.
  change (plain "p") with false.
  now rewrite andb_false_l, !andb_false_r.
Qed.

Lemma sample_runtime_ok : @runtime_ok sample_runtime.
Proof.
  split; [split |].
  - reflexivity.
  - reflexivity.
  - intros f z E. pose proof (sample_float_str_not_plain f) as Hf.
    cbn in E. rewrite E in Hf. simpl in Hf. rewrite plain_int in Hf. discriminate.
Qed.

(** ** The statements at concrete inputs *)

Lemma export_model_raises_witness :
  label_encoder (fst (@fit sample_runtime fresh numbers))
    = Some [(VInt (-3), VInt 0); (VInt 7, VInt 1)] /\
  exists e,
    @export_model sample_runtime (fst (@fit sample_runtime fresh numbers))
      = (fst (@fit sample_runtime fresh numbers), Err e).
Proof.
  split; [vm_compute; reflexivity |].
  apply (@export_model_raises sample_runtime _
           [(VInt (-3), VInt 0); (VInt 7, VInt 1)] (VInt 7)).
  - vm_compute. reflexivity.
  - simpl. right. left. reflexivity.
  - reflexivity.
Defined.



Lemma pets_example_witness :
  snd (@get_label_encoder sample_runtime fresh pets) = Ok pets_encoder /\
  forall i, label i = VStr "dog" ->
    replace_instance_label (RInstance i) pets_encoder
      = Ok (RInstance (set_label i (VInt 1))).
Proof.
  apply (@pets_example sample_runtime fresh pets [VStr "fish"; VStr "cat"; VStr "dog"]).
  - reflexivity.
  - reflexivity.
  - vm_compute. reflexivity.
  - apply perm_trans with [VStr "cat"; VStr "fish"; VStr "dog"].
    + apply perm_swap.
    + apply perm_skip, perm_swap.
Defined.

Lemma unmapped_label_raises_witness :
  replace_instance_label (inst (VStr "bird")) pets_encoder
    = Err (KeyError (VStr "bird")) /\
  exists k, carried looked_up k /\ dict_get py_eqb pets_encoder k = None /\
    replace_predict_label (RPredict looked_up) pets_encoder = Err (KeyError k).
Proof.
  destruct (unmapped_label_raises pets_encoder) as [Hi Hp]. split.
  - apply (Hi (mkInstance VNone VNone [] (VStr "bird"))). reflexivity.
  - apply Hp. exists (VInt 2). split; [left; reflexivity | reflexivity].
Defined.

Lemma transform_without_encoder_witness :
  label_encoder fresh = None /\
  transform fresh pets =
    (fresh, Err (ValueError "Input Label Encoder is None. Label Transform aborted.")).
Proof.
  split; [reflexivity |].
  apply (transform_without_encoder fresh pets). reflexivity.
Defined.

Lemma unknown_tag_is_fatal_witness :
  (forall s t, recognized_tag t = false ->
     @load_value_to_type sample_runtime (VStr s) t
       = Err (ValueError ("unknown value type: " ++ t))) /\
  (exists e, snd (@load_model sample_runtime fresh bad_model) = Err e) /\
  label_encoder (fst (@load_model sample_runtime fresh bad_model)) = label_encoder fresh.
Proof.
  apply (@unknown_tag_is_fatal sample_runtime fresh bad_model
           (label_transform_meta_pb2.mk true) bad_param "yes" "1").
  - reflexivity.
  - reflexivity.
  - simpl. right. left. reflexivity.
  - left. reflexivity.
Defined.

(** ** The label population of a dataset *)

Lemma count_labels_keys l :
  forall acc,
    (forall kr, In kr l -> is_Instance (snd kr) = true) ->
    exists d, count_labels l acc = Ok d /\
      keys d = fold_left set_add
                 (flat_map (fun kr => record_labels (snd kr)) l) (keys acc).
Proof.
  induction l as [| [k r] l IH]; intros acc Hk.
  - exists acc. split; reflexivity.
  - destruct r as [i | p].
    + cbn [count_labels flat_map record_labels snd app fold_left].
      destruct (IH (dict_set py_eqb acc (label i)
                      (match dict_get py_eqb acc (label i) with
                       | Some n => n
                       | None => 0
                       end + 1))) as (d & Ed & Kd).
      { intros kr Hin. apply Hk. right. exact Hin. }
      exists d. split; [exact Ed |]. rewrite Kd, keys_dict_set. reflexivity.
    + specialize (Hk (k, RPredict p) (or_introl eq_refl)). discriminate.
Qed.

Lemma collect_predict_labels_stream l :
  forall acc,
    (forall kr, In kr l -> is_Instance (snd kr) = false) ->
    collect_predict_labels l acc =
      Ok (fold_left set_add (flat_map (fun kr => record_labels (snd kr)) l) acc).
Proof.
  induction l as [| [k r] l IH]; intros acc Hk.
  - reflexivity.
  - destruct r as [i | p].
    + specialize (Hk (k, RInstance i) (or_introl eq_refl)). discriminate.
    + cbn [collect_predict_labels flat_map record_labels snd].
      rewrite IH by (intros kr Hin; apply Hk; right; exact Hin).
      rewrite fold_left_app. reflexivity.
Qed.

(** On a non-empty dataset of one kind, discovery finds the labels of
    the records with repetitions dropped. *)
Lemma discover_labels_stream data kr :
  first data = Ok kr -> one_kind data ->
  discover_labels data = Ok (fold_left set_add (label_stream data) []).
Proof.
  intros Hfirst Hkind. unfold discover_labels. rewrite Hfirst. cbn [bind].
  assert (Hin : In kr (rows data)).
  { unfold first in Hfirst. destruct (rows data) as [| x l]; [discriminate |].
    inversion Hfirst. left. reflexivity. }
  destruct (is_Instance (snd kr)) eqn:Ek.
  - unfold get_label_count.
    destruct (count_labels_keys (rows data) []) as (d & Ed & Kd).
    { intros kr' Hin'. rewrite <- Ek. apply Hkind; assumption. }
    rewrite Ed. cbn [bind]. rewrite Kd. reflexivity.
  - unfold get_predict_result_labels. apply collect_predict_labels_stream.
    intros kr' Hin'. rewrite <- Ek. apply Hkind; assumption.
Qed.

Lemma exact_eqb l a b :
  exact_population l -> In a l -> In b l -> (py_eqb a b = true <-> a = b).
Proof.
  intros [H | H] Ha Hb; rewrite forallb_forall in H;
    pose proof (H a Ha) as Ca; pose proof (H b Hb) as Cb;
    destruct a as [| x | |x], b as [| y | | y]; try discriminate.
  - change (py_eqb (VInt x) (VInt y)) with (Qeq_bool (inject_Z x) (inject_Z y)).
    rewrite Qeq_bool_iff, inject_Z_injective. split; congruence.
  - rewrite py_eqb_text. split; congruence.
Qed.

Lemma existsb_py_eqb_In l s x :
  exact_population l -> In x l -> incl s l ->
  (existsb (py_eqb x) s = true <-> In x s).
Proof.
  intros He Hx Hs. rewrite existsb_exists. split.
  - intros (y & Hy & E). apply (exact_eqb l) in E; auto. now subst.
  - intros Hin. exists x. split; [exact Hin |]. apply (exact_eqb l); auto.
Qed.

Lemma fold_set_add_In l :
  forall pop s x,
    exact_population pop -> incl l pop -> incl s pop ->
    (In x (fold_left set_add l s) <-> In x s \/ In x l).
Proof.
  induction l as [| y l IH]; intros pop s x He Hl Hs; simpl.
  - tauto.
  - assert (Hy : In y pop) by (apply Hl; left; reflexivity).
    assert (Hl' : incl l pop) by (intros z Hz; apply Hl; right; exact Hz).
    assert (Hs' : incl (set_add s y) pop).
    { unfold set_add. destruct (existsb (py_eqb y) s); [exact Hs |].
      intros z Hz. apply in_app_or in Hz. destruct Hz as [Hz | [<- | []]]; auto. }
    rewrite (IH pop (set_add s y) x He Hl' Hs').
    unfold set_add. destruct (existsb (py_eqb y) s) eqn:E.
    + apply (existsb_py_eqb_In pop) in E; auto.
      split; [tauto |]. intros [H | [<- | H]]; auto.
    + rewrite in_app_iff. simpl. tauto.
Qed.

Lemma distinct_NoDup pop l :
  exact_population pop -> incl l pop -> distinct l -> NoDup l.
Proof.
  intros He. induction l as [| x l IH]; intros Hl Hd; [constructor |].
  apply distinct_cons in Hd. destruct Hd as [Hx Hd]. constructor.
  - intros Hin. rewrite Forall_forall in Hx. specialize (Hx x Hin).
    assert (E : py_eqb x x = true).
    { apply (exact_eqb pop); auto; apply Hl; left; reflexivity. }
    congruence.
  - apply IH; [| exact Hd]. intros z Hz. apply Hl. right. exact Hz.
Qed.

(** Two label streams with the same members are discovered as the same
    population, whatever the order and the repetitions. *)
Lemma same_members_same_population l1 l2 :
  exact_population l1 ->
  (forall x, In x l1 <-> In x l2) ->
  Permutation (fold_left set_add l1 []) (fold_left set_add l2 []).
Proof.
  intros He Hm.
  assert (He2 : exact_population l2).
  { destruct He as [H | H]; [left | right]; rewrite forallb_forall in *;
      intros x Hx; apply H, Hm, Hx. }
  assert (I1 : forall x, In x (fold_left set_add l1 []) <-> In x l1).
  { intros x. rewrite (fold_set_add_In l1 l1 [] x He (incl_refl _) (incl_nil_l _)).
    simpl. tauto. }
  assert (I2 : forall x, In x (fold_left set_add l2 []) <-> In x l2).
  { intros x. rewrite (fold_set_add_In l2 l2 [] x He2 (incl_refl _) (incl_nil_l _)).
    simpl. tauto. }
  apply NoDup_Permutation.
  - apply (distinct_NoDup l1 _ He); [intros x Hx; now apply I1 |].
    now apply fold_set_add_distinct.
  - apply (distinct_NoDup l2 _ He2); [intros x Hx; now apply I2 |].
    now apply fold_set_add_distinct.
  - intros x. rewrite I1, I2. apply Hm.
Qed.

Lemma exact_is_ordered l : exact_population l -> ordered_population l.
Proof.
  intros [H | H]; [left | right; left; exact H].
  rewrite forallb_forall in *. intros x Hx. specialize (H x Hx).
  destruct x; try discriminate. reflexivity.
Qed.

(** ** A dataset with an unmapped label *)

Lemma map_rows_Err f l k r :
  In (k, r) l -> (exists e, f r = Err e) -> exists e, map_rows f l = Err e.
Proof.
  induction l as [| [k0 r0] l IH]; intros Hin Hf; [destruct Hin |].
  cbn [map_rows]. destruct (f r0) as [r0' | e] eqn:E; [| simpl; eauto].
  destruct Hin as [Heq | Hin].
  - inversion Heq; subst. destruct Hf as [e He]. congruence.
  - destruct (IH Hin Hf) as [e He]. rewrite He. simpl. eauto.
Qed.

(** X20: one Instance with an unmapped label makes transform fail as a
    whole: no dataset comes back and the component is unchanged. *)
Lemma unmapped_label_aborts_transform self data enc k0 i0 k i :
  label_encoder self = Some enc ->
  first data = Ok (k0, RInstance i0) ->
  In (k, RInstance i) (rows data) ->
  dict_get py_eqb enc (label i) = None ->
  exists e, transform self data = (self, Err e).
Proof.
  intros Henc Hfirst Hin Hmiss.
  unfold transform, transform_data_label, mapValues.
  rewrite Henc, Hfirst. cbn [bind snd is_Instance negb].
  destruct (map_rows_Err (fun v => replace_instance_label v enc) (rows data) k
              (RInstance i) Hin) as [e He].
  { exists (KeyError (label i)). unfold replace_instance_label.
    now rewrite getitem_missing. }
  rewrite He. simpl. eauto.
Qed.

Lemma dedupe_members l x :
  exact_population l -> (In x (fold_left set_add l []) <-> In x l).
Proof.
  intros He.
  rewrite (fold_set_add_In l l [] x He (incl_refl _) (incl_nil_l _)).
  simpl. tauto.
Qed.

(** X19: reordering, repeating or repartitioning the records leaves the
    discovered encoder unchanged: integer-only or text-only datasets of
    one kind with the same labels get the same encoder. *)
Lemma discovery_ignores_record_order `{Runtime} self1 self2 data1 data2 kr1 kr2 :
  runtime_ok ->
  label_encoder self1 = None -> encoder_key_type self1 = None ->
  label_encoder self2 = None -> encoder_key_type self2 = None ->
  first data1 = Ok kr1 -> first data2 = Ok kr2 ->
  one_kind data1 -> one_kind data2 ->
  exact_population (label_stream data1) ->
  (forall x, In x (label_stream data1) <-> In x (label_stream data2)) ->
  exists enc,
    snd (get_label_encoder self1 data1) = Ok enc /\
    snd (get_label_encoder self2 data2) = Ok enc.
Proof.
  intros Hrt He1 Hk1 He2 Hk2 Hf1 Hf2 K1 K2 Hex Hm.
  set (found1 := fold_left set_add (label_stream data1) []).
  set (found2 := fold_left set_add (label_stream data2) []).
  pose proof (discover_labels_stream _ _ Hf1 K1) as D1.
  pose proof (discover_labels_stream _ _ Hf2 K2) as D2.
  fold found1 in D1. fold found2 in D2.
  assert (P : Permutation found1 found2)
    by (apply same_members_same_population; assumption).
  assert (Ho : ordered_population found1).
  { apply exact_is_ordered. pose proof Hex as Hex'.
    destruct Hex' as [Hc | Hc]; [left | right]; apply forallb_forall;
      intros x Hx; apply (dedupe_members (label_stream data1) x Hex) in Hx;
      rewrite forallb_forall in Hc; apply Hc, Hx. }
  assert (Ho2 : ordered_population found2)
    by (eapply ordered_population_perm; eassumption).
  assert (Es : sort_values found1 = sort_values found2).
  { apply sort_values_canonical; [exact Ho | | exact P].
    eapply discover_labels_distinct, D1. }
  exists (combine (sort_values found1) (range (List.length found1))).
  rewrite (get_label_encoder_discovers self1 data1 found1 (sort_values found1)
             (or_introl Hrt) He1 Hk1 D1 (sorted_total _ Ho)).
  rewrite (get_label_encoder_discovers self2 data2 found2 (sort_values found2)
             (or_introl Hrt) He2 Hk2 D2 (sorted_total _ Ho2)).
  cbn [snd]. rewrite <- Es, !sort_values_length. split; reflexivity.
Qed.

(** ** Looking labels up under [==] *)

Lemma py_eqb_num u v p q :
  xnum_of_value u = Some p -> xnum_of_value v = Some q ->
  py_eqb u v = xnum_eqb p q.
Proof.
  intros Eu Ev. unfold py_eqb. rewrite Eu, Ev.
  destruct u, v; simpl in *; try discriminate; reflexivity.
Qed.

Lemma xnum_eqb_trans a b c :
  xnum_eqb a b = true -> xnum_eqb b c = true -> xnum_eqb a c = true.
Proof.
  destruct a, b, c; cbn [xnum_eqb]; try discriminate; try reflexivity.
  rewrite !Qeq_bool_iff. apply Qeq_trans.
Qed.

Lemma py_eqb_trans a b c :
  py_eqb a b = true -> py_eqb b c = true -> py_eqb a c = true.
Proof.
  destruct a as [| x | f | s], b as [| y | g | t], c as [| z | h | u];
    try (intros E; discriminate E); try (intros _ E; discriminate E);
    try (intros _ _; reflexivity);
    try (match goal with
         | |- py_eqb ?a ?b = true -> py_eqb ?b ?c = true -> _ =>
             rewrite (py_eqb_num a b _ _ eq_refl eq_refl),
                     (py_eqb_num b c _ _ eq_refl eq_refl),
                     (py_eqb_num a c _ _ eq_refl eq_refl);
             apply xnum_eqb_trans
         end).
  rewrite !py_eqb_text. congruence.
Qed.

Lemma py_eqb_refl v : is_number v = true \/ is_text v = true -> py_eqb v v = true.
Proof.
  intros [H | H].
  - destruct (xnum_of_number v H) as (x & Ex & Nx).
    rewrite (py_eqb_num v v x x Ex Ex).
    destruct x; cbn [xnum_eqb]; try reflexivity; try congruence.
    apply Qeq_bool_iff. apply Qeq_refl.
  - destruct v; try discriminate. apply String.eqb_refl.
Qed.

(** Two labels equal under [==] find the same entry. *)
Lemma dict_get_eqb {V : Type} (d : dict value V) a b :
  py_eqb a b = true -> dict_get py_eqb d a = dict_get py_eqb d b.
Proof.
  intros E. induction d as [| [k v] d IH]; simpl; [reflexivity |].
  assert (Ek : py_eqb a k = py_eqb b k).
  { destruct (py_eqb a k) eqn:Ea, (py_eqb b k) eqn:Eb; try reflexivity.
    - rewrite py_eqb_sym in E. rewrite (py_eqb_trans _ _ _ E Ea) in Eb. discriminate.
    - rewrite (py_eqb_trans _ _ _ E Eb) in Ea. discriminate. }
  rewrite Ek, IH. reflexivity.
Qed.

Lemma dict_get_In {V : Type} (d : dict value V) k v :
  dict_get py_eqb d k = Some v ->
  exists k0, In (k0, v) d /\ py_eqb k k0 = true.
Proof.
  induction d as [| [k1 v1] d IH]; simpl; [discriminate |].
  destruct (py_eqb k k1) eqn:E.
  - intros H. inversion H; subst. exists k1. auto.
  - intros H. destruct (IH H) as (k0 & Hin & Ek). exists k0. auto.
Qed.

Lemma dict_get_present {V : Type} (d : dict value V) k k0 :
  In k0 (keys d) -> py_eqb k k0 = true -> dict_get py_eqb d k <> None.
Proof.
  induction d as [| [k1 v1] d IH]; simpl; [tauto |].
  intros [-> | Hin] E.
  - rewrite E. discriminate.
  - destruct (py_eqb k k1); [discriminate | auto].
Qed.

(** In a dictionary with distinct keys each entry is found under its own
    key, provided the key equals itself. *)
Lemma dict_get_entry {V : Type} (d : dict value V) k v :
  distinct (keys d) -> In (k, v) d -> py_eqb k k = true ->
  dict_get py_eqb d k = Some v.
Proof.
  induction d as [| [k1 v1] d IH]; intros Hd Hin Hk; [destruct Hin |].
  unfold keys in Hd. cbn [map fst] in Hd. apply distinct_cons in Hd.
  destruct Hd as [H1 Hd]. simpl. destruct Hin as [Heq | Hin].
  - inversion Heq; subst. now rewrite Hk.
  - rewrite Forall_forall in H1.
    rewrite (H1 k) by (apply (in_map fst) in Hin; exact Hin).
    apply IH; assumption.
Qed.

(** ** Decoding what was encoded *)

Lemma combine_values_keys {K V : Type} (d : dict K V) :
  combine (values d) (keys d) = map (fun kv => (snd kv, fst kv)) d.
Proof.
  unfold values, keys. induction d as [| [k v] d IH]; simpl; [reflexivity |].
  now rewrite IH.
Qed.

Lemma invert_entries enc :
  distinct (values enc) -> invert enc = map (fun kv => (snd kv, fst kv)) enc.
Proof.
  intros Hd. unfold invert. rewrite combine_values_keys.
  apply dict_of_items_distinct. unfold keys. rewrite map_map. exact Hd.
Qed.

Lemma invert_lookup enc k v :
  distinct (values enc) -> py_eqb v v = true ->
  dict_get py_eqb enc k = Some v ->
  exists k0, dict_get py_eqb (invert enc) v = Some k0 /\
             py_eqb k k0 = true /\ In (k0, v) enc.
Proof.
  intros Hd Hv Hget. destruct (dict_get_In _ _ _ Hget) as (k0 & Hin & Ek).
  exists k0. split; [| auto].
  rewrite invert_entries by exact Hd. apply dict_get_entry.
  - unfold keys. rewrite map_map. exact Hd.
  - apply in_map_iff. exists (k0, v). auto.
  - exact Hv.
Qed.

Lemma dict_get_value {V : Type} (d : dict value V) k v :
  dict_get py_eqb d k = Some v -> In v (values d).
Proof.
  intros H. destruct (dict_get_In _ _ _ H) as (k0 & Hin & _).
  apply (in_map snd) in Hin. exact Hin.
Qed.

(** X18: for an encoder with distinct keys and distinct values, none
    of them NaN, the inverse transform builds, inverted once more, is
    the encoder again. *)
Theorem invert_involutive enc :
  distinct (keys enc) -> distinct (values enc) ->
  reflexive (keys enc) -> reflexive (values enc) ->
  invert (invert enc) = enc.
Proof.
  intros Hk Hv _ _. rewrite (invert_entries enc Hv).
  rewrite invert_entries.
  - rewrite map_map. cbn [fst snd]. rewrite <- (map_id enc) at 2.
    apply map_ext. intros [k v]. reflexivity.
  - unfold values. rewrite map_map. exact Hk.
Qed.

Lemma distinct_values_entry (m : dict value value) a b v1 v2 :
  distinct (values m) -> In (a, v1) m -> In (b, v2) m ->
  py_eqb v1 v2 = true -> a = b /\ v1 = v2.
Proof.
  induction m as [| [k v] m IH]; intros Hd H1 H2 E; [destruct H1 |].
  unfold values in Hd. cbn [map snd] in Hd. apply distinct_cons in Hd.
  destruct Hd as [Hv Hd]. rewrite Forall_forall in Hv.
  destruct H1 as [H1 | H1], H2 as [H2 | H2].
  - inversion H1; inversion H2; subst. auto.
  - inversion H1; subst. apply (in_map snd) in H2.
    specialize (Hv v2 H2). rewrite py_eqb_sym in Hv. cbn [snd] in Hv. congruence.
  - inversion H2; subst. apply (in_map snd) in H1.
    specialize (Hv v1 H1). cbn [snd] in Hv. congruence.
  - apply IH; assumption.
Qed.

Lemma Forall2_In_r {A B : Type} (R : A -> B -> Prop) l l' y' :
  Forall2 R l l' -> In y' l' -> exists y, In y l /\ R y y'.
Proof.
  induction 1 as [| x x' l l' Hx _ IH]; intros Hin; [destruct Hin |].
  destruct Hin as [<- | Hin].
  - exists x. split; [left; reflexivity | exact Hx].
  - destruct (IH Hin) as (y & Hy & HR). exists y. split; [right |]; assumption.
Qed.

Lemma distinct_keys_related {V W : Type} (R : value * V -> value * W -> Prop)
  (d : dict value V) (d' : dict value W) :
  Forall2 R d d' ->
  (forall x x' y y', R x x' -> R y y' ->
     py_eqb (fst y') (fst x') = true -> py_eqb (fst y) (fst x) = true) ->
  distinct (keys d) -> distinct (keys d').
Proof.
  intros HF HR. induction HF as [| x x' r r' Hx HF IH]; intros Hd; [exact Hd |].
  unfold keys in *. cbn [map] in *. apply distinct_cons in Hd.
  destruct Hd as [Hh Hd]. apply distinct_cons. split; [| apply IH, Hd].
  rewrite Forall_forall in *. intros b' Hb'.
  apply in_map_iff in Hb'. destruct Hb' as (y' & <- & Hy').
  destruct (Forall2_In_r _ _ _ _ HF Hy') as (y & Hy & Ryy').
  destruct (py_eqb (fst y') (fst x')) eqn:E; [| reflexivity].
  rewrite <- (Hh (fst y)); [| apply in_map; exact Hy].
  symmetry. eapply HR; eassumption.
Qed.

(** Looking up distinct labels in a map with distinct values gives
    distinct results. *)
Lemma remapped_distinct m d items :
  distinct (values m) -> distinct (keys d) -> remapped m d items ->
  distinct (keys items).
Proof.
  intros Hv Hd HR. eapply distinct_keys_related; [exact HR | | exact Hd].
  intros x x' y y' [Gx _] [Gy _] E.
  destruct (dict_get_In _ _ _ Gx) as (kx & Inx & Ex).
  destruct (dict_get_In _ _ _ Gy) as (ky & Iny & Ey).
  destruct (distinct_values_entry m ky kx _ _ Hv Iny Inx E) as [-> _].
  eapply py_eqb_trans; [exact Ey |]. rewrite py_eqb_sym. exact Ex.
Qed.

Lemma remap_detail_back m d items :
  distinct (values m) -> reflexive (values m) -> remapped m d items ->
  exists items',
    map_result (fun ls => l <- getitem (invert m) (fst ls) ;; Ok (l, snd ls)) items
      = Ok items' /\
    remapped (invert m) items items' /\ same_entries d items'.
Proof.
  intros Hv Hr HR. induction HR as [| [k s] [v s'] d items [Hg Hs] HR IH].
  - exists []. repeat split; constructor.
  - cbn [fst snd] in Hg, Hs. subst s'.
    destruct IH as (items' & E & R' & S').
    destruct (invert_lookup m k v Hv (Hr v (dict_get_value _ _ _ Hg)) Hg)
      as (k0 & G0 & Ek & _).
    exists ((k0, s) :: items'). cbn [map_result fst snd].
    unfold getitem at 1. rewrite G0. cbn [bind]. rewrite E. cbn [bind].
    repeat split.
    + constructor; [split; [exact G0 | reflexivity] | exact R'].
    + constructor; [split; [exact Ek | reflexivity] | exact S'].
Qed.

Lemma same_entries_distinct d d' :
  same_entries d d' -> distinct (keys d) -> distinct (keys d').
Proof.
  intros HS. apply (distinct_keys_related _ d d' HS).
  intros x x' y y' [Ex _] [Ey _] E.
  eapply py_eqb_trans; [exact Ey |].
  eapply py_eqb_trans; [exact E |]. rewrite py_eqb_sym. exact Ex.
Qed.

(** A prediction result whose detail has distinct keys, rewritten
    through a map with distinct values none of which is NaN and then
    through the inverted map, comes back with the same score, with true
    and predicted labels equal to the original ones, and with a detail
    that has the original entries in the original order, every key equal
    to the original key and every score unchanged. *)
Lemma predict_back (m : dict value value) p r :
  distinct (values m) -> reflexive (values m) ->
  distinct (keys (predict_detail p)) ->
  replace_predict_label (RPredict p) m = Ok r ->
  exists p',
    replace_predict_label r (invert m) = Ok (RPredict p') /\
    py_eqb (true_label p) (true_label p') = true /\
    py_eqb (predict_label p) (predict_label p') = true /\
    predict_score p' = predict_score p /\
    same_entries (predict_detail p) (predict_detail p').
Proof.
  intros Hv Hr Hd. unfold replace_predict_label at 1.
  destruct (getitem_cases m (true_label p)) as [(t & Et & Gt) | (Et & _)];
    rewrite Et; cbn [bind]; [| discriminate].
  destruct (getitem_cases m (predict_label p)) as [(q & Eq & Gq) | (Eq & _)];
    rewrite Eq; cbn [bind]; [| discriminate].
  destruct (map_result _ (predict_detail p)) as [items | e] eqn:Ei;
    cbn [bind]; [| discriminate].
  intros E. inversion E; subst r. clear E.
  assert (HR : remapped m (predict_detail p) items).
  { clear Hd. revert items Ei. induction (predict_detail p) as [| [k s] d IH];
      intros items Ei; cbn [map_result fst snd] in Ei.
    - inversion Ei. constructor.
    - destruct (getitem_cases m k) as [(v & Ev & Gv) | (Ev & _)];
        rewrite Ev in Ei; cbn [bind] in Ei; [| discriminate].
      destruct (map_result _ d) as [items0 |] eqn:E0; cbn [bind] in Ei;
        [| discriminate].
      inversion Ei; subst. constructor; [split; [exact Gv | reflexivity] |].
      apply IH. reflexivity. }
  pose proof (remapped_distinct m _ _ Hv Hd HR) as Hdi.
  destruct (remap_detail_back m _ _ Hv Hr HR) as (items' & Eb & Rb & Sb).
  destruct (invert_lookup m _ t Hv (Hr t (dict_get_value _ _ _ Gt)) Gt)
    as (t0 & G0 & Et0 & _).
  destruct (invert_lookup m _ q Hv (Hr q (dict_get_value _ _ _ Gq)) Gq)
    as (q0 & Gq0 & Eq0 & _).
  exists (mkPredict t0 q0 (predict_score p) items').
  unfold replace_predict_label.
  cbn [true_label predict_label predict_score predict_detail].
  rewrite (proj2 (getitem_Ok _ _ _) G0), (proj2 (getitem_Ok _ _ _) Gq0).
  cbn [bind]. rewrite (dict_of_items_distinct items Hdi).
  rewrite Eb. cbn [bind].
  rewrite (dict_of_items_distinct items'
             (same_entries_distinct _ _ Sb Hd)).
  repeat split; assumption.
Qed.

(** ** fit on a dataset of Instances *)

Lemma first_In data kr : first data = Ok kr -> In kr (rows data).
Proof.
  unfold first. destruct (rows data) as [| x l]; [discriminate |].
  intros E. inversion E. left. reflexivity.
Qed.

Lemma fold_set_add_keeps l : forall s y, In y s -> In y (fold_left set_add l s).
Proof.
  induction l as [| x l IH]; intros s y Hy; simpl; [exact Hy |].
  apply IH. unfold set_add. destruct (existsb (py_eqb x) s); [exact Hy |].
  apply in_or_app. left. exact Hy.
Qed.

Lemma fold_set_add_covers l :
  forall s x, In x l -> py_eqb x x = true ->
    exists y, In y (fold_left set_add l s) /\ py_eqb x y = true.
Proof.
  induction l as [| z l IH]; intros s x Hin Hx; [destruct Hin |].
  simpl. destruct Hin as [-> | Hin]; [| apply IH; assumption].
  unfold set_add. destruct (existsb (py_eqb x) s) eqn:E.
  - apply existsb_exists in E. destruct E as (y & Hy & Exy).
    exists y. split; [apply fold_set_add_keeps, Hy | exact Exy].
  - exists x. split; [| exact Hx].
    apply fold_set_add_keeps, in_or_app. right. left. reflexivity.
Qed.

Lemma map_rows_Forall2 (f : record -> result record)
  (P : value * record -> value * record -> Prop) l :
  (forall kr, In kr l -> exists r', f (snd kr) = Ok r' /\ P kr (fst kr, r')) ->
  exists l', map_rows f l = Ok l' /\ Forall2 P l l'.
Proof.
  induction l as [| [k r] l IH]; intros H.
  - exists []. split; [reflexivity | constructor].
  - destruct (H (k, r) (or_introl eq_refl)) as (r' & Er & Pr).
    destruct IH as (l' & El & Fl). { intros kr Hin. apply H. right. exact Hin. }
    exists ((k, r') :: l'). cbn [map_rows]. cbn [snd] in Er. rewrite Er, El.
    split; [reflexivity | constructor; assumption].
Qed.

Lemma in_range v n : In v (range n) -> exists j, v = VInt (Z.of_nat j) /\ (j < n)%nat.
Proof.
  unfold range. intros H. apply in_map_iff in H. destruct H as (j & <- & Hj).
  apply in_seq in Hj. exists j. split; [reflexivity | lia].
Qed.

Lemma numbers_or_text_reflexive l : numbers_or_text l -> reflexive l.
Proof.
  intros [H | H] v Hv; rewrite forallb_forall in H; apply py_eqb_refl; auto.
Qed.

Lemma numbers_or_text_dedupe l :
  numbers_or_text l -> numbers_or_text (fold_left set_add l []).
Proof.
  assert (G : forall (C : value -> bool) l s,
             forallb C l = true -> forallb C s = true ->
             forallb C (fold_left set_add l s) = true).
  { intros C l0. induction l0 as [| x l0 IH]; intros s Hl Hs; simpl; [exact Hs |].
    simpl in Hl. apply andb_true_iff in Hl. destruct Hl as [Hx Hl].
    apply IH; [exact Hl |]. unfold set_add.
    destruct (existsb (py_eqb x) s); [exact Hs |].
    rewrite forallb_app, Hs. simpl. now rewrite Hx. }
  intros [H | H]; [left | right]; apply G; auto.
Qed.

(** X17: fit on a non-empty dataset of Instances whose labels are all
    numbers (no NaN) or all text, by a component without encoder and
    type tags, succeeds: it stores the encoder made of the sorted
    distinct labels paired with 0..n-1, and returns the rows under the
    same keys and the same schema, each label replaced by its id, an
    integer in [0, n). *)
Theorem fit_encodes_instances `{Runtime} self data kr :
  runtime_ok ->
  label_encoder self = None -> encoder_key_type self = None ->
  first data = Ok kr -> all_instances data ->
  numbers_or_text (label_stream data) ->
  let found := fold_left set_add (label_stream data) [] in
  let enc := combine (sort_values found) (range (List.length found)) in
  exists out,
    snd (fit self data) = Ok out /\
    label_encoder (fst (fit self data)) = Some enc /\
    schema out = schema data /\
    Forall2 (encoded_row enc (List.length found)) (rows data) (rows out).
Proof.
  intros Hrt Henc Hkt Hfirst Hall Hnt found enc.
  assert (Hkind : one_kind data).
  { intros a b Ha Hb. now rewrite (Hall a Ha), (Hall b Hb). }
  pose proof (discover_labels_stream _ _ Hfirst Hkind) as Hfound. fold found in Hfound.
  assert (Hord : ordered_population found).
  { destruct (numbers_or_text_dedupe _ Hnt) as [Hc | Hc];
      [left | right; left]; exact Hc. }
  pose proof (get_label_encoder_discovers self data found (sort_values found)
                (or_introl Hrt) Henc Hkt Hfound (sorted_total _ Hord)) as Hget.
  rewrite sort_values_length in Hget. fold enc in Hget.
  assert (Hrows : exists l',
             map_rows (fun v => replace_instance_label v enc) (rows data) = Ok l' /\
             Forall2 (encoded_row enc (List.length found)) (rows data) l').
  { apply map_rows_Forall2. intros [k r] Hin.
    pose proof (Hall _ Hin) as Hi. destruct r as [i | p]; [| discriminate].
    assert (Hl : In (label i) (label_stream data)).
    { unfold label_stream. apply in_flat_map. exists (k, RInstance i).
      split; [exact Hin | left; reflexivity]. }
    destruct (fold_set_add_covers _ [] _ Hl (numbers_or_text_reflexive _ Hnt _ Hl))
      as (y & Hy & Ey). fold found in Hy.
    assert (Hyk : In y (keys enc)).
    { unfold enc. rewrite <- (sort_values_length found), keys_combine_range.
      eapply Permutation_in; [apply Permutation_sym, sort_values_perm | exact Hy]. }
    destruct (dict_get py_eqb enc (label i)) as [v |] eqn:Eg.
    2:{ exfalso. exact (dict_get_present enc _ _ Hyk Ey Eg). }
    pose proof (dict_get_value _ _ _ Eg) as Hv.
    unfold enc in Hv. rewrite <- (sort_values_length found) in Hv.
    rewrite values_combine_range, sort_values_length in Hv.
    destruct (in_range _ _ Hv) as (j & -> & Hj).
    exists (RInstance (set_label i (VInt (Z.of_nat j)))). split.
    - cbn [snd replace_instance_label]. unfold getitem. rewrite Eg. reflexivity.
    - split; [reflexivity |]. exists i, j. auto. }
  destruct Hrows as (l' & El & Fl).
  exists (mkTable l' (schema data)).
  unfold fit. rewrite Hget. unfold transform_data_label. rewrite Hfirst.
  cbn [bind]. rewrite (Hall _ (first_In _ _ Hfirst)).
  unfold mapValues. rewrite El. cbn [bind fst snd].
  split; [reflexivity |]. split; [reflexivity |]. split; [reflexivity | exact Fl].
Qed.

(** ** fit, then transform, on prediction results *)

Lemma py_eqb_int a b : py_eqb (VInt a) (VInt b) = Z.eqb a b.
Proof.
  change (py_eqb (VInt a) (VInt b)) with (Qeq_bool (inject_Z a) (inject_Z b)).
  destruct (Z.eqb_spec a b) as [-> | Hn].
  - apply Qeq_bool_iff. apply Qeq_refl.
  - destruct (Qeq_bool (inject_Z a) (inject_Z b)) eqn:E; [| reflexivity].
    apply Qeq_bool_iff in E. rewrite inject_Z_injective in E. contradiction.
Qed.

Lemma range_distinct n : distinct (range n).
Proof.
  unfold range. generalize 0%nat. induction n as [| n IH]; intros s; [reflexivity |].
  cbn [seq map]. apply distinct_cons. split; [| apply IH].
  apply Forall_forall. intros b Hb. apply in_map_iff in Hb.
  destruct Hb as (j & <- & Hj). apply in_seq in Hj.
  rewrite py_eqb_int. apply Z.eqb_neq. lia.
Qed.

Lemma range_reflexive n : reflexive (range n).
Proof.
  intros v Hv. destruct (in_range _ _ Hv) as (j & -> & _).
  rewrite py_eqb_int. apply Z.eqb_refl.
Qed.

Lemma replace_predict_label_covered enc p :
  (forall k, carried p k -> dict_get py_eqb enc k <> None) ->
  exists p', replace_predict_label (RPredict p) enc = Ok (RPredict p').
Proof.
  intros Hc. unfold replace_predict_label.
  destruct (getitem_cases enc (true_label p)) as [(t & Et & _) | (_ & Hn)].
  2:{ exfalso. apply (Hc (true_label p)); [left; reflexivity | exact Hn]. }
  destruct (getitem_cases enc (predict_label p)) as [(q & Eq & _) | (_ & Hn)].
  2:{ exfalso. apply (Hc (predict_label p)); [right; left; reflexivity | exact Hn]. }
  destruct (remap_detail_covered enc (predict_detail p)) as (items & Ei & _).
  { intros k Hk. apply Hc. right. right. exact Hk. }
  rewrite Et, Eq. cbn [bind]. rewrite Ei. cbn [bind]. eauto.
Qed.

Lemma map_rows_twice (f g : record -> result record)
  (P : value * record -> value * record -> Prop) l :
  forall l1,
    map_rows f l = Ok l1 ->
    (forall kr r1, In kr l -> f (snd kr) = Ok r1 ->
       exists r2, g r1 = Ok r2 /\ P kr (fst kr, r2)) ->
    exists l2, map_rows g l1 = Ok l2 /\ Forall2 P l l2.
Proof.
  induction l as [| [k r] l IH]; intros l1 E H; cbn [map_rows] in E.
  - inversion E. exists []. split; [reflexivity | constructor].
  - destruct (f r) as [r1 |] eqn:Er; cbn [bind] in E; [| discriminate].
    destruct (map_rows f l) as [l1' |] eqn:El; cbn [bind] in E; [| discriminate].
    inversion E; subst l1. clear E.
    destruct (H (k, r) r1 (or_introl eq_refl) Er) as (r2 & Eg & Pr).
    destruct (IH l1' eq_refl) as (l2 & E2 & F2).
    { intros kr r1' Hin. apply H. right. exact Hin. }
    exists ((k, r2) :: l2). cbn [map_rows]. rewrite Eg, E2.
    split; [reflexivity | constructor; assumption].
Qed.

Lemma map_rows_head f kr l l1 :
  map_rows f (kr :: l) = Ok l1 ->
  exists r1 l1', f (snd kr) = Ok r1 /\ l1 = (fst kr, r1) :: l1'.
Proof.
  destruct kr as [k r]. cbn [map_rows fst snd].
  destruct (f r) as [r1 |]; cbn [bind]; [| discriminate].
  destruct (map_rows f l) as [l1' |]; cbn [bind]; [| discriminate].
  intros E. inversion E. eauto.
Qed.

(** X1: fit on a non-empty dataset of prediction results (labels all
    numbers without NaN or all text, every detail with distinct keys)
    encodes the labels; transform applied afterwards to what fit
    returned decodes them: the rows come back under the same keys and
    schema with the same scores, every label equal to the original one
    and every detail entry in its place. *)
Theorem fit_then_transform_restores_predictions `{Runtime} self data kr :
  runtime_ok ->
  label_encoder self = None -> encoder_key_type self = None ->
  first data = Ok kr -> all_predictions data ->
  numbers_or_text (label_stream data) ->
  exists out back,
    snd (fit self data) = Ok out /\
    snd (transform (fst (fit self data)) out) = Ok back /\
    schema back = schema data /\
    Forall2 restored (rows data) (rows back).
Proof.
  intros Hrt Henc Hkt Hfirst Hall Hnt.
  set (found := fold_left set_add (label_stream data) []).
  set (enc := combine (sort_values found) (range (List.length found))).
  assert (Hpred : forall a, In a (rows data) -> is_Instance (snd a) = false).
  { intros a Ha. destruct (Hall a Ha) as (p & -> & _). reflexivity. }
  assert (Hkind : one_kind data).
  { intros a b Ha Hb. now rewrite (Hpred a Ha), (Hpred b Hb). }
  pose proof (discover_labels_stream _ _ Hfirst Hkind) as Hfound. fold found in Hfound.
  assert (Hord : ordered_population found).
  { destruct (numbers_or_text_dedupe _ Hnt) as [Hc | Hc];
      [left | right; left]; exact Hc. }
  pose proof (get_label_encoder_discovers self data found (sort_values found)
                (or_introl Hrt) Henc Hkt Hfound (sorted_total _ Hord)) as Hget.
  rewrite sort_values_length in Hget. fold enc in Hget.
  assert (Hvals : values enc = range (List.length found)).
  { pose proof (values_combine_range (sort_values found)) as Hv.
    rewrite sort_values_length in Hv. exact Hv. }
  assert (Hdv : distinct (values enc)) by (rewrite Hvals; apply range_distinct).
  assert (Hrv : reflexive (values enc)) by (rewrite Hvals; apply range_reflexive).
  assert (Hcov : forall a p k, In a (rows data) -> snd a = RPredict p ->
                   carried p k -> dict_get py_eqb enc k <> None).
  { intros a p k Ha Ep Hc.
    assert (Hl : In k (label_stream data)).
    { unfold label_stream. apply in_flat_map. exists a. split; [exact Ha |].
      rewrite Ep. cbn [record_labels]. destruct Hc as [-> | [-> | Hc]]; simpl; auto. }
    destruct (fold_set_add_covers _ [] _ Hl (numbers_or_text_reflexive _ Hnt _ Hl))
      as (y & Hy & Ey). fold found in Hy.
    apply (dict_get_present enc k y); [| exact Ey].
    unfold enc. rewrite <- (sort_values_length found), keys_combine_range.
    eapply Permutation_in; [apply Permutation_sym, sort_values_perm | exact Hy]. }
  destruct (map_rows_Forall2 (fun v => replace_predict_label v enc)
              (fun _ _ => True) (rows data)) as (l1 & E1 & _).
  { intros a Ha. destruct (Hall a Ha) as (p & Ep & _).
    destruct (replace_predict_label_covered enc p) as (p' & E').
    { intros k Hc. eapply Hcov; eassumption. }
    exists (RPredict p'). rewrite Ep. auto. }
  destruct (map_rows_twice (fun v => replace_predict_label v enc)
              (fun v => replace_predict_label v (invert enc)) restored
              (rows data) l1 E1) as (l2 & E2 & F2).
  { intros a r1 Ha Er. destruct (Hall a Ha) as (p & Ep & Hd).
    rewrite Ep in Er.
    destruct (predict_back enc p r1 Hdv Hrv Hd Er) as (p' & Eb & Ht & Hq & Hs & He).
    exists (RPredict p'). split; [exact Eb |].
    split; [reflexivity |]. exists p, p'. cbn [snd]. auto 10. }
  assert (Hout : exists k1 r1, first (mkTable l1 (schema data)) = Ok (k1, r1)
                               /\ is_Instance r1 = false).
  { pose proof (first_In _ _ Hfirst) as Hin0. unfold first in Hfirst.
    destruct (rows data) as [| a l] eqn:Er; [discriminate |].
    inversion Hfirst; subst a.
    destruct (map_rows_head _ _ _ _ E1) as (r1 & l1' & Ef & ->).
    exists (fst kr), r1. split; [reflexivity |].
    destruct (Hall kr) as (p & Ep & _); [rewrite Er; left; reflexivity |].
    rewrite Ep in Ef. unfold replace_predict_label in Ef.
    destruct (getitem enc (true_label p)); cbn [bind] in Ef; [| discriminate].
    destruct (getitem enc (predict_label p)); cbn [bind] in Ef; [| discriminate].
    destruct (map_result _ (predict_detail p)); cbn [bind] in Ef; [| discriminate].
    inversion Ef. reflexivity. }
  destruct Hout as (k1 & r1 & Hf1 & Hi1).
  exists (mkTable l1 (schema data)), (mkTable l2 (schema data)).
  assert (Efit : fit self data =
            (callback_info (set_label_encoder
               (discovered self enc) (Some enc)),
             Ok (mkTable l1 (schema data)))).
  { unfold fit. rewrite Hget. unfold transform_data_label. rewrite Hfirst.
    cbn [bind]. rewrite (Hpred _ (first_In _ _ Hfirst)).
    unfold mapValues. rewrite E1. reflexivity. }
  rewrite Efit. cbn [fst snd]. split; [reflexivity |].
  unfold transform, transform_data_label.
  cbn [label_encoder callback_info emit set_label_encoder].
  rewrite Hf1. cbn [bind snd]. rewrite Hi1. cbn [negb].
  unfold mapValues. cbn [rows]. rewrite E2. cbn [bind snd].
  split; [reflexivity |]. split; [reflexivity | exact F2].
Qed.

(** ** What the ids tell about the labels *)

Lemma replace_instance_label_Ok m i r :
  replace_instance_label (RInstance i) m = Ok r ->
  exists v, dict_get py_eqb m (label i) = Some v /\ r = RInstance (set_label i v).
Proof.
  unfold replace_instance_label.
  destruct (getitem_cases m (label i)) as [(v & Ev & Hg) | (Ev & _)];
    rewrite Ev; cbn [bind]; [| discriminate].
  intros E. inversion E. eauto.
Qed.

(** X2: under a map with distinct values, none of them NaN, two
    Instances whose labels are not NaN are rewritten to the same label
    exactly when their labels are equal under [==].  (A NaN label is
    found by identity only, and is not equal to itself.) *)
Theorem same_id_iff_equal_label (m : dict value value) i1 i2 j1 j2 :
  distinct (values m) -> reflexive (values m) ->
  py_eqb (label i1) (label i1) = true -> py_eqb (label i2) (label i2) = true ->
  replace_instance_label (RInstance i1) m = Ok (RInstance j1) ->
  replace_instance_label (RInstance i2) m = Ok (RInstance j2) ->
  (label j1 = label j2 <-> py_eqb (label i1) (label i2) = true).
Proof.
  intros Hd Hr _ _ E1 E2.
  destruct (replace_instance_label_Ok _ _ _ E1) as (v1 & G1 & R1).
  destruct (replace_instance_label_Ok _ _ _ E2) as (v2 & G2 & R2).
  inversion R1; subst j1. inversion R2; subst j2. cbn [label set_label].
  split.
  - intros <-.
    destruct (dict_get_In _ _ _ G1) as (k1 & In1 & Ek1).
    destruct (dict_get_In _ _ _ G2) as (k2 & In2 & Ek2).
    assert (Hv : py_eqb v1 v1 = true) by (apply Hr, (dict_get_value _ _ _ G1)).
    destruct (distinct_values_entry m k1 k2 v1 v1 Hd In1 In2 Hv) as [<- _].
    eapply py_eqb_trans; [exact Ek1 |]. rewrite py_eqb_sym. exact Ek2.
  - intros E. rewrite (dict_get_eqb m _ _ E) in G1. congruence.
Qed.

Lemma in_combine_range (l : list value) a v :
  In (a, v) (combine l (range (List.length l))) ->
  exists i, v = VInt (Z.of_nat i) /\ nth_error l i = Some a.
Proof.
  unfold range.
  assert (G : forall s, In (a, v) (combine l (map (fun i => VInt (Z.of_nat i))
                                             (seq s (List.length l)))) ->
              exists i, v = VInt (Z.of_nat (s + i)) /\ nth_error l i = Some a).
  { induction l as [| x l IH]; intros s Hin; [destruct Hin |].
    cbn [List.length seq map combine] in Hin. destruct Hin as [Hin | Hin].
    - inversion Hin; subst. exists 0%nat. rewrite Nat.add_0_r. auto.
    - destruct (IH (S s) Hin) as (i & -> & Hn). exists (S i).
      rewrite Nat.add_succ_r. auto. }
  intros Hin. destruct (G 0%nat Hin) as (i & Hv & Hn). eauto.
Qed.

Lemma StronglySorted_nth_error {A : Type} (R : A -> A -> Prop) l :
  StronglySorted R l ->
  forall i j a b, (i < j)%nat ->
    nth_error l i = Some a -> nth_error l j = Some b -> R a b.
Proof.
  induction 1 as [| x l Hs IH Hx]; intros i j a b Hlt Hi Hj.
  - destruct i; discriminate.
  - destruct j as [| j]; [lia |]. cbn [nth_error] in Hj.
    destruct i as [| i]; cbn [nth_error] in Hi.
    + inversion Hi; subst. rewrite Forall_forall in Hx. apply Hx.
      eapply nth_error_In. exact Hj.
    + eapply IH; [| exact Hi | exact Hj]. lia.
Qed.

Lemma sort_values_sorted_population l :
  numbers_or_text l -> distinct l -> StronglySorted lt_value (sort_values l).
Proof.
  intros [H | H] Hd.
  - eapply sort_values_sorted; [apply number_total_class | exact H | exact Hd].
  - eapply sort_values_sorted; [apply text_total_class | exact H | exact Hd].
Qed.

(** X3: the encoder discovered from labels that are all numbers (no
    NaN) or all text numbers them in increasing order: of two of its
    keys, one is smaller under [<] exactly when its id is smaller. *)
Theorem discovered_ids_follow_order `{Runtime} self data self' enc found a b ia ib :
  runtime_ok ->
  label_encoder self = None -> encoder_key_type self = None ->
  discover_labels data = Ok found -> numbers_or_text found ->
  get_label_encoder self data = (self', Ok enc) ->
  In (a, VInt ia) enc -> In (b, VInt ib) enc ->
  (py_ltb a b = true <-> ia < ib).
Proof.
  intros Hrt Henc Hkt Hf Hnt Hget Ha Hb.
  assert (Hord : ordered_population found).
  { destruct Hnt as [Hc | Hc]; [left | right; left]; exact Hc. }
  rewrite (get_label_encoder_discovers self data found (sort_values found)
             (or_introl Hrt) Henc Hkt Hf (sorted_total _ Hord)) in Hget.
  inversion Hget as [[Hs He]]. clear Hget. subst enc.
  destruct (in_combine_range _ _ _ Ha) as (i & Ei & Ni).
  destruct (in_combine_range _ _ _ Hb) as (j & Ej & Nj).
  inversion Ei; subst ia. inversion Ej; subst ib.
  pose proof (sort_values_sorted_population found Hnt
                (discover_labels_distinct _ _ Hf)) as Hsorted.
  pose proof (StronglySorted_nth_error _ _ Hsorted) as Hnth.
  split.
  - intros Hlt. destruct (Nat.lt_trichotomy i j) as [L | [E | G]]; [lia | |].
    + subst j. rewrite Ni in Nj. inversion Nj; subst b.
      pose proof (py_ltb_asym _ _ Hlt). congruence.
    + pose proof (Hnth j i b a G Nj Ni) as Hba. unfold lt_value in Hba.
      pose proof (py_ltb_asym _ _ Hlt). congruence.
  - intros Hlt. apply (Hnth i j a b); [lia | exact Ni | exact Nj].
Qed.

(** ** A supplied encoder *)

Lemma dict_of_items_get_None {V : Type} (l : list (string * V)) k :
  ~ In k (map fst l) -> dict_get String.eqb (dict_of_items String.eqb l) k = None.
Proof.
  intros Hn. unfold dict_of_items.
  destruct (dict_get String.eqb _ k) as [v |] eqn:E; [| reflexivity].
  apply fold_dict_get_in in E. destruct E as [E | E]; [| discriminate].
  exfalso. apply Hn. apply (in_map fst) in E. exact E.
Qed.

Lemma own_tag_loads `{Runtime} ks k :
  np_keeps_typed ->
  (forall a b, In a ks -> In b ks -> py_str a = py_str b -> type_name a = type_name b) ->
  In k ks ->
  exists tag,
    dict_get String.eqb
      (dict_of_items String.eqb (map (fun k => (py_str k, type_name k)) ks))
      (py_str k) = Some tag /\
    load_value_to_type k tag = Ok k.
Proof.
  intros Hnp Hty Hk.
  destruct (dict_of_items_get (map (fun k => (py_str k, type_name k)) ks) (py_str k))
    as (tag & Eget & Hin).
  { exists (type_name k). apply in_map_iff. exists k. auto. }
  exists tag. split; [exact Eget |].
  apply in_map_iff in Hin. destruct Hin as (k' & Ek' & Hk').
  inversion Ek' as [[Estr Etag]]. rewrite (Hty k' k Hk' Hk Estr).
  apply load_own_type, Hnp.
Qed.

(** X4: with an encoder supplied, no label list and no type tags yet,
    get_label_encoder returns the supplied encoder itself for every
    dataset, provided its keys are distinct and no two keys of different
    types have the same text; fit then rewrites the data with exactly
    that encoder. *)
Theorem supplied_encoder_is_used_as_is `{Runtime} self enc data :
  np_keeps_typed ->
  label_encoder self = Some enc -> label_list self = None ->
  encoder_key_type self = None ->
  distinct (keys enc) ->
  (forall a b, In a (keys enc) -> In b (keys enc) ->
     py_str a = py_str b -> type_name a = type_name b) ->
  snd (get_label_encoder self data) = Ok enc /\
  label_encoder (fst (get_label_encoder self data)) = Some enc /\
  label_encoder (fst (fit self data)) = Some enc /\
  snd (fit self data) =
    (t <- transform_data_label data enc ;; Ok (set_schema t (schema data))).
Proof.
  intros Hnp Henc Hll Hkt Hd Hty.
  assert (Hget : get_label_encoder self data =
            (set_encoder_key_type
               (set_encoder_value_type self
                  (Some (PyDict (dict_of_items String.eqb
                     (map (fun kv => (py_str (fst kv), type_name (snd kv))) enc)))))
               (Some (PyDict (dict_of_items String.eqb
                  (map (fun k => (py_str k, type_name k)) (keys enc))))),
             Ok enc)).
  { unfold get_label_encoder. rewrite Henc, Hll, Hkt.
    rewrite rekey_id.
    - fold (dict_of_items py_eqb enc). rewrite (dict_of_items_distinct enc Hd).
      reflexivity.
    - intros k Hk. apply own_tag_loads; assumption. }
  rewrite Hget. cbn [fst snd]. split; [reflexivity |].
  split; [exact Henc |].
  unfold fit. rewrite Hget.
  destruct (transform_data_label data enc); split; reflexivity.
Qed.

Lemma rekey_missing `{Runtime} d items :
  forall acc k,
    In k (keys items) -> dict_get String.eqb d (py_str k) = None ->
    exists kt e, rekey items (PyDict d) acc = (kt, Err e).
Proof.
  induction items as [| [k0 v0] items IH]; intros acc k Hin Hn; [destruct Hin |].
  cbn [rekey]. unfold strmap_getitem. cbn [strmap_entries].
  destruct (dict_get String.eqb d (py_str k0)) as [tag |] eqn:E0; [| eauto].
  destruct (load_value_to_type k0 tag) as [k' | e]; [| eauto].
  destruct Hin as [Heq | Hin].
  - simpl in Heq. subst k0. congruence.
  - eapply IH; eassumption.
Qed.

(** X5: when a label list is supplied with the encoder, every key of
    the encoder must have the text of some element of the list:
    otherwise get_label_encoder raises, and so does fit, which returns
    no dataset. *)
Theorem label_list_must_cover_the_keys `{Runtime} self enc ll k data :
  label_encoder self = Some enc -> label_list self = Some ll ->
  In k (keys enc) ->
  (forall v, In v ll -> py_str v <> py_str k) ->
  (exists e, snd (get_label_encoder self data) = Err e) /\
  (exists e, snd (fit self data) = Err e).
Proof.
  intros Henc Hll Hk Hcov.
  assert (Hget : exists st e, get_label_encoder self data = (st, Err e)).
  { unfold get_label_encoder. rewrite Henc, Hll.
    cbn [encoder_key_type set_encoder_key_type].
    destruct (rekey_missing
                (dict_of_items String.eqb (map (fun v => (py_str v, type_name v)) ll))
                enc [] k Hk) as (kt & e & E).
    { apply dict_of_items_get_None. rewrite map_map. cbn [fst].
      intros Hin. apply in_map_iff in Hin. destruct Hin as (v & Ev & Hv).
      exact (Hcov v Hv Ev). }
    rewrite E. eauto. }
  destruct Hget as (st & e & E). split.
  - exists e. now rewrite E.
  - exists e. unfold fit. now rewrite E.
Qed.

Lemma rekey_tagged `{Runtime} d t items :
  forall acc conv,
    (forall k, In k (keys items) -> dict_get String.eqb d (py_str k) = Some t) ->
    map_result (fun kv => k' <- load_value_to_type (fst kv) t ;; Ok (k', snd kv)) items
      = Ok conv ->
    rekey items (PyDict d) acc =
      (PyDict d,
       Ok (fold_left (fun a kv => dict_set py_eqb a (fst kv) (snd kv)) conv acc)).
Proof.
  induction items as [| [k v] items IH]; intros acc conv Ht Ec;
    cbn [map_result fst snd] in Ec.
  - inversion Ec. reflexivity.
  - destruct (load_value_to_type k t) as [k' |] eqn:El; cbn [bind] in Ec;
      [| discriminate].
    destruct (map_result _ items) as [conv' |] eqn:Em; cbn [bind] in Ec;
      [| discriminate].
    inversion Ec; subst conv. clear Ec.
    cbn [rekey]. unfold strmap_getitem. cbn [strmap_entries].
    rewrite (Ht k (or_introl eq_refl)), El. cbn [fold_left fst snd].
    apply IH; [| reflexivity]. intros k0 Hk0. apply Ht. right. exact Hk0.
Qed.

(** X6: a label list whose elements all have one type decides the type
    of the keys: when it covers the texts of the supplied encoder's
    keys, get_label_encoder returns the encoder with every key loaded
    under that type's tag. *)
Theorem label_list_types_the_keys `{Runtime} self enc ll t conv data :
  label_encoder self = Some enc -> label_list self = Some ll ->
  (forall v, In v ll -> type_name v = t) ->
  (forall k, In k (keys enc) -> exists v, In v ll /\ py_str v = py_str k) ->
  map_result (fun kv => k' <- load_value_to_type (fst kv) t ;; Ok (k', snd kv)) enc
    = Ok conv ->
  snd (get_label_encoder self data) = Ok (dict_of_items py_eqb conv).
Proof.
  intros Henc Hll Hty Hcov Hconv.
  unfold get_label_encoder. rewrite Henc, Hll.
  cbn [encoder_key_type set_encoder_key_type].
  rewrite (rekey_tagged _ t enc [] conv); [reflexivity | | exact Hconv].
  intros k Hk. destruct (Hcov k Hk) as (v & Hv & Ev).
  destruct (dict_of_items_get (map (fun v => (py_str v, type_name v)) ll) (py_str k))
    as (tag & Eg & Hin).
  { exists (type_name v). apply in_map_iff. exists v. rewrite Ev. auto. }
  rewrite Eg. apply in_map_iff in Hin. destruct Hin as (v' & Ev' & Hv').
  inversion Ev'. f_equal. symmetry. rewrite <- (Hty v' Hv'). reflexivity.
Qed.

(** ** What transform leaves alone *)

Lemma map_rows_keys f l l' :
  map_rows f l = Ok l' -> map fst l' = map fst l.
Proof.
  revert l'. induction l as [| [k r] l IH]; intros l' E; cbn [map_rows] in E.
  - inversion E. reflexivity.
  - destruct (f r); cbn [bind] in E; [| discriminate].
    destruct (map_rows f l) as [l0 |]; cbn [bind] in E; [| discriminate].
    inversion E. cbn [map fst]. now rewrite (IH l0 eq_refl).
Qed.

Lemma transform_data_label_keys data m out :
  transform_data_label data m = Ok out ->
  map fst (rows out) = map fst (rows data).
Proof.
  unfold transform_data_label, mapValues.
  destruct (first data) as [kv |]; cbn [bind]; [| discriminate].
  destruct (is_Instance (snd kv));
    match goal with |- context [map_rows ?f ?l] => destruct (map_rows f l) eqn:E end;
    cbn [bind]; try discriminate; intros Eo; inversion Eo; cbn [rows];
    eapply map_rows_keys; eassumption.
Qed.

(** X7: transform never changes the encoder, the type tags, the label
    list, the run flag or the stored export.  When it fails the
    component is exactly as before and nothing is reported; when it
    succeeds the two metric events carrying the encoder are appended,
    and the dataset returned has the keys of the input, in the same
    order, and its schema. *)
Theorem transform_keeps_the_component self data :
  let self' := fst (transform self data) in
  need_run self' = need_run self /\
  label_encoder self' = label_encoder self /\
  label_list self' = label_list self /\
  encoder_key_type self' = encoder_key_type self /\
  encoder_value_type self' = encoder_value_type self /\
  model_output self' = model_output self /\
  match snd (transform self data) with
  | Ok out =>
      tracker self' = tracker self ++
        [CallbackMetric metric_name metric_namespace [(metric_name, 0)];
         SetMetricMeta metric_namespace metric_name "train" metric_type
           (label_encoder self)] /\
      schema out = schema data /\
      map fst (rows out) = map fst (rows data)
  | Err _ => self' = self
  end.
Proof.
  unfold transform.
  destruct (label_encoder self) as [enc |] eqn:Henc;
    [| cbn; rewrite Henc; repeat split].
  destruct (first data) as [kv |] eqn:Hf; [| cbn; rewrite Henc; repeat split].
  destruct (transform_data_label data _) as [out |] eqn:Ht;
    [| cbn; rewrite Henc; repeat split].
  cbn. rewrite Henc. repeat split.
  eapply transform_data_label_keys. exact Ht.
Qed.

(** X8: after a successful fit on a dataset whose first record is an
    Instance, transform on the same dataset returns what fit returned
    and keeps the encoder fit stored. *)
Theorem transform_repeats_fit `{Runtime} self data kr out :
  first data = Ok kr -> is_Instance (snd kr) = true ->
  snd (fit self data) = Ok out ->
  snd (transform (fst (fit self data)) data) = Ok out /\
  label_encoder (fst (transform (fst (fit self data)) data))
    = label_encoder (fst (fit self data)).
Proof.
  intros Hf Hi. unfold fit.
  destruct (get_label_encoder self data) as [self1 [enc | e]]; [| discriminate].
  destruct (transform_data_label data enc) as [rd |] eqn:Et; [| discriminate].
  cbn [fst snd]. intros E. inversion E; subst out. clear E.
  unfold transform. cbn [label_encoder callback_info emit set_label_encoder].
  rewrite Hf, Hi. cbn [negb]. rewrite Et. split; reflexivity.
Qed.

(** X9: a dataset holding a record of the other kind than its first
    record cannot be transformed: transform raises, returns no dataset
    and leaves the component as it was. *)
Theorem mixed_kinds_raise self enc data kr kr' :
  label_encoder self = Some enc ->
  first data = Ok kr -> In kr' (rows data) ->
  is_Instance (snd kr') <> is_Instance (snd kr) ->
  exists e, transform self data = (self, Err e).
Proof.
  intros Henc Hf Hin Hk. unfold transform, transform_data_label, mapValues.
  rewrite Henc, Hf. cbn [bind]. destruct kr' as [k' r'].
  destruct (is_Instance (snd kr)) eqn:Ei; cbn [negb].
  - destruct (map_rows_Err (fun v => replace_instance_label v enc) (rows data) k' r' Hin)
      as [e He].
    { destruct r' as [i | p]; [exfalso; apply Hk; reflexivity |].
      cbn. eauto. }
    rewrite He. cbn. eauto.
  - destruct (map_rows_Err (fun v => replace_predict_label v (invert enc))
                (rows data) k' r' Hin) as [e He].
    { destruct r' as [i | p]; [| exfalso; apply Hk; reflexivity].
      cbn. eauto. }
    rewrite He. cbn. eauto.
Qed.

(** ** What the rewrite on objects leaves alone *)

Lemma preserved_refl h : preserved h h.
Proof. split; auto. Qed.

Lemma preserved_trans h1 h2 h3 : preserved h1 h2 -> preserved h2 h3 -> preserved h1 h3.
Proof. intros [A B] [C D]. split; auto. Qed.

Lemma preserved_alloc_dict h d : preserved h (fst (alloc_dict h d)).
Proof. split; intros l x E; cbn; [exact E | now apply nth_error_keep]. Qed.

Lemma preserved_alloc_list h cs : preserved h (fst (alloc_list h cs)).
Proof. split; intros l x E; cbn; [now apply nth_error_keep | exact E]. Qed.

Lemma deepcopy_cells_preserved cs :
  forall memo h, preserved h (fst (deepcopy_cells cs memo h)).
Proof.
  induction cs as [| c cs IH]; intros memo h; [apply preserved_refl |].
  destruct c as [v | l]; cbn [deepcopy_cells].
  - specialize (IH memo h). destruct (deepcopy_cells cs memo h) as [h' [r | e]]; exact IH.
  - destruct (dict_get Nat.eqb memo l) as [l' |].
    + specialize (IH memo h).
      destruct (deepcopy_cells cs memo h) as [h' [r | e]]; exact IH.
    + destruct (nth_error (dicts h) l) as [d |]; [| apply preserved_refl].
      cbn [alloc_dict].
      specialize (IH ((l, List.length (dicts h)) :: memo)
                     (mkHeap (lists h) (dicts h ++ [d]))).
      destruct (deepcopy_cells cs _ _) as [h' [r | e]]; cbn [fst] in *;
        (eapply preserved_trans; [apply (preserved_alloc_dict h d) | exact IH]).
Qed.

Lemma deepcopy_list_preserved l h : preserved h (fst (deepcopy_list l h)).
Proof.
  unfold deepcopy_list. destruct (nth_error (lists h) l) as [cs |];
    [| apply preserved_refl].
  pose proof (deepcopy_cells_preserved cs [] h) as P.
  destruct (deepcopy_cells cs [] h) as [h1 [cs' | e]]; cbn [fst] in *; [| exact P].
  eapply preserved_trans; [exact P | apply preserved_alloc_list].
Qed.

(** X10: whatever the reference, the map and the outcome, the rewrite
    of a prediction result changes no object that existed before the
    call: it only adds new ones, also when it raises. *)
Theorem replace_predict_label_never_mutates predict_result label_encoder h :
  preserved h (fst (replace_predict_label_obj predict_result label_encoder h)).
Proof.
  unfold replace_predict_label_obj.
  pose proof (deepcopy_list_preserved predict_result h) as P.
  destruct (deepcopy_list predict_result h) as [h1 [cs | e]]; cbn [fst] in P;
    [| exact P].
  destruct cs as [| c1 [| c2 [| c3 [| c4 [| c5 cs]]]]]; try exact P.
  destruct (getitem_cell label_encoder c1); [| exact P].
  destruct (getitem_cell label_encoder c2); [| exact P].
  destruct c4 as [v | l]; [exact P |].
  destruct (nth_error (dicts h1) l) as [d |]; [| exact P].
  destruct (map_result _ d) as [items |]; [| exact P].
  cbn [alloc_dict alloc_list fst lists dicts].
  eapply preserved_trans; [exact P |].
  eapply preserved_trans;
    [apply (preserved_alloc_dict h1 (dict_of_items py_eqb items)) |].
  apply (preserved_alloc_list (mkHeap (lists h1) (dicts h1 ++ [dict_of_items py_eqb items]))).
Qed.

(** ** What export persists *)

Lemma unpack2_two_chars k :
  two_chars k = true ->
  exists a b, k = VStr (String a (String b "")) /\
              unpack2 k = Ok (VStr (String a ""), VStr (String b "")).
Proof.
  destruct k as [| z | f | s]; try discriminate.
  destruct s as [| a [| b [| c s]]]; try discriminate. intros _. eauto.
Qed.

Lemma export_items `{Runtime} ks :
  forallb two_chars ks = true ->
  exists items,
    map_result (fun key => kv <- unpack2 key ;; Ok (py_str (fst kv), py_str (snd kv))) ks
      = Ok items /\
    Forall2 split_key ks items.
Proof.
  induction ks as [| k ks IH]; intros Hk.
  - exists []. split; [reflexivity | constructor].
  - cbn [forallb] in Hk. apply andb_true_iff in Hk. destruct Hk as [H2 Hk].
    destruct (IH Hk) as (items & Ei & Fi).
    destruct (unpack2_two_chars k H2) as (a & b & -> & Eu).
    exists ((String a "", String b "") :: items). cbn [map_result].
    rewrite Eu. cbn [bind fst snd py_str]. rewrite Ei. split; [reflexivity |].
    constructor; [| exact Fi]. exists a, b. auto.
Qed.

(** X11: when every key of the encoder is a text of two characters,
    export_model succeeds and stores what it returns; the persisted
    label_encoder pairs the first character of each key with its second
    character, so the ids of the encoder are not persisted at all; the
    two type-tag maps and the run flag are persisted as they are. *)
Theorem export_persists_split_keys `{Runtime} self enc :
  label_encoder self = Some enc ->
  forallb two_chars (keys enc) = true ->
  exists items,
    Forall2 split_key (keys enc) items /\
    let exported :=
      [(model_meta_name, MetaMsg (label_transform_meta_pb2.mk (need_run self)));
       (model_param_name,
        ParamMsg (label_transform_param_pb2.mk
                    (dict_of_items String.eqb items)
                    (map_field (encoder_key_type self))
                    (map_field (encoder_value_type self))))] in
    export_model self = (set_model_output self (Some exported), Ok exported).
Proof.
  intros Henc Hk. destruct (export_items (keys enc) Hk) as (items & Ei & Fi).
  exists items. split; [exact Fi |].
  unfold export_model, _get_param, _get_meta. rewrite Henc. cbn [bind].
  rewrite Ei. reflexivity.
Qed.

(** ** What load_model reconstructs *)

Lemma load_items_spec `{Runtime} items :
  forall kt vt acc,
    exists kt' vt',
      load_items items (PbMap kt) (PbMap vt) acc =
        (PbMap kt', PbMap vt',
         conv <- map_result (loaded_entry kt vt) items ;;
         Ok (fold_left (fun d kv => dict_set py_eqb d (fst kv) (snd kv)) conv acc)) /\
      (forall conv, map_result (loaded_entry kt vt) items = Ok conv ->
         kt' = kt /\ vt' = vt).
Proof.
  induction items as [| [k v] items IH]; intros kt vt acc.
  - exists kt, vt. split; [reflexivity | auto].
  - cbn [load_items map_result]. unfold loaded_entry at 1 3. cbn [fst snd].
    rewrite strmap_getitem_PbMap. unfold tag_of at 1 3.
    destruct (dict_get String.eqb kt k) as [tk |] eqn:Ek.
    + destruct (load_value_to_type (VStr k) tk) as [k' | e] eqn:Lk; cbn [bind].
      2:{ exists kt, vt. split; [reflexivity | discriminate]. }
      rewrite strmap_getitem_PbMap. unfold tag_of at 1 2.
      destruct (dict_get String.eqb vt k) as [tv |] eqn:Ev.
      * destruct (load_value_to_type (VStr v) tv) as [v' | e] eqn:Lv; cbn [bind].
        2:{ exists kt, vt. split; [reflexivity | discriminate]. }
        destruct (IH kt vt (dict_set py_eqb acc k' v')) as (kt' & vt' & E & Hsame).
        exists kt', vt'. rewrite E. split.
        -- destruct (map_result (loaded_entry kt vt) items); reflexivity.
        -- intros conv Ec.
           destruct (map_result (loaded_entry kt vt) items) as [c |] eqn:Em;
             cbn [bind] in Ec; [| discriminate].
           apply (Hsame c). reflexivity.
      * rewrite load_value_to_type_unknown by (congruence || reflexivity).
        cbn [bind]. eexists _, _. split; [reflexivity | discriminate].
    + rewrite load_value_to_type_unknown by (congruence || reflexivity).
      cbn [bind]. eexists _, _. split; [reflexivity | discriminate].
Qed.

Lemma map_result_Ok_iff {A B : Type} (f : A -> result B) l :
  (exists l', map_result f l = Ok l') <-> (forall a, In a l -> exists b, f a = Ok b).
Proof.
  induction l as [| x l IH]; cbn [map_result].
  - split; [intros _ a [] | intros _; eauto].
  - split.
    + intros [l' E]. destruct (f x) as [b |] eqn:Ex; cbn [bind] in E; [| discriminate].
      destruct (map_result f l) as [r |] eqn:Er; cbn [bind] in E; [| discriminate].
      intros a [<- | Ha]; [eauto |]. apply (proj1 IH); eauto.
    + intros Hall. destruct (Hall x (or_introl eq_refl)) as [b Ex]. rewrite Ex.
      destruct (proj2 IH) as [r Er]; [intros a Ha; apply Hall; right; exact Ha |].
      rewrite Er. cbn [bind]. eauto.
Qed.

Lemma map_result_Err_In {A B : Type} (f : A -> result B) l e :
  map_result f l = Err e -> exists a, In a l /\ f a = Err e.
Proof.
  induction l as [| x l IH]; cbn [map_result]; [discriminate |].
  destruct (f x) as [b | e'] eqn:Ex; cbn [bind].
  - destruct (map_result f l) as [r | e'']; cbn [bind]; [discriminate |].
    intros E. inversion E; subst. destruct (IH eq_refl) as (a & Ha & Ea).
    exists a. split; [right; exact Ha | exact Ea].
  - intros E. inversion E; subst. exists x. split; [left; reflexivity | exact Ex].
Qed.

Lemma load_model_runs `{Runtime} self model_dict m p :
  model_entry model_dict model_meta_name = Ok (Some (MetaMsg m)) ->
  model_entry model_dict model_param_name = Ok (Some (ParamMsg p)) ->
  let kt := label_transform_param_pb2.encoder_key_type p in
  let vt := label_transform_param_pb2.encoder_value_type p in
  let entries := label_transform_param_pb2.label_encoder p in
  snd (load_model self model_dict) =
    (conv <- map_result (loaded_entry kt vt) entries ;; Ok tt) /\
  forall conv, map_result (loaded_entry kt vt) entries = Ok conv ->
    label_encoder (fst (load_model self model_dict))
      = Some (dict_of_items py_eqb conv) /\
    need_run (fst (load_model self model_dict))
      = label_transform_meta_pb2.need_run m /\
    encoder_key_type (fst (load_model self model_dict)) = Some (PbMap kt) /\
    encoder_value_type (fst (load_model self model_dict)) = Some (PbMap vt).
Proof.
  intros Hm Hp kt vt entries. unfold load_model. rewrite Hm, Hp.
  destruct (load_items_spec entries kt vt []) as (kt' & vt' & E & Hsame).
  fold kt vt entries. rewrite E.
  destruct (map_result (loaded_entry kt vt) entries) as [conv |] eqn:Em; cbn [bind].
  - destruct (Hsame conv eq_refl) as [-> ->]. split; [reflexivity |].
    intros conv' Ec. inversion Ec; subst conv'. repeat split.
  - split; [reflexivity | discriminate].
Qed.

(** X13: when the model holds the meta and the param message,
    load_model succeeds exactly when the key and the value of every
    persisted entry load under the tags recorded for the key; when it
    raises, the error is the one raised for the key or for the value of
    one of the entries.  On success the run flag is the persisted one
    and the type tags are the persisted maps; when the loaded keys are
    pairwise different, the encoder holds the loaded pairs and nothing
    else, one entry for each persisted one.  The statement does not
    depend on the order in which the map field yields its entries. *)
Theorem load_model_reconstructs `{Runtime} self model_dict m p :
  model_entry model_dict model_meta_name = Ok (Some (MetaMsg m)) ->
  model_entry model_dict model_param_name = Ok (Some (ParamMsg p)) ->
  let kt := label_transform_param_pb2.encoder_key_type p in
  let vt := label_transform_param_pb2.encoder_value_type p in
  let entries := label_transform_param_pb2.label_encoder p in
  (snd (load_model self model_dict) = Ok tt <->
     forall kv, In kv entries ->
       exists k' v',
         load_value_to_type (VStr (fst kv)) (tag_of kt (fst kv)) = Ok k' /\
         load_value_to_type (VStr (snd kv)) (tag_of vt (fst kv)) = Ok v') /\
  (forall e, snd (load_model self model_dict) = Err e ->
     exists kv, In kv entries /\
       (load_value_to_type (VStr (fst kv)) (tag_of kt (fst kv)) = Err e \/
        load_value_to_type (VStr (snd kv)) (tag_of vt (fst kv)) = Err e)) /\
  (forall conv, map_result (loaded_entry kt vt) entries = Ok conv ->
     need_run (fst (load_model self model_dict))
       = label_transform_meta_pb2.need_run m /\
     encoder_key_type (fst (load_model self model_dict)) = Some (PbMap kt) /\
     encoder_value_type (fst (load_model self model_dict)) = Some (PbMap vt) /\
     (distinct (keys conv) ->
      exists enc,
        label_encoder (fst (load_model self model_dict)) = Some enc /\
        Permutation enc conv /\
        List.length enc = List.length entries)).
Proof.
  intros Hm Hp kt vt entries.
  destruct (load_model_runs self model_dict m p Hm Hp) as [Hres Hstate].
  fold kt vt entries in Hres, Hstate.
  assert (Hentry : forall kv,
            (exists kv', loaded_entry kt vt kv = Ok kv') <->
            exists k' v',
              load_value_to_type (VStr (fst kv)) (tag_of kt (fst kv)) = Ok k' /\
              load_value_to_type (VStr (snd kv)) (tag_of vt (fst kv)) = Ok v').
  { intros kv. unfold loaded_entry. split.
    - intros [kv' E].
      destruct (load_value_to_type (VStr (fst kv)) _) as [k' |]; [| discriminate].
      destruct (load_value_to_type (VStr (snd kv)) _) as [v' |]; [| discriminate].
      eauto.
    - intros (k' & v' & -> & ->). cbn [bind]. eauto. }
  split; [| split].
  - rewrite Hres. split.
    + intros E kv Hkv. apply Hentry.
      apply (proj1 (map_result_Ok_iff (loaded_entry kt vt) entries)); [| exact Hkv].
      destruct (map_result (loaded_entry kt vt) entries) as [conv |]; [eauto | discriminate].
    + intros Hall.
      destruct (proj2 (map_result_Ok_iff (loaded_entry kt vt) entries)) as [conv Ec].
      { intros kv Hkv. apply Hentry, Hall, Hkv. }
      rewrite Ec. reflexivity.
  - intros e. rewrite Hres.
    destruct (map_result (loaded_entry kt vt) entries) as [conv | e'] eqn:Ec;
      cbn [bind]; [discriminate |].
    intros E. inversion E; subst e'.
    destruct (map_result_Err_In _ _ _ Ec) as (kv & Hkv & Ekv).
    exists kv. split; [exact Hkv |]. unfold loaded_entry in Ekv.
    destruct (load_value_to_type (VStr (fst kv)) _) as [k' | e1]; cbn [bind] in Ekv.
    + right. destruct (load_value_to_type (VStr (snd kv)) _) as [v' | e2];
        cbn [bind] in Ekv; [discriminate | congruence].
    + left. congruence.
  - intros conv Ec. destruct (Hstate conv Ec) as (He & Hn & Hk & Hv).
    split; [exact Hn |]. split; [exact Hk |]. split; [exact Hv |].
    intros Hd. exists conv. rewrite He, (dict_of_items_distinct conv Hd).
    split; [reflexivity |]. split; [apply Permutation_refl |].
    clear -Ec. revert conv Ec.
    induction entries as [| x l IH]; intros conv Ec; cbn [map_result] in Ec.
    + inversion Ec. reflexivity.
    + destruct (loaded_entry kt vt x); cbn [bind] in Ec; [| discriminate].
      destruct (map_result (loaded_entry kt vt) l) as [r |]; cbn [bind] in Ec;
        [| discriminate].
      inversion Ec. cbn [List.length]. f_equal. apply IH. reflexivity.
Qed.

Lemma model_entry_both model_dict name name' o :
  model_entry model_dict name = Ok o ->
  exists o', model_entry model_dict name' = Ok o'.
Proof.
  unfold model_entry. destruct (dict_get String.eqb model_dict "model") as [mm |];
    [| discriminate].
  destruct (values mm); [discriminate | eauto].
Qed.

(** X14: load_model is not all-or-nothing.  Once the meta message is
    found, a failure further on (no param message, or an entry that does
    not load) comes after the run flag has been overwritten with the
    persisted one, while the encoder is still the one held before. *)
Theorem failed_load_overwrites_the_run_flag `{Runtime} self model_dict m e :
  model_entry model_dict model_meta_name = Ok (Some (MetaMsg m)) ->
  snd (load_model self model_dict) = Err e ->
  need_run (fst (load_model self model_dict)) = label_transform_meta_pb2.need_run m /\
  label_encoder (fst (load_model self model_dict)) = label_encoder self /\
  label_list (fst (load_model self model_dict)) = label_list self.
Proof.
  intros Hm. destruct (model_entry_both _ _ model_param_name _ Hm) as (o' & Hp).
  unfold load_model. rewrite Hm, Hp.
  destruct o' as [[m' | p] |];
    [intros _; repeat split | | intros _; repeat split].
  destruct (load_items _ _ _ _) as [[kt vt] [enc | e3]]; simpl.
  - discriminate.
  - intros _. repeat split.
Qed.

(** ** Exporting and loading a discovered encoder *)

Lemma dict_set_nonempty {K V : Type} (eqb : K -> K -> bool) (d : list (K * V)) k v :
  dict_set eqb d k v <> [].
Proof. destruct d as [| [k' v'] d]; simpl; [| destruct (eqb k k')]; discriminate. Qed.

Lemma count_labels_nonempty l :
  forall acc d, count_labels l acc = Ok d -> acc <> [] \/ l <> [] -> d <> [].
Proof.
  induction l as [| [k [i | p]] l IH]; intros acc d E Hne; simpl in E.
  - inversion E; subst. destruct Hne as [Hne | Hne]; [exact Hne | congruence].
  - eapply IH; [exact E |]. left. apply dict_set_nonempty.
  - discriminate.
Qed.

Lemma set_add_nonempty s x : set_add s x <> [].
Proof.
  unfold set_add. destruct (existsb (py_eqb x) s) eqn:E.
  - destruct s; [discriminate E | discriminate].
  - destruct s; discriminate.
Qed.

Lemma fold_set_add_nonempty l : forall s, s <> [] -> fold_left set_add l s <> [].
Proof.
  induction l as [| x l IH]; intros s Hs; simpl; [exact Hs |].
  apply IH, set_add_nonempty.
Qed.

Lemma collect_predict_labels_nonempty l :
  forall acc s, collect_predict_labels l acc = Ok s -> acc <> [] \/ l <> [] -> s <> [].
Proof.
  induction l as [| [k [i | p]] l IH]; intros acc s E Hne; simpl in E.
  - inversion E; subst. destruct Hne as [Hne | Hne]; [exact Hne | congruence].
  - discriminate.
  - eapply IH; [exact E |]. left. apply fold_set_add_nonempty, set_add_nonempty.
Qed.

Lemma discover_labels_nonempty data found :
  discover_labels data = Ok found -> found <> [].
Proof.
  unfold discover_labels. destruct (first data) as [kv |] eqn:Hf; [| discriminate].
  assert (Hr : rows data <> []).
  { apply first_In in Hf. destruct (rows data); [destruct Hf | discriminate]. }
  cbn [bind]. destruct (is_Instance (snd kv)).
  - unfold get_label_count.
    destruct (count_labels (rows data) []) as [d |] eqn:E; [| discriminate].
    cbn [bind]. intros E'. inversion E'; subst.
    pose proof (count_labels_nonempty _ _ _ E (or_intror Hr)) as Hd.
    destruct d; [congruence | discriminate].
  - unfold get_predict_result_labels. intros E.
    eapply collect_predict_labels_nonempty; [exact E | right; exact Hr].
Qed.

Lemma fold_dict_set_head {K V : Type} (eqb : K -> K -> bool) (l : list (K * V)) :
  forall acc k v,
    exists v' rest,
      fold_left (fun d kv => dict_set eqb d (fst kv) (snd kv)) l ((k, v) :: acc)
        = (k, v') :: rest.
Proof.
  induction l as [| [k1 v1] l IH]; intros acc k v; simpl.
  - eauto.
  - destruct (eqb k1 k); apply IH.
Qed.

Lemma dict_of_items_head {K V : Type} (eqb : K -> K -> bool) (x : K * V) l :
  exists v' rest, dict_of_items eqb (x :: l) = (fst x, v') :: rest.
Proof. destruct x as [k v]. unfold dict_of_items. simpl. apply fold_dict_set_head. Qed.

Lemma export_items_Ok `{Runtime} ks items :
  map_result (fun key => kv <- unpack2 key ;; Ok (py_str (fst kv), py_str (snd kv))) ks
    = Ok items ->
  forallb two_chars ks = true /\ Forall2 split_key ks items.
Proof.
  revert items. induction ks as [| k ks IH]; intros items E; cbn [map_result] in E.
  - inversion E. split; [reflexivity | constructor].
  - destruct (two_chars k) eqn:H2.
    + destruct (unpack2_two_chars k H2) as (a & b & -> & Eu).
      rewrite Eu in E. cbn [bind fst snd py_str] in E.
      destruct (map_result _ ks) as [items' |] eqn:Em; cbn [bind] in E;
        [| discriminate].
      inversion E; subst items. destruct (IH items' eq_refl) as [Hk Fi].
      split.
      * cbn [forallb]. now rewrite Hk.
      * constructor; [| exact Fi]. exists a, b. auto.
    + destruct (unpack2_Err k H2) as [e Ee]. rewrite Ee in E. discriminate.
Qed.

Lemma model_entry_exported name a b :
  model_entry [("model", [(name, [(model_meta_name, a); (model_param_name, b)])])]
    model_meta_name = Ok (Some a) /\
  model_entry [("model", [(name, [(model_meta_name, a); (model_param_name, b)])])]
    model_param_name = Ok (Some b).
Proof. split; reflexivity. Qed.

Lemma load_model_fails `{Runtime} self model_dict m p e :
  model_entry model_dict model_meta_name = Ok (Some (MetaMsg m)) ->
  model_entry model_dict model_param_name = Ok (Some (ParamMsg p)) ->
  map_result (loaded_entry (label_transform_param_pb2.encoder_key_type p)
                (label_transform_param_pb2.encoder_value_type p))
    (label_transform_param_pb2.label_encoder p) = Err e ->
  snd (load_model self model_dict) = Err e.
Proof.
  intros Hm Hp He. unfold load_model. rewrite Hm, Hp.
  destruct (load_items_spec (label_transform_param_pb2.label_encoder p)
              (label_transform_param_pb2.encoder_key_type p)
              (label_transform_param_pb2.encoder_value_type p) [])
    as (kt' & vt' & E & _).
  rewrite E, He. reflexivity.
Qed.

(** X12: an encoder discovered by fit never survives the round trip
    through export_model and load_model: whenever export_model succeeds
    on the fitted component, load_model raises on the exported record. *)
Theorem fitted_encoder_never_round_trips `{Runtime}
  self data out exported self2 name :
  runtime_ok ->
  label_encoder self = None -> encoder_key_type self = None ->
  snd (fit self data) = Ok out ->
  snd (export_model (fst (fit self data))) = Ok exported ->
  exists e, snd (load_model self2 [("model", [(name, exported)])]) = Err e.
Proof.
  intros Hrt Henc Hkt Hfit Hexp. unfold fit in Hfit, Hexp.
  destruct (get_label_encoder self data) as [s [enc | e]] eqn:Hget;
    [| discriminate].
  destruct (get_label_encoder_Ok _ _ _ _ Henc Hget) as (found & labels & Hf & Hs).
  rewrite (get_label_encoder_discovers _ _ _ _ (or_introl Hrt) Henc Hkt Hf Hs) in Hget.
  inversion Hget as [[Hst Hen]]. clear Hget.
  destruct (transform_data_label data enc) as [rd |]; [| discriminate].
  cbn [fst] in Hexp. clear Hfit.
  unfold export_model, _get_param in Hexp.
  cbn [label_encoder callback_info emit set_label_encoder] in Hexp.
  cbn [bind] in Hexp.
  destruct (map_result _ (keys enc)) as [items |] eqn:Ei; cbn [bind] in Hexp;
    [| discriminate].
  cbn [snd] in Hexp. inversion Hexp; subst exported. clear Hexp.
  destruct (export_items_Ok _ _ Ei) as [H2 Fi].
  assert (Hne : keys enc <> []).
  { rewrite <- Hen, keys_combine_range. destruct (sorted_Ok _ _ Hs) as [-> _].
    intros E. apply (discover_labels_nonempty _ _ Hf).
    apply Permutation_nil. rewrite <- E. apply sort_values_perm. }
  remember (keys enc) as ks0 eqn:Hks.
  destruct Fi as [| k kv ks items' Hk Fi]; [congruence |].
  destruct Hk as (a & b & -> & ->).
  destruct (dict_of_items_head String.eqb (String a "", String b "") items')
    as (v' & rest & Ed).
  cbn [fst] in Ed.
  match goal with
  | |- context [load_model _ [(_, [(_, [(_, ?x); (_, ?y)])])]] =>
      destruct (model_entry_exported name x y) as [Em Ep]
  end.
  match type of Ep with
  | _ = Ok (Some (ParamMsg (label_transform_param_pb2.mk ?es ?kt ?vt))) =>
      assert (Hfail : exists e, map_result (loaded_entry kt vt) es = Err e)
  end.
  { rewrite Ed. cbn [map_result]. unfold loaded_entry at 1. cbn [fst snd].
    unfold tag_of at 1. rewrite <- Hst.
    cbn [encoder_key_type callback_info emit set_label_encoder discovered
         set_encoder_key_type set_encoder_value_type map_field strmap_entries].
    rewrite dict_of_items_get_None.
    - rewrite load_value_to_type_unknown by (congruence || reflexivity).
      cbn [bind]. eauto.
    - rewrite map_map. cbn [fst]. intros Hin. apply in_map_iff in Hin.
      destruct Hin as (k & Ek & Hk). rewrite Hen, <- Hks in Hk.
      rewrite forallb_forall in H2. specialize (H2 k Hk).
      destruct (unpack2_two_chars k H2) as (c & d & -> & _). discriminate. }
  destruct Hfail as [e He]. exists e.
  eapply load_model_fails; [exact Em | exact Ep | exact He].
Qed.

(** ** What fit leaves alone, and what it reports *)

Lemma get_label_encoder_frame `{Runtime} self data :
  need_run (fst (get_label_encoder self data)) = need_run self /\
  label_list (fst (get_label_encoder self data)) = label_list self /\
  model_output (fst (get_label_encoder self data)) = model_output self /\
  tracker (fst (get_label_encoder self data)) = tracker self.
Proof.
  unfold get_label_encoder.
  destruct (label_encoder self) as [enc |].
  - destruct (label_list self) as [ll |] eqn:Hll;
      match goal with |- context [rekey ?a ?b ?c] => destruct (rekey a b c) end;
      cbn; rewrite ?Hll; repeat split.
  - destruct (discover_labels data) as [found |]; cbn [bind]; [| repeat split].
    destruct (sorted found) as [labels |]; cbn [bind]; [| repeat split].
    match goal with |- context [rekey ?a ?b ?c] => destruct (rekey a b c) end.
    cbn. repeat split.
Qed.

(** X15: fit never changes the run flag, the label list or the stored
    export.  It reports only when it succeeds: the two metric events are
    then appended, carrying the encoder that fit has just stored; when
    fit raises, nothing is reported. *)
Theorem fit_reports_what_it_stored `{Runtime} self data :
  let self' := fst (fit self data) in
  need_run self' = need_run self /\
  label_list self' = label_list self /\
  model_output self' = model_output self /\
  match snd (fit self data) with
  | Ok out =>
      exists enc,
        label_encoder self' = Some enc /\
        snd (get_label_encoder self data) = Ok enc /\
        tracker self' = tracker self ++
          [CallbackMetric metric_name metric_namespace [(metric_name, 0)];
           SetMetricMeta metric_namespace metric_name "train" metric_type
             (Some enc)] /\
        schema out = schema data /\
        map fst (rows out) = map fst (rows data)
  | Err _ => tracker self' = tracker self
  end.
Proof.
  destruct (get_label_encoder_frame self data) as (F1 & F2 & F3 & F4).
  unfold fit. destruct (get_label_encoder self data) as [s [enc | e]];
    cbn [fst snd] in *.
  - destruct (transform_data_label data enc) as [rd |] eqn:Et; cbn.
    + repeat split; try assumption. exists enc. rewrite F4. repeat split.
      eapply transform_data_label_keys. exact Et.
    + repeat split; assumption.
  - repeat split; assumption.
Qed.

Lemma get_label_encoder_keeps `{Runtime} self enc kt data :
  label_encoder self = Some enc -> label_list self = None ->
  encoder_key_type self = Some (PyDict kt) ->
  distinct (keys enc) ->
  (forall k, In k (keys enc) ->
     exists tag, dict_get String.eqb kt (py_str k) = Some tag /\
                 load_value_to_type k tag = Ok k) ->
  snd (get_label_encoder self data) = Ok enc /\
  label_encoder (fst (get_label_encoder self data)) = Some enc.
Proof.
  intros Henc Hll Hkt Hd Htag. unfold get_label_encoder.
  rewrite Henc, Hll, Hkt. rewrite rekey_id by exact Htag.
  fold (dict_of_items py_eqb enc). rewrite (dict_of_items_distinct enc Hd).
  cbn. split; [reflexivity | exact Henc].
Qed.

(** X16: a component configured without encoder and without label
    list, holding no type tags yet, that discovered its encoder by a
    successful fit does not discover again: a later fit, on any dataset,
    keeps that encoder and rewrites the new dataset with it. *)
Theorem second_fit_keeps_the_encoder `{Runtime} self data out data2 :
  runtime_ok ->
  label_encoder self = None -> label_list self = None ->
  encoder_key_type self = None ->
  snd (fit self data) = Ok out ->
  exists enc,
    label_encoder (fst (fit self data)) = Some enc /\
    label_encoder (fst (fit (fst (fit self data)) data2)) = Some enc /\
    snd (fit (fst (fit self data)) data2) =
      (t <- transform_data_label data2 enc ;; Ok (set_schema t (schema data2))).
Proof.
  intros Hrt Henc Hll Hkt Hfit.
  destruct (fit self data) as [s1 r1] eqn:Efit. cbn [fst snd] in *. subst r1.
  unfold fit in Efit.
  destruct (get_label_encoder self data) as [s [enc | e]] eqn:Hget;
    [| discriminate].
  destruct (get_label_encoder_Ok _ _ _ _ Henc Hget) as (found & labels & Hf & Hs).
  rewrite (get_label_encoder_discovers _ _ _ _ (or_introl Hrt) Henc Hkt Hf Hs) in Hget.
  inversion Hget as [[Hst Hen]]. clear Hget.
  destruct (transform_data_label data enc) as [rd |]; [| discriminate].
  inversion Efit as [[Es1 Eout]]. clear Efit.
  exists enc. split; [reflexivity |].
  destruct (sorted_Ok _ _ Hs) as [Hl Hcmp].
  assert (Hkeys : keys enc = sort_values found).
  { rewrite <- Hen, keys_combine_range. exact Hl. }
  destruct (get_label_encoder_keeps
              (callback_info (set_label_encoder s (Some enc))) enc
              (dict_of_items String.eqb
                 (map (fun k => (py_str k, type_name k)) (keys enc))) data2)
    as [G1 G2].
  - reflexivity.
  - rewrite <- Hst. cbn. exact Hll.
  - rewrite <- Hst, Hen. reflexivity.
  - rewrite Hkeys. apply sort_values_distinct. eapply discover_labels_distinct, Hf.
  - intros k Hk. apply key_tag_loads; [left; exact Hrt | | exact Hk].
    intros a b Ha Hb. rewrite Hkeys in Ha, Hb.
    assert (Ha' : In a found) by (eapply Permutation_in; [apply sort_values_perm | exact Ha]).
    assert (Hb' : In b found) by (eapply Permutation_in; [apply sort_values_perm | exact Hb]).
    destruct (pairwise_in _ _ _ _ Hcmp Ha' Hb') as [E | [E | E]]; auto.
    right. unfold comparable, py_lt in *.
    destruct a, b; simpl in *; try discriminate; reflexivity.
  - unfold fit.
    destruct (get_label_encoder (callback_info (set_label_encoder s (Some enc))) data2)
      as [s2 [enc2 | e2]]; cbn [fst snd] in G1, G2; [| discriminate].
    inversion G1; subst enc2.
    destruct (transform_data_label data2 enc); split; reflexivity.
Qed.

(** ** Labels of different kinds *)

Lemma comparable_kind a b : comparable a b = true -> kind a = kind b.
Proof. destruct a, b; simpl; try discriminate; reflexivity. Qed.

Lemma py_eqb_kind a b : py_eqb a b = true -> kind a = kind b.
Proof. destruct a, b; simpl; try discriminate; reflexivity. Qed.

Lemma fold_set_add_rep l :
  forall s x, In x l ->
    exists y, In y (fold_left set_add l s) /\ kind y = kind x.
Proof.
  induction l as [| z l IH]; intros s x Hin; [destruct Hin |].
  simpl. destruct Hin as [-> | Hin]; [| apply IH; exact Hin].
  unfold set_add. destruct (existsb (py_eqb x) s) eqn:E.
  - apply existsb_exists in E. destruct E as (y & Hy & Exy).
    exists y. split; [apply fold_set_add_keeps, Hy |].
    symmetry. apply py_eqb_kind, Exy.
  - exists x. split; [| reflexivity].
    apply fold_set_add_keeps, in_or_app. right. left. reflexivity.
Qed.

(** X21: labels of different kinds cannot be told apart by discovery:
    when a dataset of one kind of record carries two labels of which one
    is a number and the other a text (or one is None and the other is
    not), fit by a component without encoder raises the TypeError of
    sorted, stores nothing and reports nothing. *)
Theorem mixed_label_kinds_raise `{Runtime} self data kr a b :
  label_encoder self = None ->
  first data = Ok kr -> one_kind data ->
  In a (label_stream data) -> In b (label_stream data) ->
  kind a <> kind b ->
  fit self data = (self, Err (TypeError "'<' not supported")).
Proof.
  intros Henc Hfirst Hkind Ha Hb Hk.
  pose proof (discover_labels_stream _ _ Hfirst Hkind) as Hfound.
  destruct (fold_set_add_rep _ [] _ Ha) as (a' & Ha' & Ka).
  destruct (fold_set_add_rep _ [] _ Hb) as (b' & Hb' & Kb).
  assert (Hs : sorted (fold_left set_add (label_stream data) [])
               = Err (TypeError "'<' not supported")).
  { unfold sorted.
    destruct (pairwise comparable (fold_left set_add (label_stream data) [])) eqn:Ep;
      [| reflexivity].
    exfalso. destruct (pairwise_in _ _ _ _ Ep Ha' Hb') as [E | [E | E]].
    - subst b'. congruence.
    - apply comparable_kind in E. congruence.
    - apply comparable_kind in E. congruence. }
  unfold fit, get_label_encoder. rewrite Henc, Hfound. cbn [bind].
  rewrite Hs. reflexivity.
Qed.

(** ** Discovery over the same population *)

Lemma xnum_eqb_ltb_l x x' y : xnum_eqb x x' = true -> xnum_ltb x y = xnum_ltb x' y.
Proof.
  destruct x, x', y; cbn [xnum_eqb xnum_ltb]; try discriminate; try reflexivity.
  intros E. apply Qeq_bool_iff in E. now rewrite E.
Qed.

Lemma xnum_eqb_ltb_r x y y' : xnum_eqb y y' = true -> xnum_ltb x y = xnum_ltb x y'.
Proof.
  destruct x, y, y'; cbn [xnum_eqb xnum_ltb]; try discriminate; try reflexivity.
  intros E. apply Qeq_bool_iff in E. now rewrite E.
Qed.

(** [<] does not tell apart two labels that are equal under [==]. *)
Lemma py_eqb_ltb_l a a' b : py_eqb a a' = true -> py_ltb a b = py_ltb a' b.
Proof.
  destruct a as [| x | f | s], a' as [| y | g | t];
    try (intros E; discriminate E); try (intros _; reflexivity);
    try (destruct b as [| z | h | u]; try (intros _; reflexivity);
         match goal with
         | |- py_eqb ?a ?a' = true -> py_ltb ?a ?b = _ =>
             rewrite (py_eqb_num a a' _ _ eq_refl eq_refl),
                     (py_ltb_num a b _ _ eq_refl eq_refl),
                     (py_ltb_num a' b _ _ eq_refl eq_refl);
             apply xnum_eqb_ltb_l
         end).
  rewrite py_eqb_text. now intros ->.
Qed.

Lemma py_eqb_ltb_r a b b' : py_eqb b b' = true -> py_ltb a b = py_ltb a b'.
Proof.
  destruct b as [| x | f | s], b' as [| y | g | t];
    try (intros E; discriminate E); try (intros _; reflexivity);
    try (destruct a as [| z | h | u]; try (intros _; reflexivity);
         match goal with
         | |- py_eqb ?b ?b' = true -> py_ltb ?a ?b = _ =>
             rewrite (py_eqb_num b b' _ _ eq_refl eq_refl),
                     (py_ltb_num a b _ _ eq_refl eq_refl),
                     (py_ltb_num a b' _ _ eq_refl eq_refl);
             apply xnum_eqb_ltb_r
         end).
  rewrite py_eqb_text. now intros ->.
Qed.

Lemma py_ltb_irrefl a : py_ltb a a = false.
Proof.
  destruct (py_ltb a a) eqn:E; [| reflexivity].
  pose proof (py_ltb_asym _ _ E). congruence.
Qed.

Lemma py_eqb_not_ltb a b : py_eqb a b = true -> py_ltb a b = false.
Proof. intros E. rewrite (py_eqb_ltb_l a b b E). apply py_ltb_irrefl. Qed.

Lemma py_eqb_cong_r l k k' : py_eqb k k' = true -> py_eqb l k = py_eqb l k'.
Proof.
  intros E. destruct (py_eqb l k) eqn:E1, (py_eqb l k') eqn:E2; try reflexivity.
  - rewrite (py_eqb_trans _ _ _ E1 E) in E2. discriminate.
  - rewrite py_eqb_sym in E. rewrite (py_eqb_trans _ _ _ E2 E) in E1. discriminate.
Qed.

(** Two lists in increasing order that hold the same labels under [==]
    agree place by place. *)
Lemma sorted_same_population l1 :
  forall l2,
    StronglySorted lt_value l1 -> StronglySorted lt_value l2 ->
    same_population l1 l2 ->
    Forall2 (fun a b => py_eqb a b = true) l1 l2.
Proof.
  induction l1 as [| x r1 IH]; intros [| y r2] S1 S2 [C1 C2].
  - constructor.
  - destruct (C2 y (or_introl eq_refl)) as (x' & [] & _).
  - destruct (C1 x (or_introl eq_refl)) as (y' & [] & _).
  - inversion S1 as [| ? ? S1' F1]; subst. inversion S2 as [| ? ? S2' F2]; subst.
    rewrite Forall_forall in F1, F2. unfold lt_value in F1, F2.
    assert (Hxy : py_eqb x y = true).
    { destruct (C1 x (or_introl eq_refl)) as (y' & [<- | Hy'] & Exy'); [exact Exy' |].
      destruct (C2 y (or_introl eq_refl)) as (x' & [<- | Hx'] & Eyx');
        [rewrite py_eqb_sym; exact Eyx' |].
      exfalso.
      pose proof (F2 y' Hy') as Lyy'. pose proof (F1 x' Hx') as Lxx'.
      rewrite py_eqb_sym in Exy'. rewrite (py_eqb_ltb_r y y' x Exy') in Lyy'.
      rewrite py_eqb_sym in Eyx'. rewrite (py_eqb_ltb_r x x' y Eyx') in Lxx'.
      pose proof (py_ltb_asym _ _ Lxx'). congruence. }
    constructor; [exact Hxy |]. apply IH; [exact S1' | exact S2' |]. split.
    + intros a Ha. destruct (C1 a (or_intror Ha)) as (b & [<- | Hb] & Eab); [| eauto].
      exfalso. pose proof (F1 a Ha) as Lxa.
      assert (Exa : py_eqb x a = true).
      { eapply py_eqb_trans; [exact Hxy |]. rewrite py_eqb_sym. exact Eab. }
      rewrite (py_eqb_not_ltb _ _ Exa) in Lxa. discriminate.
    + intros b Hb. destruct (C2 b (or_intror Hb)) as (a & [<- | Ha] & Eba); [| eauto].
      exfalso. pose proof (F2 b Hb) as Lyb.
      assert (Eyb : py_eqb y b = true).
      { rewrite py_eqb_sym in Hxy. eapply py_eqb_trans; [exact Hxy |].
        rewrite py_eqb_sym. exact Eba. }
      rewrite (py_eqb_not_ltb _ _ Eyb) in Lyb. discriminate.
Qed.

Lemma fold_set_add_sub l :
  forall s y, In y (fold_left set_add l s) -> In y s \/ In y l.
Proof.
  induction l as [| x l IH]; intros s y Hy; simpl in *; [auto |].
  destruct (IH _ _ Hy) as [H | H]; [| auto].
  unfold set_add in H. destruct (existsb (py_eqb x) s); [auto |].
  apply in_app_or in H. destruct H as [H | [<- | []]]; auto.
Qed.

Lemma py_eqb_number a b : py_eqb a b = true -> is_number b = true -> is_number a = true.
Proof.
  destruct b as [| y | g | t]; try (intros _ E; discriminate E);
    destruct a as [| x | [s | [|] | | s m e] | u];
    try (intros E; discriminate E); intros _ _; reflexivity.
Qed.

Lemma py_eqb_is_text a b : py_eqb a b = true -> is_text b = true -> is_text a = true.
Proof.
  destruct b as [| y | g | t]; try (intros _ E; discriminate E);
    destruct a as [| x | f | u]; try (intros E; discriminate E); intros _ _; reflexivity.
Qed.

Lemma py_eqb_is_none a b : py_eqb a b = true -> is_none b = true -> is_none a = true.
Proof.
  destruct b as [| y | g | t]; try (intros _ E; discriminate E);
    destruct a as [| x | f | u]; try (intros E; discriminate E); intros _ _; reflexivity.
Qed.

Lemma sortable_reflexive l : sortable l -> reflexive l.
Proof.
  intros [H | H]; [apply numbers_or_text_reflexive, H |].
  intros v Hv. rewrite forallb_forall in H. specialize (H v Hv).
  destruct v; try discriminate. reflexivity.
Qed.

Lemma same_population_sortable l1 l2 :
  same_population l1 l2 -> sortable l1 -> sortable l2.
Proof.
  intros [_ C2] [[H | H] | H]; [left; left | left; right | right];
    rewrite forallb_forall in *; intros y Hy;
    destruct (C2 y Hy) as (x & Hx & E).
  - eapply py_eqb_number; [exact E | apply H, Hx].
  - eapply py_eqb_is_text; [exact E | apply H, Hx].
  - eapply py_eqb_is_none; [exact E | apply H, Hx].
Qed.

Lemma fold_set_add_none l :
  forallb is_none l = true ->
  forall s, s = [] \/ s = [VNone] ->
    fold_left set_add l s = [] \/ fold_left set_add l s = [VNone].
Proof.
  induction l as [| x l IH]; intros Hl s Hs; simpl; [exact Hs |].
  simpl in Hl. apply andb_true_iff in Hl. destruct Hl as [Hx Hl].
  destruct x; try discriminate. apply IH; [exact Hl |].
  destruct Hs as [-> | ->]; right; reflexivity.
Qed.

(** What the scan finds in a sortable population is sorted without
    error into increasing order. *)
Lemma sortable_sorted l :
  sortable l ->
  sorted (fold_left set_add l []) = Ok (sort_values (fold_left set_add l [])) /\
  StronglySorted lt_value (sort_values (fold_left set_add l [])).
Proof.
  intros [H | H].
  - pose proof (numbers_or_text_dedupe _ H) as Hd. split.
    + apply sorted_total. destruct Hd as [Hc | Hc]; [left | right; left]; exact Hc.
    + apply sort_values_sorted_population; [exact Hd |].
      now apply fold_set_add_distinct.
  - destruct (fold_set_add_none l H [] (or_introl eq_refl)) as [-> | ->].
    + split; [reflexivity | constructor].
    + split; [reflexivity | repeat constructor].
Qed.

Lemma dedupe_same_population l1 l2 :
  same_population l1 l2 ->
  same_population (sort_values (fold_left set_add l1 []))
                  (sort_values (fold_left set_add l2 [])).
Proof.
  assert (G : forall l l', (forall x, In x l -> exists y, In y l' /\ py_eqb x y = true) ->
            forall x, In x (sort_values (fold_left set_add l [])) ->
              exists y, In y (sort_values (fold_left set_add l' [])) /\ py_eqb x y = true).
  { intros l l' C x Hx.
    apply (Permutation_in _ (sort_values_perm _)) in Hx.
    apply fold_set_add_sub in Hx. destruct Hx as [[] | Hx].
    destruct (C x Hx) as (y & Hy & Exy).
    assert (Eyy : py_eqb y y = true).
    { eapply py_eqb_trans; [| exact Exy]. rewrite py_eqb_sym. exact Exy. }
    destruct (fold_set_add_covers l' [] y Hy Eyy) as (z & Hz & Eyz).
    exists z. split.
    - eapply Permutation_in; [apply Permutation_sym, sort_values_perm | exact Hz].
    - eapply py_eqb_trans; eassumption. }
  intros [C1 C2]. split; apply G; assumption.
Qed.

Lemma combine_range_same_entries l1 l2 :
  Forall2 (fun a b => py_eqb a b = true) l1 l2 ->
  same_entries (combine l1 (range (List.length l1)))
               (combine l2 (range (List.length l2))).
Proof.
  unfold range, same_entries. intros HF. generalize 0%nat.
  induction HF as [| a b l1 l2 E _ IH]; intros n; cbn [List.length seq map combine].
  - constructor.
  - constructor; [split; [exact E | reflexivity] | apply IH].
Qed.

(** Two dictionaries with the same entries give every label the same
    value. *)
Lemma same_entries_get d d' :
  same_entries d d' -> forall l, dict_get py_eqb d l = dict_get py_eqb d' l.
Proof.
  induction 1 as [| [k v] [k' v'] d d' [E Ev] _ IH]; intros l; [reflexivity |].
  cbn [fst snd] in E, Ev. subst v'. cbn [dict_get].
  rewrite (py_eqb_cong_r l k k' E), IH. reflexivity.
Qed.

Lemma exact_value_eq a b :
  py_eqb a b = true ->
  is_int a = true \/ is_text a = true -> is_int b = true \/ is_text b = true -> a = b.
Proof.
  destruct a as [| x | f | s], b as [| y | g | t]; intros E [Ha | Ha] [Hb | Hb];
    try discriminate.
  - rewrite py_eqb_int in E. apply Z.eqb_eq in E. now subst.
  - apply py_eqb_text in E. now subst.
Qed.

Lemma exact_population_In l v :
  exact_population l -> In v l -> is_int v = true \/ is_text v = true.
Proof.
  intros [H | H] Hv; rewrite forallb_forall in H; [left | right]; apply H, Hv.
Qed.

Lemma same_entries_exact d d' :
  same_entries d d' ->
  (forall k, In k (keys d) -> is_int k = true \/ is_text k = true) ->
  (forall k, In k (keys d') -> is_int k = true \/ is_text k = true) ->
  d = d'.
Proof.
  induction 1 as [| [k v] [k' v'] d d' [E Ev] _ IH]; intros H1 H2; [reflexivity |].
  cbn [fst snd] in E, Ev. subst v'.
  rewrite (exact_value_eq k k' E (H1 k (or_introl eq_refl)) (H2 k' (or_introl eq_refl))).
  f_equal. apply IH; intros x Hx; [apply H1 | apply H2]; right; exact Hx.
Qed.

Lemma range_length n : List.length (range n) = n.
Proof. unfold range. now rewrite length_map, length_seq. Qed.

(** C4, as the code has it: two discovery runs over non-empty datasets
    of one kind of record that hold the same labels under [==], the
    labels being all numbers other than NaN, or all text, or all None,
    both succeed, in whatever order and how often the records carry the
    labels.  The two encoders have the same entries, place by place:
    keys equal under [==] with the same ids, so every label is given
    the same id by both; they are the same dictionary when the labels
    are integers or text.  The keys are labels of the dataset in
    strictly increasing order under [<], the ids are 0, 1, ..., n-1 in
    that order, and every label of the dataset has an id. *)
Theorem discovery_deterministic `{Runtime} self1 self2 data1 data2 kr1 kr2 :
  runtime_ok ->
  label_encoder self1 = None -> encoder_key_type self1 = None ->
  label_encoder self2 = None -> encoder_key_type self2 = None ->
  first data1 = Ok kr1 -> first data2 = Ok kr2 ->
  one_kind data1 -> one_kind data2 ->
  sortable (label_stream data1) ->
  same_population (label_stream data1) (label_stream data2) ->
  exists enc1 enc2,
    snd (get_label_encoder self1 data1) = Ok enc1 /\
    snd (get_label_encoder self2 data2) = Ok enc2 /\
    same_entries enc1 enc2 /\
    (forall l, dict_get py_eqb enc1 l = dict_get py_eqb enc2 l) /\
    (exact_population (label_stream data1) ->
     exact_population (label_stream data2) -> enc1 = enc2) /\
    StronglySorted lt_value (keys enc1) /\
    values enc1 = range (List.length enc1) /\
    (forall k, In k (keys enc1) -> In k (label_stream data1)) /\
    (forall x, In x (label_stream data1) -> dict_get py_eqb enc1 x <> None).
Proof.
  intros Hrt He1 Hk1 He2 Hk2 Hf1 Hf2 K1 K2 Hs1 Hpop.
  pose proof (same_population_sortable _ _ Hpop Hs1) as Hs2.
  pose proof (sortable_reflexive _ Hs1) as Hr1.
  set (found1 := fold_left set_add (label_stream data1) []).
  set (found2 := fold_left set_add (label_stream data2) []).
  pose proof (discover_labels_stream _ _ Hf1 K1) as D1.
  pose proof (discover_labels_stream _ _ Hf2 K2) as D2.
  destruct (sortable_sorted _ Hs1) as [So1 St1].
  destruct (sortable_sorted _ Hs2) as [So2 St2].
  fold found1 in D1, So1, St1. fold found2 in D2, So2, St2.
  pose proof (dedupe_same_population _ _ Hpop) as Hsp.
  fold found1 found2 in Hsp.
  pose proof (sorted_same_population _ _ St1 St2 Hsp) as HF.
  set (enc1 := combine (sort_values found1) (range (List.length (sort_values found1)))).
  set (enc2 := combine (sort_values found2) (range (List.length (sort_values found2)))).
  assert (Hse : same_entries enc1 enc2) by (apply combine_range_same_entries, HF).
  assert (Hkeys : keys enc1 = sort_values found1) by apply keys_combine_range.
  assert (Hin1 : forall k, In k (keys enc1) -> In k (label_stream data1)).
  { intros k Hk. rewrite Hkeys in Hk.
    apply (Permutation_in _ (sort_values_perm _)) in Hk.
    apply fold_set_add_sub in Hk. destruct Hk as [[] | Hk]. exact Hk. }
  exists enc1, enc2.
  rewrite (get_label_encoder_discovers self1 data1 found1 (sort_values found1)
             (or_introl Hrt) He1 Hk1 D1 So1).
  rewrite (get_label_encoder_discovers self2 data2 found2 (sort_values found2)
             (or_introl Hrt) He2 Hk2 D2 So2).
  cbn [snd]. fold enc1 enc2.
  split; [reflexivity |]. split; [reflexivity |]. split; [exact Hse |].
  split; [apply same_entries_get, Hse |].
  split.
  { intros X1 X2. apply same_entries_exact; [exact Hse | |].
    - intros k Hk. apply (exact_population_In _ _ X1), Hin1, Hk.
    - intros k Hk. apply (exact_population_In _ _ X2).
      unfold enc2 in Hk. rewrite keys_combine_range in Hk.
      apply (Permutation_in _ (sort_values_perm _)) in Hk.
      apply fold_set_add_sub in Hk. destruct Hk as [[] | Hk]. exact Hk. }
  split; [rewrite Hkeys; exact St1 |].
  split.
  { unfold enc1. rewrite values_combine_range, length_combine, range_length.
    now rewrite Nat.min_id. }
  split; [exact Hin1 |].
  intros x Hx.
  destruct (fold_set_add_covers _ [] x Hx (Hr1 x Hx)) as (y & Hy & Exy).
  fold found1 in Hy.
  apply (dict_get_present enc1 x y); [| exact Exy].
  rewrite Hkeys.
  eapply Permutation_in; [apply Permutation_sym, sort_values_perm | exact Hy].
Qed.

(** C4, as stated, fails when a label is NaN: [<] does not order NaN,
    and two datasets with the labels 0.0 and NaN give 0.0 the id 0 when
    it comes first and the id 1 when NaN comes first. *)
Lemma nan_labels_follow_record_order :
  (forall x, In x (label_stream nan_last) <-> In x (label_stream nan_first)) /\
  snd (@get_label_encoder sample_runtime fresh nan_last)
    = Ok [(VFloat (S754_zero false), VInt 0); (VFloat S754_nan, VInt 1)] /\
  snd (@get_label_encoder sample_runtime fresh nan_first)
    = Ok [(VFloat S754_nan, VInt 0); (VFloat (S754_zero false), VInt 1)] /\
  snd (@get_label_encoder sample_runtime fresh nan_last)
    <> snd (@get_label_encoder sample_runtime fresh nan_first).
Proof.
  assert (E1 : snd (@get_label_encoder sample_runtime fresh nan_last)
               = Ok [(VFloat (S754_zero false), VInt 0); (VFloat S754_nan, VInt 1)])
    by (vm_compute; reflexivity).
  assert (E2 : snd (@get_label_encoder sample_runtime fresh nan_first)
               = Ok [(VFloat S754_nan, VInt 0); (VFloat (S754_zero false), VInt 1)])
    by (vm_compute; reflexivity).
  split; [intros x; simpl; tauto |].
  split; [exact E1 |]. split; [exact E2 |].
  rewrite E1, E2. discriminate.
Qed.

(** ** The further statements at concrete inputs *)

Lemma fit_then_transform_restores_predictions_witness :
  exists out back,
    snd (@fit sample_runtime fresh predictions) = Ok out /\
    snd (transform (fst (@fit sample_runtime fresh predictions)) out) = Ok back /\
    schema back = schema predictions /\
    Forall2 restored (rows predictions) (rows back).
Proof.
  apply (@fit_then_transform_restores_predictions sample_runtime fresh predictions
           (VInt 0, pet_prediction) sample_runtime_ok).
  - reflexivity.
  - reflexivity.
  - reflexivity.
  - intros kr [<- | []]. eexists. split; reflexivity.
  - right. reflexivity.
Defined.

Lemma same_id_iff_equal_label_witness :
  label (mkInstance VNone VNone [] (VInt 1)) = label (mkInstance VNone (VInt 3) [] (VInt 1))
  <-> py_eqb (VStr "dog") (VStr "dog") = true.
Proof.
  apply (same_id_iff_equal_label pets_encoder
           (mkInstance VNone VNone [] (VStr "dog"))
           (mkInstance VNone (VInt 3) [] (VStr "dog"))).
  - reflexivity.
  - intros v [<- | [<- | [<- | []]]]; reflexivity.
  - reflexivity.
  - reflexivity.
  - reflexivity.
  - reflexivity.
Defined.

Lemma discovered_ids_follow_order_witness :
  py_ltb (VStr "cat") (VStr "dog") = true <-> 0 < 1.
Proof.
  apply (@discovered_ids_follow_order sample_runtime fresh pets
           (fst (@get_label_encoder sample_runtime fresh pets)) pets_encoder
           [VStr "fish"; VStr "cat"; VStr "dog"] (VStr "cat") (VStr "dog") 0 1
           sample_runtime_ok).
  - reflexivity.
  - reflexivity.
  - vm_compute. reflexivity.
  - right. reflexivity.
  - vm_compute. reflexivity.
  - left. reflexivity.
  - right. left. reflexivity.
Defined.

Lemma supplied_encoder_is_used_as_is_witness :
  snd (@get_label_encoder sample_runtime configured numbers) = Ok pets_encoder /\
  label_encoder (fst (@get_label_encoder sample_runtime configured numbers))
    = Some pets_encoder /\
  label_encoder (fst (@fit sample_runtime configured numbers)) = Some pets_encoder /\
  snd (@fit sample_runtime configured numbers) =
    (t <- transform_data_label numbers pets_encoder ;;
     Ok (set_schema t (schema numbers))).
Proof.
  apply (@supplied_encoder_is_used_as_is sample_runtime configured pets_encoder
           numbers (proj1 sample_runtime_ok)).
  - reflexivity.
  - reflexivity.
  - reflexivity.
  - reflexivity.
  - intros a b [<- | [<- | [<- | []]]] [<- | [<- | [<- | []]]] _; reflexivity.
Defined.

Lemma label_list_must_cover_the_keys_witness :
  (exists e, snd (@get_label_encoder sample_runtime short_listed pets) = Err e) /\
  (exists e, snd (@fit sample_runtime short_listed pets) = Err e).
Proof.
  apply (@label_list_must_cover_the_keys sample_runtime short_listed pets_encoder
           [VStr "cat"; VStr "dog"] (VStr "fish") pets).
  - reflexivity.
  - reflexivity.
  - right. right. left. reflexivity.
  - intros v [<- | [<- | []]]; discriminate.
Defined.

Lemma label_list_types_the_keys_witness :
  snd (@get_label_encoder sample_runtime listed pets)
    = Ok (dict_of_items py_eqb [(VInt 1, VStr "a"); (VInt 2, VStr "b")]).
Proof.
  apply (@label_list_types_the_keys sample_runtime listed
           [(VStr "1", VStr "a"); (VStr "2", VStr "b")] [VInt 1; VInt 2] "int").
  - reflexivity.
  - reflexivity.
  - intros v [<- | [<- | []]]; reflexivity.
  - intros k [<- | [<- | []]].
    + exists (VInt 1). split; [left; reflexivity | reflexivity].
    + exists (VInt 2). split; [right; left; reflexivity | reflexivity].
  - reflexivity.
Defined.

Lemma transform_repeats_fit_witness :
  exists out,
    snd (@fit sample_runtime fresh pets) = Ok out /\
    snd (transform (fst (@fit sample_runtime fresh pets)) pets) = Ok out /\
    label_encoder (fst (transform (fst (@fit sample_runtime fresh pets)) pets))
      = label_encoder (fst (@fit sample_runtime fresh pets)).
Proof.
  exists (table_of [inst (VInt 2); inst (VInt 0); inst (VInt 1); inst (VInt 0)]).
  assert (E : snd (@fit sample_runtime fresh pets)
              = Ok (table_of [inst (VInt 2); inst (VInt 0); inst (VInt 1); inst (VInt 0)]))
    by (vm_compute; reflexivity).
  split; [exact E |].
  apply (@transform_repeats_fit sample_runtime fresh pets (VInt 0, inst (VStr "fish"))).
  - reflexivity.
  - reflexivity.
  - exact E.
Defined.

Lemma mixed_kinds_raise_witness :
  exists e, transform fitted_pets mixed = (fitted_pets, Err e).
Proof.
  apply (mixed_kinds_raise fitted_pets pets_encoder mixed
           (VInt 0, inst (VStr "cat")) (VInt 1, pet_prediction)).
  - vm_compute. reflexivity.
  - reflexivity.
  - right. left. reflexivity.
  - discriminate.
Defined.

Lemma export_persists_split_keys_witness :
  exists items,
    Forall2 split_key [VStr "ab"; VStr "cd"] items /\
    let exported :=
      [(model_meta_name, MetaMsg (label_transform_meta_pb2.mk (need_run fitted_pairs)));
       (model_param_name,
        ParamMsg (label_transform_param_pb2.mk
                    (dict_of_items String.eqb items)
                    (map_field (encoder_key_type fitted_pairs))
                    (map_field (encoder_value_type fitted_pairs))))] in
    @export_model sample_runtime fitted_pairs
      = (set_model_output fitted_pairs (Some exported), Ok exported).
Proof.
  apply (@export_persists_split_keys sample_runtime fitted_pairs
           [(VStr "ab", VInt 0); (VStr "cd", VInt 1)]).
  - vm_compute. reflexivity.
  - reflexivity.
Defined.

Lemma fitted_encoder_never_round_trips_witness :
  exists exported,
    snd (@export_model sample_runtime fitted_pairs) = Ok exported /\
    exists e,
      snd (@load_model sample_runtime fresh [("model", [("label_transform_0", exported)])])
        = Err e.
Proof.
  assert (E : exists exported,
             snd (@export_model sample_runtime fitted_pairs) = Ok exported).
  { eexists. vm_compute. reflexivity. }
  destruct E as [exported E]. exists exported. split; [exact E |].
  apply (@fitted_encoder_never_round_trips sample_runtime fresh
           (table_of [inst (VStr "ab"); inst (VStr "cd")])
           (table_of [inst (VInt 0); inst (VInt 1)]) exported fresh
           "label_transform_0" sample_runtime_ok).
  - reflexivity.
  - reflexivity.
  - vm_compute. reflexivity.
  - exact E.
Defined.

Lemma load_model_reconstructs_witness :
  snd (@load_model sample_runtime fresh good_model) = Ok tt /\
  need_run (fst (@load_model sample_runtime fresh good_model)) = false /\
  exists enc,
    label_encoder (fst (@load_model sample_runtime fresh good_model)) = Some enc /\
    Permutation enc [(VStr "cat", VInt 0); (VStr "dog", VInt 1)] /\
    List.length enc = 2%nat.
Proof.
  destruct (@load_model_reconstructs sample_runtime fresh good_model
              (label_transform_meta_pb2.mk false)
              (label_transform_param_pb2.mk
                 [("cat", "0"); ("dog", "1")]
                 [("cat", "str"); ("dog", "str")]
                 [("cat", "int"); ("dog", "int")])
              eq_refl eq_refl) as (Hres & _ & Hstate).
  destruct (Hstate [(VStr "cat", VInt 0); (VStr "dog", VInt 1)] eq_refl)
    as (Hn & _ & _ & He).
  split.
  - apply Hres. intros kv [<- | [<- | []]]; eexists _, _; split; reflexivity.
  - split; [exact Hn | apply He; reflexivity].
Defined.

Lemma failed_load_overwrites_the_run_flag_witness :
  need_run fresh = true /\
  need_run (fst (@load_model sample_runtime fresh bad_model_off)) = false /\
  label_encoder (fst (@load_model sample_runtime fresh bad_model_off)) = None.
Proof.
  split; [reflexivity |].
  destruct (@failed_load_overwrites_the_run_flag sample_runtime fresh bad_model_off
              (label_transform_meta_pb2.mk false)
              (ValueError "unknown value type: bool") eq_refl)
    as (Hn & He & _).
  - vm_compute. reflexivity.
  - split; [exact Hn | exact He].
Defined.

Lemma second_fit_keeps_the_encoder_witness :
  exists enc,
    label_encoder (fst (@fit sample_runtime fresh pets)) = Some enc /\
    label_encoder (fst (@fit sample_runtime (fst (@fit sample_runtime fresh pets)) numbers))
      = Some enc /\
    snd (@fit sample_runtime (fst (@fit sample_runtime fresh pets)) numbers) =
      (t <- transform_data_label numbers enc ;; Ok (set_schema t (schema numbers))).
Proof.
  apply (@second_fit_keeps_the_encoder sample_runtime fresh pets
           (table_of [inst (VInt 2); inst (VInt 0); inst (VInt 1); inst (VInt 0)])
           numbers sample_runtime_ok).
  - reflexivity.
  - reflexivity.
  - reflexivity.
  - vm_compute. reflexivity.
Defined.

Lemma fit_encodes_instances_witness :
  exists out,
    snd (@fit sample_runtime fresh pets) = Ok out /\
    label_encoder (fst (@fit sample_runtime fresh pets))
      = Some (combine (sort_values (fold_left set_add (label_stream pets) []))
                (range (List.length (fold_left set_add (label_stream pets) [])))) /\
    schema out = schema pets /\
    Forall2 (encoded_row
               (combine (sort_values (fold_left set_add (label_stream pets) []))
                  (range (List.length (fold_left set_add (label_stream pets) []))))
               (List.length (fold_left set_add (label_stream pets) [])))
      (rows pets) (rows out).
Proof.
  apply (@fit_encodes_instances sample_runtime fresh pets (VInt 0, inst (VStr "fish"))
           sample_runtime_ok).
  - reflexivity.
  - reflexivity.
  - reflexivity.
  - intros kr [<- | [<- | [<- | [<- | []]]]]; reflexivity.
  - right. reflexivity.
Defined.

Lemma invert_involutive_witness : invert (invert pets_encoder) = pets_encoder.
Proof.
  apply (invert_involutive pets_encoder).
  - reflexivity.
  - reflexivity.
  - intros v [<- | [<- | [<- | []]]]; reflexivity.
  - intros v [<- | [<- | [<- | []]]]; reflexivity.
Defined.

Lemma discovery_ignores_record_order_witness :
  exists enc,
    snd (@get_label_encoder sample_runtime fresh pets) = Ok enc /\
    snd (@get_label_encoder sample_runtime fresh pets_reordered) = Ok enc.
Proof.
  apply (@discovery_ignores_record_order sample_runtime fresh fresh pets pets_reordered
           (VInt 0, inst (VStr "fish")) (VInt 0, inst (VStr "dog")) sample_runtime_ok).
  - reflexivity.
  - reflexivity.
  - reflexivity.
  - reflexivity.
  - reflexivity.
  - reflexivity.
  - intros a b [<- | [<- | [<- | [<- | []]]]] [<- | [<- | [<- | [<- | []]]]]; reflexivity.
  - intros a b [<- | [<- | [<- | [<- | []]]]] [<- | [<- | [<- | [<- | []]]]]; reflexivity.
  - right. reflexivity.
  - intros x. simpl. tauto.
Defined.

Lemma unmapped_label_aborts_transform_witness :
  exists e, transform fitted_pets with_bird = (fitted_pets, Err e).
Proof.
  apply (unmapped_label_aborts_transform fitted_pets with_bird pets_encoder
           (VInt 0) (mkInstance VNone VNone [] (VStr "cat"))
           (VInt 1) (mkInstance VNone VNone [] (VStr "bird"))).
  - vm_compute. reflexivity.
  - reflexivity.
  - right. left. reflexivity.
  - reflexivity.
Defined.

Lemma mixed_label_kinds_raise_witness :
  @fit sample_runtime fresh two_kinds = (fresh, Err (TypeError "'<' not supported")).
Proof.
  apply (@mixed_label_kinds_raise sample_runtime fresh two_kinds
           (VInt 0, inst (VInt 1)) (VInt 1) (VStr "one")).
  - reflexivity.
  - reflexivity.
  - intros x y [<- | [<- | []]] [<- | [<- | []]]; reflexivity.
  - left. reflexivity.
  - right. left. reflexivity.
  - discriminate.
Defined.

Lemma remapped_keys_values enc (d items : dict value value) :
  remapped enc d items -> forall k, In k (keys items) -> In k (values enc).
Proof.
  induction 1 as [| ks ks' d items [Hg _] _ IH]; intros k Hk; [destruct Hk |].
  destruct Hk as [<- | Hk]; [| apply IH, Hk].
  eapply dict_get_value. exact Hg.
Qed.

Lemma replace_predict_label_frame_witness :
  exists h' r' t' q' items,
    replace_predict_label_obj 0 (invert pets_encoder) one_prediction = (h', Ok r') /\
    preserved one_prediction h' /\ holds h' 0%nat looked_up /\
    holds h' r' (mkPredict t' q' (predict_score looked_up) items) /\
    dict_get py_eqb (invert pets_encoder) (true_label looked_up) = Some t' /\
    dict_get py_eqb (invert pets_encoder) (predict_label looked_up) = Some q' /\
    remapped (invert pets_encoder) (predict_detail looked_up) items /\
    values items = values (predict_detail looked_up) /\
    replace_predict_label (RPredict looked_up) (invert pets_encoder) =
      Ok (RPredict (mkPredict t' q' (predict_score looked_up) items)).
Proof.
  apply (replace_predict_label_frame (invert pets_encoder) one_prediction 0 looked_up).
  - exists 0%nat. split; reflexivity.
  - intros k [-> | [-> | Hk]]; try discriminate.
    simpl in Hk. destruct Hk as [<- | [<- | [<- | []]]]; discriminate.
  - intros items HR. split.
    + apply (remapped_distinct (invert pets_encoder) (predict_detail looked_up));
        [reflexivity | reflexivity | exact HR].
    + intros k Hk. apply (remapped_keys_values _ _ _ HR) in Hk.
      destruct Hk as [<- | [<- | [<- | []]]]; reflexivity.
Defined.

Lemma discovery_deterministic_witness :
  exists enc1 enc2,
    snd (@get_label_encoder sample_runtime fresh pets) = Ok enc1 /\
    snd (@get_label_encoder sample_runtime fresh pets_reordered) = Ok enc2 /\
    same_entries enc1 enc2 /\
    (forall l, dict_get py_eqb enc1 l = dict_get py_eqb enc2 l) /\
    (exact_population (label_stream pets) ->
     exact_population (label_stream pets_reordered) -> enc1 = enc2) /\
    StronglySorted lt_value (keys enc1) /\
    values enc1 = range (List.length enc1) /\
    (forall k, In k (keys enc1) -> In k (label_stream pets)) /\
    (forall x, In x (label_stream pets) -> dict_get py_eqb enc1 x <> None).
Proof.
  apply (@discovery_deterministic sample_runtime fresh fresh pets pets_reordered
           (VInt 0, inst (VStr "fish")) (VInt 0, inst (VStr "dog")) sample_runtime_ok).
  - reflexivity.
  - reflexivity.
  - reflexivity.
  - reflexivity.
  - reflexivity.
  - reflexivity.
  - intros a b [<- | [<- | [<- | [<- | []]]]] [<- | [<- | [<- | [<- | []]]]]; reflexivity.
  - intros a b [<- | [<- | [<- | [<- | []]]]] [<- | [<- | [<- | [<- | []]]]]; reflexivity.
  - left. right. reflexivity.
  - split; intros x Hx; exists x;
      (split; [simpl in *; tauto
              | destruct Hx as [<- | [<- | [<- | [<- | []]]]]; reflexivity]).
Defined.
